(** * ClimateBud: query interpretation and statistical analysis

    A shallow embedding of [core/query_processor.py] (the rule-based
    fallback parser) and [core/analysis_engine.py] (the pandas-based
    analysis engine), with the properties of the specification stated
    and settled against them.

    Conventions of the embedding:
    - Python [str] values are [string]s of ASCII text; [str.lower],
      [str.title] and the character classes of [re] are given on the
      ASCII range.
    - A raised exception is a value [Raise e] of the [result] type.
    - A binary64 number is represented by the exact number it stands
      for: a rational where the computation is rational ([Q]), a real
      where the library routine is irrational ([R]).
    - A [DataFrame] lives in a store and is named by a reference, so
      that in-place column assignment is visible to every holder of
      the reference. *)

From Stdlib Require Import ZArith QArith Qround Qabs Reals Lqa Lra Lia List String Ascii Bool.
From Stdlib Require Import DecimalString DecimalN.
From stdpp Require Import base option list gmap strings.
Import ListNotations.

Local Open Scope string_scope.
Local Open Scope list_scope.
Local Open Scope Z_scope.

(** ** Python results: a value or a raised exception *)

(** The exceptions the two modules can raise: [KeyError] carries the
    missing column or key, [ValueError] is raised by [int] and by the
    date formatting of a missing timestamp, [OverflowError] by date
    arithmetic leaving the range of [datetime], and [TypeError] stands
    for every operation applied to a column of a kind it does not
    accept. *)
Inductive exn : Type :=
| KeyError (key : string)
| ValueError
| OverflowError
| TypeError.

Inductive result (A : Type) : Type :=
| Ok (a : A)
| Raise (e : exn).
Arguments Ok {A} a.
Arguments Raise {A} e.

#[global] Instance result_ret : MRet result := fun A a => Ok a.
#[global] Instance result_bind : MBind result := fun A B k m =>
  match m with
  | Ok a => k a
  | Raise e => Raise e
  end.

Definition raises {A} (m : result A) : Prop := exists e, m = Raise e.

(** ** ASCII text: character classes, case mapping, substring search *)

Module Text.

Definition code (c : ascii) : N := N_of_ascii c.

Definition between (lo hi : N) (c : ascii) : bool :=
  ((lo <=? code c) && (code c <=? hi))%N.

Definition is_upper : ascii -> bool := between 65 90.
Definition is_lower : ascii -> bool := between 97 122.
Definition is_digit : ascii -> bool := between 48 57.
Definition is_alpha (c : ascii) : bool := is_upper c || is_lower c.

(** [\w] of the [re] module. *)
Definition is_word (c : ascii) : bool :=
  is_alpha c || is_digit c || (code c =? 95)%N.

(** [\s] of the [re] module on a [str] pattern: the characters for which
    [str.isspace] holds. *)
Definition is_space (c : ascii) : bool :=
  between 9 13 c || between 28 32 c.

Definition to_lower (c : ascii) : ascii :=
  if is_upper c then ascii_of_N (code c + 32) else c.
Definition to_upper (c : ascii) : ascii :=
  if is_lower c then ascii_of_N (code c - 32) else c.

(** [str.lower] *)
Fixpoint lower (s : string) : string :=
  match s with
  | EmptyString => EmptyString
  | String c s' => String (to_lower c) (lower s')
  end.

(** [str.title]: a letter that follows a letter is lowered, any other
    letter is raised. *)
Fixpoint title_from (previous_is_cased : bool) (s : string) : string :=
  match s with
  | EmptyString => EmptyString
  | String c s' =>
      String (if previous_is_cased then to_lower c else to_upper c)
             (title_from (is_alpha c) s')
  end.
Definition title : string -> string := title_from false.

(** [s.startswith(w)] *)
Fixpoint starts_with (w s : string) : bool :=
  match w, s with
  | EmptyString, _ => true
  | String a w', String b s' => Ascii.eqb a b && starts_with w' s'
  | String _ _, EmptyString => false
  end.

(** [w in s] *)
Fixpoint contains (w s : string) : bool :=
  starts_with w s ||
  match s with
  | EmptyString => false
  | String _ s' => contains w s'
  end.

(** The declarative reading of [w in s]. *)
Definition Substring (w s : string) : Prop :=
  exists pre post, s = pre +:+ w +:+ post.

(** [any(word in s for word in words)] *)
Definition any_in (words : list string) (s : string) : bool :=
  existsb (fun word => contains word s) words.

(** The longest prefix whose characters satisfy [p], and the rest. *)
Fixpoint span (p : ascii -> bool) (s : string) : string * string :=
  match s with
  | EmptyString => (EmptyString, EmptyString)
  | String c s' =>
      if p c then let '(a, b) := span p s' in (String c a, b)
      else (EmptyString, s)
  end.

Fixpoint drop (n : nat) (s : string) : string :=
  match n, s with
  | O, _ => s
  | S n', String _ s' => drop n' s'
  | S _, EmptyString => EmptyString
  end.

Fixpoint all_chars (p : ascii -> bool) (s : string) : bool :=
  match s with
  | EmptyString => true
  | String c s' => p c && all_chars p s'
  end.

(** [filter(p, s)] joined back into a string. *)
Fixpoint filter_chars (p : ascii -> bool) (s : string) : string :=
  match s with
  | EmptyString => EmptyString
  | String c s' => if p c then String c (filter_chars p s') else filter_chars p s'
  end.

Definition is_empty (s : string) : bool :=
  match s with EmptyString => true | _ => false end.

(** The last character of [s], or [previous] when [s] is empty. *)
Fixpoint last_char (previous : option ascii) (s : string) : option ascii :=
  match s with
  | EmptyString => previous
  | String c s' => last_char (Some c) s'
  end.

(** [re.search]: the anchored matcher [m] is tried at every position,
    leftmost first. *)
Fixpoint search {A} (m : string -> option A) (s : string) : option A :=
  match m s with
  | Some r => Some r
  | None =>
      match s with
      | EmptyString => None
      | String _ s' => search m s'
      end
  end.

(** [int(s)] on a string of decimal digits. *)
Definition int (s : string) : result Z :=
  if is_empty s then Raise ValueError
  else match NilEmpty.uint_of_string s with
       | Some d => Ok (Z.of_N (N.of_uint d))
       | None => Raise ValueError
       end.

(** [str(n)] / [f"{n}"] for an integer. *)
Definition str_of_int (n : Z) : string :=
  if n <? 0 then String "-" (NilEmpty.string_of_uint (N.to_uint (Z.to_N (- n))))
  else NilEmpty.string_of_uint (N.to_uint (Z.to_N n)).

End Text.

(** ** Calendar dates of the [datetime] module *)

Module Calendar.

(** A [datetime] is represented by the proleptic Gregorian ordinal of
    its day: 1 is 0001-01-01 and [MAXORDINAL] is 9999-12-31. *)
Definition MAXORDINAL : Z := 3652059.
Definition valid_ordinal (n : Z) : Prop := 1 <= n <= MAXORDINAL.

(** The three fields of a ["%Y-%m-%d"] text. *)
Record ymd : Type := YMD { year : Z; month : Z; day : Z }.

Definition ymd_leb (a b : ymd) : bool :=
  (year a <? year b) ||
  ((year a =? year b) &&
   ((month a <? month b) || ((month a =? month b) && (day a <=? day b)))).

Definition _DI400Y : Z := 146097.
Definition _DI100Y : Z := 36524.
Definition _DI4Y : Z := 1461.

Definition _DAYS_IN_MONTH (m : Z) : Z :=
  nth (Z.to_nat m) [-1; 31; 28; 31; 30; 31; 30; 31; 31; 30; 31; 30; 31] 0.
Definition _DAYS_BEFORE_MONTH (m : Z) : Z :=
  nth (Z.to_nat m) [-1; 0; 31; 59; 90; 120; 151; 181; 212; 243; 273; 304; 334] 0.

(** [datetime._ord2ymd] *)
Definition _ord2ymd (ordinal : Z) : ymd :=
  let n := ordinal - 1 in
  let n400 := n / _DI400Y in
  let n := n mod _DI400Y in
  let year := n400 * 400 + 1 in
  let n100 := n / _DI100Y in
  let n := n mod _DI100Y in
  let n4 := n / _DI4Y in
  let n := n mod _DI4Y in
  let n1 := n / 365 in
  let n := n mod 365 in
  let year := year + n100 * 100 + n4 * 4 + n1 in
  if (n1 =? 4) || (n100 =? 4) then YMD (year - 1) 12 31
  else
    let leapyear := (n1 =? 3) && (negb (n4 =? 24) || (n100 =? 3)) in
    let month := Z.shiftr (n + 50) 5 in
    let preceding :=
      _DAYS_BEFORE_MONTH month + (if (2 <? month) && leapyear then 1 else 0) in
    if n <? preceding then
      let month := month - 1 in
      let preceding :=
        preceding - (_DAYS_IN_MONTH month + (if (month =? 2) && leapyear then 1 else 0)) in
      YMD year month (n - preceding + 1)
    else YMD year month (n - preceding + 1).

(** [d.strftime("%Y-%m-%d")] *)
Definition strftime (ordinal : Z) : ymd := _ord2ymd ordinal.

(** [d - timedelta(days=days)]: the [timedelta] constructor refuses a
    magnitude above 999999999 days, the subtraction a date outside
    [date.min .. date.max]. *)
Definition minus_days (d days : Z) : result Z :=
  if 999999999 <? Z.abs days then Raise OverflowError
  else if (1 <=? d - days) && (d - days <=? MAXORDINAL) then Ok (d - days)
  else Raise OverflowError.

End Calendar.

(** ** [config.py] *)

Module config.
Definition DEFAULT_STATE : string := "AL".
Definition DEFAULT_COUNTY : string := "Baldwin".
End config.

(** ** [core/query_processor.py] *)

Module QueryProcessor.
Import Text Calendar.

Record Location : Type := {
  state : option string;
  county : option string;
  city : option string
}.

Record TimeRange : Type := {
  start_date : ymd;
  end_date : ymd
}.

Record ParsedQuery : Type := {
  query_type : string;
  location : Location;
  time_range : TimeRange;
  data_sources : list string;
  visualization_type : string;
  filters : list (string * string);
  original_query : string
}.

(** Truth value of an [Optional[str]]: [None] and the empty string are
    false. *)
Definition truthy (o : option string) : bool :=
  match o with
  | Some s => negb (is_empty s)
  | None => false
  end.

(** [d.get(k, default)] on a dictionary literal. *)
Fixpoint dict_get {V} (d : list (string * V)) (k : string) (default : V) : V :=
  match d with
  | [] => default
  | (k', v) :: d' => if String.eqb k' k then v else dict_get d' k default
  end.

Definition _infer_data_sources (query_type : string) : list string :=
  dict_get
    [("spill_analysis", ["epa"]);
     ("violation_trends", ["epa"]);
     ("repeat_violators", ["epa"]);
     ("weather_correlation", ["epa"; "noaa"]);
     ("facility_search", ["epa"]);
     ("general_overview", ["epa"; "census"])]
    query_type ["epa"].

Definition _infer_visualization (query_type : string) : string :=
  dict_get
    [("spill_analysis", "combined");
     ("violation_trends", "time_series");
     ("repeat_violators", "bar_chart");
     ("weather_correlation", "scatter");
     ("facility_search", "map");
     ("general_overview", "combined")]
    query_type "combined".

(** [int("".join(filter(str.isdigit, relative)) or "1")], with the
    [except ValueError] default of 1. *)
Definition digits_or_one (relative : string) : Z :=
  let digits := filter_chars is_digit relative in
  match int (if is_empty digits then "1" else digits) with
  | Ok n => n
  | Raise _ => 1
  end.

Definition _parse_relative_time (now : Z) (relative : string) : result TimeRange :=
  let relative := lower relative in
  let end_date := now in
  start_date ←
    (if contains "year" relative then
       minus_days end_date (365 * digits_or_one relative)
     else if contains "month" relative then
       minus_days end_date (30 * digits_or_one relative)
     else if contains "week" relative then
       minus_days end_date (7 * digits_or_one relative)
     else minus_days end_date 365);
  mret {| start_date := strftime start_date; end_date := strftime end_date |}.

(** The [states] dictionary, in insertion order. *)
Definition states : list (string * string) :=
  [("alabama", "AL"); ("alaska", "AK"); ("arizona", "AZ"); ("arkansas", "AR");
   ("california", "CA"); ("colorado", "CO"); ("connecticut", "CT"); ("delaware", "DE");
   ("florida", "FL"); ("georgia", "GA"); ("hawaii", "HI"); ("idaho", "ID");
   ("illinois", "IL"); ("indiana", "IN"); ("iowa", "IA"); ("kansas", "KS");
   ("kentucky", "KY"); ("louisiana", "LA"); ("maine", "ME"); ("maryland", "MD");
   ("massachusetts", "MA"); ("michigan", "MI"); ("minnesota", "MN"); ("mississippi", "MS");
   ("missouri", "MO"); ("montana", "MT"); ("nebraska", "NE"); ("nevada", "NV");
   ("new hampshire", "NH"); ("new jersey", "NJ"); ("new mexico", "NM"); ("new york", "NY");
   ("north carolina", "NC"); ("north dakota", "ND"); ("ohio", "OH"); ("oklahoma", "OK");
   ("oregon", "OR"); ("pennsylvania", "PA"); ("rhode island", "RI"); ("south carolina", "SC");
   ("south dakota", "SD"); ("tennessee", "TN"); ("texas", "TX"); ("utah", "UT");
   ("vermont", "VT"); ("virginia", "VA"); ("washington", "WA"); ("west virginia", "WV");
   ("wisconsin", "WI"); ("wyoming", "WY")].

(** [for state_name, abbrev in states.items(): if state_name in
    query_lower: state = abbrev; break] *)
Fixpoint first_state_name (table : list (string * string)) (query_lower : string)
  : option string :=
  match table with
  | [] => None
  | (state_name, abbrev) :: table' =>
      if contains state_name query_lower then Some abbrev
      else first_state_name table' query_lower
  end.

(** [abbrev in states.values()] *)
Definition in_values (abbrev : string) (table : list (string * string)) : bool :=
  existsb (fun entry => String.eqb (snd entry) abbrev) table.

(** [re.search(r'\b([A-Z]{2})\b', query)]: the leftmost two capital
    letters with a word boundary on each side; [previous] is the
    character before the current position. *)
Definition boundary_before (previous : option ascii) : bool :=
  match previous with
  | None => true
  | Some p => negb (is_word p)
  end.
Definition boundary_after (rest : string) : bool :=
  match rest with
  | EmptyString => true
  | String c _ => negb (is_word c)
  end.
Fixpoint abbrev_search (previous : option ascii) (query : string) : option string :=
  match query with
  | EmptyString => None
  | String a tail =>
      match tail with
      | EmptyString => None
      | String b rest =>
          if is_upper a && is_upper b && boundary_before previous && boundary_after rest
          then Some (String a (String b EmptyString))
          else abbrev_search (Some a) tail
      end
  end.

(** [(\w+)\s+county] anchored at the head of [s]; the value is group 1. *)
Definition county_at (s : string) : option string :=
  let '(word, rest) := span is_word s in
  let '(blank, rest) := span is_space rest in
  if negb (is_empty word) && negb (is_empty blank) && starts_with "county" rest
  then Some word else None.

Definition _extract_location (query : string) : Location :=
  let query_lower := lower query in
  let state := first_state_name states query_lower in
  let state :=
    match abbrev_search None query with
    | Some g => if in_values g states then Some g else state
    | None => state
    end in
  let county :=
    match search county_at query_lower with
    | Some g => Some (title g)
    | None => None
    end in
  let state := if truthy state then state else Some config.DEFAULT_STATE in
  let county := if truthy county then county else Some config.DEFAULT_COUNTY in
  {| state := state; county := county; city := None |}.

(** [(\d{4})] anchored at the head of [s]. *)
Definition year_at (s : string) : option string :=
  let g := substring 0 4 s in
  if (String.length g =? 4)%nat && all_chars is_digit g then Some g else None.

(** [(\d+)\s+years?] anchored at the head of [s]; the value is the
    digit group. *)
Definition count_years_at (s : string) : option string :=
  let '(digits, rest) := span is_digit s in
  let '(blank, rest) := span is_space rest in
  if negb (is_empty digits) && negb (is_empty blank) && starts_with "year" rest
  then Some digits else None.

(** [(last\s+)?(\d+)\s+years?] anchored at the head of [s]: the optional
    group is tried first, then skipped. *)
Definition years_at (s : string) : option string :=
  let with_last :=
    if starts_with "last" s then
      let '(blank, rest) := span is_space (drop 4 s) in
      if is_empty blank then None else count_years_at rest
    else None in
  match with_last with
  | Some g => Some g
  | None => count_years_at s
  end.

Definition _extract_time_range (now : Z) (query : string) : result TimeRange :=
  let query_lower := lower query in
  let year_match := search year_at query in
  let years_match := search years_at query_lower in
  match years_match, year_match with
  | Some g2, _ =>
      num_years ← int g2;
      _parse_relative_time now ("last " +:+ str_of_int num_years +:+ " years")
  | None, Some g1 =>
      year ← int g1;
      mret {| start_date := YMD year 1 1; end_date := YMD year 12 31 |}
  | None, None => _parse_relative_time now "last 3 years"
  end.

(** The keyword lists of [_fallback_parse]. *)
Definition spill_words : list string := ["spill"; "sso"; "overflow"; "sewage"].
Definition repeat_words : list string := ["repeat"; "chronic"; "multiple"; "frequent"].
Definition weather_words : list string := ["weather"; "rain"; "storm"; "correlat"].
Definition trend_words : list string := ["trend"; "over time"; "history"].
Definition search_words : list string := ["find"; "search"; "where is"].

(** The [if]/[elif] chain of [_fallback_parse]. *)
Definition detect_query_type (query_lower : string) : string :=
  if any_in spill_words query_lower then "spill_analysis"
  else if any_in repeat_words query_lower then "repeat_violators"
  else if any_in weather_words query_lower then "weather_correlation"
  else if any_in trend_words query_lower then "violation_trends"
  else if any_in search_words query_lower then "facility_search"
  else "general_overview".

Definition _fallback_parse (now : Z) (query : string) : result ParsedQuery :=
  let query_lower := lower query in
  let query_type := detect_query_type query_lower in
  let location := _extract_location query in
  time_range ← _extract_time_range now query;
  mret {|
    query_type := query_type;
    location := location;
    time_range := time_range;
    data_sources := _infer_data_sources query_type;
    visualization_type := _infer_visualization query_type;
    filters := [];
    original_query := query
  |}.

(** [process_query] of a processor built without an API key
    ([self.client] is [None]); [now] is the day [datetime.now()]
    falls on. *)
Definition process_query (now : Z) (query : string) : result ParsedQuery :=
  _fallback_parse now query.

End QueryProcessor.

(** ** The part of pandas the analysis engine uses *)

Module Pandas.

(** A column (a [Series]) holds values of one kind; [None] is the
    missing value of that kind ([NaN], [None] or [NaT]).  The engine
    reads names and categories as [Strs], coordinates and precipitation
    as [Nums], dates as [Times] (the day ordinal of the timestamp);
    [Ints] and [Reals] are the kinds of the columns it derives. *)
Inductive column : Type :=
| Strs (values : list (option string))
| Nums (values : list (option Q))
| Reals (values : list (option R))
| Ints (values : list (option Z))
| Times (values : list (option Z)).

Record DataFrame : Type := {
  nrows : nat;
  columns : list (string * column)
}.

(** [df.empty]: no rows or no columns. *)
Definition empty (df : DataFrame) : bool :=
  (nrows df =? 0)%nat || match columns df with [] => true | _ => false end.

Fixpoint lookup_column (cols : list (string * column)) (name : string) : option column :=
  match cols with
  | [] => None
  | (n, c) :: cols' => if String.eqb n name then Some c else lookup_column cols' name
  end.

(** [name in df.columns] *)
Definition has_column (df : DataFrame) (name : string) : bool :=
  match lookup_column (columns df) name with Some _ => true | None => false end.

(** [df[name]] *)
Definition getitem (df : DataFrame) (name : string) : result column :=
  match lookup_column (columns df) name with
  | Some c => Ok c
  | None => Raise (KeyError name)
  end.

Fixpoint assign (cols : list (string * column)) (name : string) (c : column)
  : list (string * column) :=
  match cols with
  | [] => [(name, c)]
  | (n, c0) :: cols' =>
      if String.eqb n name then (n, c) :: cols' else (n, c0) :: assign cols' name c
  end.

(** The frame after [df[name] = c]: an existing column is replaced in
    place, a new one is appended. *)
Definition setitem (df : DataFrame) (name : string) (c : column) : DataFrame :=
  {| nrows := nrows df; columns := assign (columns df) name c |}.

(** The kinds the engine expects of a column it computes with. *)
Definition as_strs (c : column) : result (list (option string)) :=
  match c with Strs v => Ok v | _ => Raise TypeError end.
Definition as_nums (c : column) : result (list (option Q)) :=
  match c with Nums v => Ok v | _ => Raise TypeError end.
Definition as_times (c : column) : result (list (option Z)) :=
  match c with Times v => Ok v | _ => Raise TypeError end.

(** [pd.to_datetime(c)] on a date-like column. *)
Definition to_datetime (c : column) : result column :=
  v ← as_times c; mret (Times v).

Definition is_present {A} (x : option A) : bool :=
  match x with Some _ => true | None => false end.

(** [c.notna()] *)
Definition notna (c : column) : list bool :=
  match c with
  | Strs v => map is_present v
  | Nums v => map is_present v
  | Reals v => map is_present v
  | Ints v => map is_present v
  | Times v => map is_present v
  end.

(** Selection of the positions where the mask holds. *)
Fixpoint select {A} (mask : list bool) (xs : list A) : list A :=
  match mask, xs with
  | true :: mask', x :: xs' => x :: select mask' xs'
  | false :: mask', _ :: xs' => select mask' xs'
  | _, _ => []
  end.

Definition select_column (mask : list bool) (c : column) : column :=
  match c with
  | Strs v => Strs (select mask v)
  | Nums v => Nums (select mask v)
  | Reals v => Reals (select mask v)
  | Ints v => Ints (select mask v)
  | Times v => Times (select mask v)
  end.

Definition count_true (mask : list bool) : nat :=
  length (List.filter (fun b => b) mask).

(** [df[mask]] *)
Definition filter_rows (mask : list bool) (df : DataFrame) : DataFrame :=
  {| nrows := count_true (firstn (nrows df) mask);
     columns := map (fun '(n, c) => (n, select_column mask c)) (columns df) |}.

(** [df.dropna(subset=[a, b])] *)
Definition dropna2 (df : DataFrame) (a b : string) : result DataFrame :=
  ca ← getitem df a;
  cb ← getitem df b;
  mret (filter_rows (zip_with andb (notna ca) (notna cb)) df).

(** *** Grouping *)

Section GroupBy.
Context {K : Type} (eqb leb : K -> K -> bool).

Fixpoint add_row (k : K) (i : nat) (groups : list (K * list nat)) : list (K * list nat) :=
  match groups with
  | [] => [(k, [i])]
  | (k', rows) :: rest =>
      if eqb k k' then (k', rows ++ [i]) :: rest
      else if leb k k' then (k, [i]) :: groups
      else (k', rows) :: add_row k i rest
  end.

Fixpoint group_from (i : nat) (keys : list (option K)) (groups : list (K * list nat))
  : list (K * list nat) :=
  match keys with
  | [] => groups
  | None :: keys' => group_from (S i) keys' groups
  | Some k :: keys' => group_from (S i) keys' (add_row k i groups)
  end.

(** [groupby(keys)]: the groups in ascending key order, each with the
    positions of its rows in row order; rows with a missing key are
    left out. *)
Definition groupby (keys : list (option K)) : list (K * list nat) :=
  group_from 0 keys [].

(** [groupby(keys).size()] *)
Definition group_sizes (keys : list (option K)) : list (K * Z) :=
  map (fun '(k, rows) => (k, Z.of_nat (length rows))) (groupby keys).

End GroupBy.

(** The values of [xs] at the positions [rows]. *)
Definition at_rows {A} (xs : list (option A)) (rows : list nat) : list (option A) :=
  map (fun i => mjoin (xs !! i)) rows.

(** The non-missing values. *)
Definition present {A} (xs : list (option A)) : list A := omap (fun x => x) xs.

(** [first] of a group: the first value that is not missing. *)
Definition first_valid {A} (xs : list (option A)) : option A := head (present xs).

Definition minimum (xs : list Z) : option Z :=
  match xs with [] => None | x :: xs' => Some (fold_left Z.min xs' x) end.
Definition maximum (xs : list Z) : option Z :=
  match xs with [] => None | x :: xs' => Some (fold_left Z.max xs' x) end.

(** Stable insertion sort into descending order: [outranks y x] says
    that [y] is strictly larger than [x]; among equals the earlier
    element stays first. *)
Section SortDescending.
Context {A : Type} (outranks : A -> A -> bool).
Fixpoint insert_desc (x : A) (sorted : list A) : list A :=
  match sorted with
  | [] => [x]
  | y :: sorted' => if outranks y x then y :: insert_desc x sorted' else x :: sorted
  end.
Definition sort_desc (xs : list A) : list A := fold_right insert_desc [] xs.
End SortDescending.

(** [df.nlargest(n, column)], with [keep='first']. *)
Definition nlargest {A} (outranks : A -> A -> bool) (n : nat) (rows : list A) : list A :=
  firstn n (sort_desc outranks rows).

(** [s.value_counts()]: the distinct values with their counts, most
    frequent first. *)
Definition value_counts (xs : list (option string)) : list (string * Z) :=
  sort_desc (fun a b => snd b <? snd a) (group_sizes String.eqb String.leb xs).

(** [s.mode()]: the most frequent values, in ascending order. *)
Definition mode (xs : list (option string)) : list string :=
  let sizes := group_sizes String.eqb String.leb xs in
  match maximum (map snd sizes) with
  | None => []
  | Some top => map fst (filter (fun kv => snd kv = top) sizes)
  end.

(** *** Arithmetic on columns of exact numbers *)

Definition Qsum (xs : list Q) : Q := fold_right Qplus 0%Q xs.

(** [s.mean()], missing values skipped; [None] is [NaN]. *)
Definition mean (xs : list (option Q)) : option Q :=
  match present xs with
  | [] => None
  | v => Some (Qred (Qsum v / inject_Z (Z.of_nat (length v))))
  end.

(** Rounding to the nearest integer, halves to the even neighbour. *)
Definition rint (x : Q) : Z :=
  let f := Qfloor x in
  match ((x - inject_Z f) ?= (1 # 2))%Q with
  | Lt => f
  | Gt => f + 1
  | Eq => if Z.even f then f else f + 1
  end.

(** [round(x, 2)] *)
Definition round2 (x : Q) : Q := Qred (inject_Z (rint (x * 100)) / 100).

(** *** The store of frames *)

(** A reference is a position in the store. *)
Abbreviation store := (list DataFrame).

Definition py (A : Type) : Type := store -> result A * store.

#[global] Instance py_ret : MRet py := fun A a σ => (Ok a, σ).
#[global] Instance py_bind : MBind py := fun A B k m σ =>
  match m σ with
  | (Ok a, σ') => k a σ'
  | (Raise e, σ') => (Raise e, σ')
  end.

(** A computation that does not touch the store. *)
Definition lift {A} (r : result A) : py A := fun σ => (r, σ).

(** The frame a reference names.  A position outside the store names no
    Python object; reading it is marked by an exception of its own, and
    the properties below are stated for references inside the store. *)
Definition read (r : nat) : py DataFrame := fun σ =>
  match σ !! r with
  | Some df => (Ok df, σ)
  | None => (Raise (KeyError "dangling reference"), σ)
  end.

(** A new frame, as returned by [df.copy()], [pd.merge] and the like. *)
Definition new (df : DataFrame) : py nat := fun σ => (Ok (length σ), σ ++ [df]).

(** [r.copy()] *)
Definition copy (r : nat) : py nat := df ← read r; new df.

(** [r[name] = c], in place. *)
Definition setcol (r : nat) (name : string) (c : column) : py unit := fun σ =>
  match σ !! r with
  | Some df => (Ok tt, <[r := setitem df name c]> σ)
  | None => (Raise (KeyError "dangling reference"), σ)
  end.

End Pandas.

(** ** Result dictionaries *)

Inductive key : Type :=
| KStr (s : string)
| KInt (z : Z).

#[warnings="-register-all"]
Inductive pyval : Type :=
| PNone
| PNaN
| PNaT
| PBool (b : bool)
| PInt (z : Z)
| PNum (q : Q)
| PReal (r : R)
| PStr (s : string)
| PTime (ordinal : Z)
| PDate (d : Calendar.ymd)
| PList (items : list pyval)
| PDict (items : list (key * pyval)).

Definition key_eqb (a b : key) : bool :=
  match a, b with
  | KStr s, KStr t => String.eqb s t
  | KInt x, KInt y => x =? y
  | _, _ => false
  end.

(** [d.get(k)] *)
Fixpoint dict_lookup (items : list (key * pyval)) (k : key) : option pyval :=
  match items with
  | [] => None
  | (k', v) :: items' => if key_eqb k' k then Some v else dict_lookup items' k
  end.

(** [k in d] for a result [d]. *)
Definition has_key (d : pyval) (k : string) : bool :=
  match d with
  | PDict items => Pandas.is_present (dict_lookup items (KStr k))
  | _ => false
  end.

Definition get (d : pyval) (k : string) : option pyval :=
  match d with
  | PDict items => dict_lookup items (KStr k)
  | _ => None
  end.

(** The keys of a result, in insertion order. *)
Definition keys (d : pyval) : list key :=
  match d with
  | PDict items => map fst items
  | _ => []
  end.

(** ** The part of scipy.stats the analysis engine uses

    Sums, means and the Student t distribution over the reals. *)

Module Stats.
Local Open Scope R_scope.

Definition Rsum (xs : list R) : R := fold_right Rplus 0 xs.
Definition Rmean (xs : list R) : R := Rsum xs / INR (length xs).

(** [np.arange(n)] *)
Definition arange (n : nat) : list R := map INR (seq 0 n).

(** Mean of the products of the deviations: [np.cov(x, y, bias=1)]. *)
Definition covariance (x y : list R) : R :=
  let xmean := Rmean x in
  let ymean := Rmean y in
  Rmean (zip_with (fun a b => (a - xmean) * (b - ymean)) x y).

(** The partial sums of the closed form of the Student t distribution:
    [terms] summands, the first being [coefficient], each obtained from
    the one before by the factor [a / (a + 1) * c2], [a] growing by 2. *)
Fixpoint t_series (a c2 coefficient : R) (terms : nat) : R :=
  match terms with
  | O => 0
  | S n => coefficient + t_series (a + 2) c2 (coefficient * (a / (a + 1)) * c2) n
  end.

(** The probability that a Student t variable with [df] degrees of
    freedom lies within [-t, t], for [0 <= t]: with [theta = atan (t /
    sqrt df)], it is [sin theta * (1 + 1/2 cos^2 theta + ...)] for an
    even [df] and [2/PI * (theta + sin theta * cos theta * (1 + 2/3
    cos^2 theta + ...))] for an odd one. *)
Definition t_within (df : nat) (t : R) : R :=
  let nu := INR df in
  let sin_theta := t / sqrt (nu + t * t) in
  let cos_theta := sqrt nu / sqrt (nu + t * t) in
  let c2 := nu / (nu + t * t) in
  if Nat.even df then sin_theta * t_series 1 c2 1 (Nat.div df 2)
  else 2 / PI * (atan (t / sqrt nu) +
                 sin_theta * cos_theta * t_series 2 c2 1 (Nat.div (df - 1) 2)).

(** The two-sided p-value of the statistic [t]: [2 * t.sf(|t|, df)]. *)
Definition two_sided_p (df : nat) (t : R) : R := 1 - t_within df (Rabs t).

Definition TINY : R := 1 / 10 ^ 20.

(** The correlation coefficient of [linregress], forced into [-1, 1]. *)
Definition r_value (ssxm ssym ssxym : R) : R :=
  if Req_dec_T ssxm 0 then 0
  else if Req_dec_T ssym 0 then 0
  else
    let r := ssxym / sqrt (ssxm * ssym) in
    if Rlt_dec 1 r then 1 else if Rlt_dec r (-1) then -1 else r.

(** [stats.linregress(x, y)] for more than two points: the slope and
    the two-sided p-value of the hypothesis that the slope is zero. *)
Definition linregress (x y : list R) : R * R :=
  let n := length x in
  let ssxm := covariance x x in
  let ssym := covariance y y in
  let ssxym := covariance x y in
  let r := r_value ssxm ssym ssxym in
  let slope := ssxym / ssxm in
  let df := (n - 2)%nat in
  let t := r * sqrt (INR df / ((1 - r + TINY) * (1 + r + TINY))) in
  (slope, two_sided_p df t).

(** [stats.pearsonr(x, y)]: the coefficient and its two-sided p-value;
    [None] is the [nan] returned for a constant input. *)
Definition pearsonr (x y : list R) : option (R * R) :=
  let n := length x in
  let sxx := covariance x x in
  let syy := covariance y y in
  if Req_dec_T sxx 0 then None
  else if Req_dec_T syy 0 then None
  else
    let r0 := covariance x y / sqrt (sxx * syy) in
    let r := if Rlt_dec 1 r0 then 1 else if Rlt_dec r0 (-1) then -1 else r0 in
    let p :=
      if Req_dec_T (r * r) 1 then 0
      else two_sided_p (n - 2) (r * sqrt (INR (n - 2) / (1 - r * r))) in
    Some (r, p).

(** Rounding to the nearest integer, halves to the even neighbour. *)
Definition Rrint (x : R) : Z :=
  let f := Int_part x in
  if Rlt_dec (frac_part x) (1 / 2) then f
  else if Rlt_dec (1 / 2) (frac_part x) then (f + 1)%Z
  else if Z.even f then f else (f + 1)%Z.

(** [round(x, digits)] *)
Definition Rround (digits : nat) (x : R) : R :=
  IZR (Rrint (x * 10 ^ digits)) / 10 ^ digits.

(** [s.std()]: the sample standard deviation. *)
Definition std (xs : list R) : R :=
  let m := Rmean xs in
  sqrt (Rsum (map (fun x => (x - m) * (x - m)) xs) / (INR (length xs) - 1)).

End Stats.

(** ** [core/analysis_engine.py] *)

Module AnalysisEngine.
Import Calendar Pandas Stats.

Definition error_result (message : string) : pyval :=
  PDict [(KStr "error", PStr message)].

Definition time_value (t : option Z) : pyval :=
  match t with Some d => PTime d | None => PNaT end.
Definition num_value (x : option Q) : pyval :=
  match x with Some q => PNum q | None => PNaN end.
Definition int_dict (sizes : list (Z * Z)) : pyval :=
  PDict (map (fun '(k, n) => (KInt k, PInt n)) sizes).
Definition str_dict (sizes : list (string * Z)) : pyval :=
  PDict (map (fun '(k, n) => (KStr k, PInt n)) sizes).

(** [t.strftime("%Y-%m-%d")]; [NaT] has no [strftime]. *)
Definition strftime_value (t : option Z) : result pyval :=
  match t with
  | Some d => Ok (PDate (strftime d))
  | None => Raise ValueError
  end.

Definition _get_date_range (df : DataFrame) : result pyval :=
  let date_col := if has_column df "violation_date" then "violation_date" else "date" in
  if negb (has_column df date_col) then mret (PDict [])
  else
    dates ← getitem df date_col ≫= as_times;
    start ← strftime_value (minimum (present dates));
    end_ ← strftime_value (maximum (present dates));
    mret (PDict [(KStr "start", start); (KStr "end", end_)]).

(** The fields of a timestamp read through [.dt]. *)
Definition month_of (d : Z) : Z := month (_ord2ymd d).
Definition year_of (d : Z) : Z := year (_ord2ymd d).
Definition dayofweek_of (d : Z) : Z := (d + 6) mod 7.
Definition quarter_of (d : Z) : Z := (month_of d - 1) / 3 + 1.
(** [.dt.to_period("M")], as the number of the month since year 0. *)
Definition period_of (d : Z) : Z := year_of d * 12 + (month_of d - 1).

Definition ints_of (c : column) : result (list (option Z)) :=
  match c with Ints v => Ok v | _ => Raise TypeError end.

(** [groupby(name).size()] on a column of integers. *)
Definition sizes_by (df : DataFrame) (name : string) : result (list (Z * Z)) :=
  v ← getitem df name ≫= ints_of;
  mret (group_sizes Z.eqb Z.leb v).

(** [s.idxmax()]: the label of the first largest value. *)
Definition idxmax (sizes : list (Z * Z)) : result Z :=
  match maximum (map snd sizes) with
  | None => Raise ValueError
  | Some top =>
      match filter (fun kv => snd kv = top) sizes with
      | (k, _) :: _ => Ok k
      | [] => Raise ValueError
      end
  end.

(** The sizes of the calendar-month groups, in month order. *)
Definition monthly_counts (df : DataFrame) : result (list Z) :=
  dates ← getitem df "date" ≫= as_times;
  mret (map snd (group_sizes Z.eqb Z.leb (map (fmap period_of) dates))).

(** The decision of [_calculate_trend] on the monthly counts. *)
Definition classify_trend (monthly : list Z) : string :=
  if (length monthly <? 3)%nat then "insufficient_data"
  else
    let x := arange (length monthly) in
    let y := map IZR monthly in
    let '(slope, p_value) := linregress x y in
    if Rlt_dec 0.05 p_value then "stable"
    else if Rlt_dec 0 slope then "increasing"
    else "decreasing".

Definition _calculate_trend (df : DataFrame) : result string :=
  monthly ← monthly_counts df;
  mret (classify_trend monthly).

Definition _analyze_temporal_patterns (df : nat) : py pyval :=
  df ← copy df;
  frame ← read df;
  date ← lift (getitem frame "date" ≫= as_times);
  setcol df "month" (Ints (map (fmap month_of) date));;
  setcol df "year" (Ints (map (fmap year_of) date));;
  setcol df "day_of_week" (Ints (map (fmap dayofweek_of) date));;
  setcol df "quarter" (Ints (map (fmap quarter_of) date));;
  frame ← read df;
  lift (
    by_month ← sizes_by frame "month";
    by_year ← sizes_by frame "year";
    by_quarter ← sizes_by frame "quarter";
    peak_month ← idxmax by_month;
    trend ← _calculate_trend frame;
    mret (PDict [(KStr "by_month", int_dict by_month);
                 (KStr "by_year", int_dict by_year);
                 (KStr "by_quarter", int_dict by_quarter);
                 (KStr "peak_month", PInt peak_month);
                 (KStr "trend", PStr trend)])).

(** Keys of the coordinate bins, in lexicographic order. *)
Definition bin_eqb (a b : Q * Q) : bool := Qeq_bool (fst a) (fst b) && Qeq_bool (snd a) (snd b).
Definition bin_leb (a b : Q * Q) : bool :=
  negb (Qle_bool (fst b) (fst a)) || (Qeq_bool (fst a) (fst b) && Qle_bool (snd a) (snd b)).

(** [(s * 100).round() / 100] *)
Definition to_bin (x : Q) : Q := Qred (inject_Z (rint (x * 100)) / 100).

Definition _identify_hotspots (df : nat) : py pyval :=
  frame ← read df;
  if empty frame then mret (PList [])
  else
    df ← copy df;
    frame ← read df;
    latitude ← lift (getitem frame "latitude" ≫= as_nums);
    setcol df "lat_bin" (Nums (map (fmap to_bin) latitude));;
    frame ← read df;
    longitude ← lift (getitem frame "longitude" ≫= as_nums);
    setcol df "lon_bin" (Nums (map (fmap to_bin) longitude));;
    frame ← read df;
    lift (
      lat_bin ← getitem frame "lat_bin" ≫= as_nums;
      lon_bin ← getitem frame "lon_bin" ≫= as_nums;
      let groups :=
        groupby bin_eqb bin_leb
          (zip_with (fun a b => a' ← a; b' ← b; Some (a', b')) lat_bin lon_bin) in
      latitude ← getitem frame "latitude" ≫= as_nums;
      longitude ← getitem frame "longitude" ≫= as_nums;
      facility_name ← getitem frame "facility_name" ≫= as_strs;
      let hotspots :=
        map (fun '(_, rows) =>
               (mean (at_rows latitude rows), mean (at_rows longitude rows),
                first_valid (at_rows facility_name rows),
                Z.of_nat (length rows))) groups in
      let top_hotspots := nlargest (fun a b => snd b <? snd a) 5 hotspots in
      mret (PList (map (fun '(lat, lon, name, count) =>
                          PDict [(KStr "lat", num_value lat);
                                 (KStr "lon", num_value lon);
                                 (KStr "count", PInt count);
                                 (KStr "name", match name with
                                               | Some n => PStr n
                                               | None => PNone
                                               end)])
                       top_hotspots))).

Definition _analyze_spatial_patterns (df : nat) : py pyval :=
  frame ← read df;
  dropped ← lift (dropna2 frame "latitude" "longitude");
  valid_coords ← new dropped;
  frame ← read valid_coords;
  if (nrows frame <? 2)%nat then mret (PDict [(KStr "clusters", PList [])])
  else
    latitude ← lift (getitem frame "latitude" ≫= as_nums);
    longitude ← lift (getitem frame "longitude" ≫= as_nums);
    let center_lat := mean latitude in
    let center_lon := mean longitude in
    valid_coords ← copy valid_coords;
    let distance :=
      zip_with (fun a b =>
                  a' ← a; b' ← b; clat ← center_lat; clon ← center_lon;
                  Some (sqrt (Q2R ((a' - clat) * (a' - clat) + (b' - clon) * (b' - clon)))))
               latitude longitude in
    setcol valid_coords "distance_from_center" (Reals distance);;
    let spread := std (present distance) in
    hotspots ← _identify_hotspots valid_coords;
    mret (PDict [(KStr "center", PDict [(KStr "lat", num_value center_lat);
                                        (KStr "lon", num_value center_lon)]);
                 (KStr "spread", PReal spread);
                 (KStr "hotspots", hotspots)]).

Definition _analyze_by_facility (df : DataFrame) : result pyval :=
  names ← getitem df "facility_name" ≫= as_strs;
  let facility_counts := value_counts names in
  mret (PDict [(KStr "total_facilities", PInt (Z.of_nat (length facility_counts)));
               (KStr "top_violators", str_dict (firstn 10 facility_counts));
               (KStr "single_incident_facilities",
                PInt (Z.of_nat (length (filter (fun kv => snd kv = 1) facility_counts))));
               (KStr "repeat_violator_count",
                PInt (Z.of_nat (length (filter (fun kv => 1 < snd kv) facility_counts))))]).

(** [results[k] = v] *)
Definition put (results : list (key * pyval)) (k : string) (v : pyval) : list (key * pyval) :=
  results ++ [(KStr k, v)].

Definition analyze_spill_patterns (violations : nat) (weather : option nat) : py pyval :=
  frame ← read violations;
  if empty frame then mret (error_result "No violation data available")
  else
    date_range ← lift (_get_date_range frame);
    let results := [(KStr "total_incidents", PInt (Z.of_nat (nrows frame)));
                    (KStr "date_range", date_range)] in
    results ←
      (if has_column frame "violation_date" then
         date ← lift (getitem frame "violation_date" ≫= to_datetime);
         setcol violations "date" date;;
         temporal ← _analyze_temporal_patterns violations;
         mret (put results "temporal" temporal)
       else mret results);
    frame ← read violations;
    results ←
      (if has_column frame "latitude" && has_column frame "longitude" then
         spatial ← _analyze_spatial_patterns violations;
         mret (put results "spatial" spatial)
       else mret results);
    results ←
      (if has_column frame "severity" then
         severity ← lift (getitem frame "severity" ≫= as_strs);
         mret (put results "severity" (str_dict (value_counts severity)))
       else mret results);
    results ←
      (if has_column frame "violation_type" then
         types ← lift (getitem frame "violation_type" ≫= as_strs);
         mret (put results "types" (str_dict (value_counts types)))
       else mret results);
    results ←
      (if has_column frame "facility_name" then
         by_facility ← lift (_analyze_by_facility frame);
         mret (put results "by_facility" by_facility)
       else mret results);
    mret (PDict results).

(** *** Weather correlation *)

(** [groupby(violations["date"].dt.date).size().reset_index(name=
    "violation_count")]: the days with a violation, in date order,
    with their counts. *)
Definition daily_violations (df : DataFrame) : result (list (Z * Z)) :=
  dates ← getitem df "date" ≫= as_times;
  mret (group_sizes Z.eqb Z.leb dates).

Fixpoint lookup_day (daily : list (Z * Z)) (d : Z) : option Z :=
  match daily with
  | [] => None
  | (d', n) :: daily' => if d' =? d then Some n else lookup_day daily' d
  end.

Definition rename_column (old new_ : string) (cols : list (string * column))
  : list (string * column) :=
  map (fun '(n, c) => (if String.eqb n old then new_ else n, c)) cols.

(** [pd.merge(weather, daily_violations, on="date", how="left")]: every
    weather row, with the count of its day or a missing value; a
    [violation_count] column of the weather table and the new one are
    told apart by the suffixes [_x] and [_y]. *)
Definition merge_left (weather : DataFrame) (daily : list (Z * Z)) : result DataFrame :=
  dates ← getitem weather "date" ≫= as_times;
  let counts := map (fun d => d' ← d; n ← lookup_day daily d'; Some (inject_Z n)) dates in
  if has_column weather "violation_count" then
    mret {| nrows := nrows weather;
            columns := rename_column "violation_count" "violation_count_x" (columns weather)
                       ++ [("violation_count_y", Nums counts)] |}
  else
    mret {| nrows := nrows weather;
            columns := columns weather ++ [("violation_count", Nums counts)] |}.

(** [s.fillna(0)] *)
Definition fillna0 (xs : list (option Q)) : list (option Q) :=
  map (fun x => match x with Some q => Some q | None => Some 0%Q end) xs.

(** [s.rolling(3).sum()]: the sum of a value and the two before it,
    missing when one of the three is. *)
Fixpoint rolling3 (p2 p1 : option (option Q)) (xs : list (option Q)) : list (option Q) :=
  match xs with
  | [] => []
  | x :: xs' =>
      (a ← mjoin p2; b ← mjoin p1; c ← x; Some (Qred (a + b + c)%Q))
      :: rolling3 p1 (Some x) xs'
  end.

(** [~(a.isna() | b.isna())] *)
Definition both_present {A B} (a : list (option A)) (b : list (option B)) : list bool :=
  zip_with (fun x y => is_present x && is_present y) a b.

(** The block reported for a correlation: the coefficient, the p-value
    and the significance flag. *)
Definition correlation_block (x y : list Q) : pyval :=
  match pearsonr (map Q2R x) (map Q2R y) with
  | Some (corr, p_value) =>
      PDict [(KStr "coefficient", PReal (Rround 3 corr));
             (KStr "p_value", PReal (Rround 4 p_value));
             (KStr "significant", PBool (if Rlt_dec p_value 0.05 then true else false))]
  | None =>
      PDict [(KStr "coefficient", PNaN);
             (KStr "p_value", PNaN);
             (KStr "significant", PBool false)]
  end.

Definition thresholds : list (Q * string) :=
  [(1 # 10, "0.1"); (1 # 2, "0.5"); (1, "1.0"); (2, "2.0")]%Q.

(** [max(a, b)] *)
Definition Qmax (a b : Q) : Q := if Qle_bool b a then a else b.

(** [round(rate_above / max(rate_below, 0.01), 2)] *)
Definition relative_risk (rate_above rate_below : Q) : Q :=
  round2 (rate_above / Qmax rate_below (1 # 100)).

(** The rows of the two groups of a threshold: the violation counts of
    the days at or above it, and of the days below it. *)
Definition counts_where (test : Q -> bool) (precipitation counts : list (option Q))
  : list (option Q) :=
  select (map (fun p => match p with Some x => test x | None => false end) precipitation)
         counts.

Definition threshold_entry (precipitation counts : list (option Q)) (threshold : Q)
  : option pyval :=
  let above := counts_where (fun x => Qle_bool threshold x) precipitation counts in
  let below := counts_where (fun x => negb (Qle_bool threshold x)) precipitation counts in
  match above, below with
  | _ :: _, _ :: _ =>
      match mean above, mean below with
      | Some rate_above, Some rate_below =>
          Some (PDict [(KStr "days", PInt (Z.of_nat (length above)));
                       (KStr "avg_violations", PNum (round2 rate_above));
                       (KStr "relative_risk", PNum (relative_risk rate_above rate_below))])
      | _, _ =>
          Some (PDict [(KStr "days", PInt (Z.of_nat (length above)));
                       (KStr "avg_violations", PNaN);
                       (KStr "relative_risk", PNaN)])
      end
  | _, _ => None
  end.

Definition _analyze_precipitation_thresholds (df : DataFrame) : result pyval :=
  precipitation ← getitem df "precipitation_inches" ≫= as_nums;
  counts ← getitem df "violation_count" ≫= as_nums;
  mret (PDict (omap (fun '(threshold, label) =>
                       entry ← threshold_entry precipitation counts threshold;
                       Some (KStr ("above_" +:+ label +:+ "_inches"), entry))
                    thresholds)).

Definition analyze_weather_correlation (violations weather : nat) : py pyval :=
  vframe ← read violations;
  wframe ← read weather;
  if empty vframe || empty wframe
  then mret (error_result "Insufficient data for correlation analysis")
  else
    violations ← copy violations;
    vframe ← read violations;
    date ← lift (getitem vframe "violation_date" ≫= to_datetime);
    setcol violations "date" date;;
    vframe ← read violations;
    daily ← lift (daily_violations vframe);
    weather ← copy weather;
    wframe ← read weather;
    wdate ← lift (getitem wframe "date" ≫= to_datetime);
    setcol weather "date" wdate;;
    wframe ← read weather;
    joined ← lift (merge_left wframe daily);
    merged ← new joined;
    mframe ← read merged;
    counts ← lift (getitem mframe "violation_count" ≫= as_nums);
    setcol merged "violation_count" (Nums (fillna0 counts));;
    mframe ← read merged;
    let results := [(KStr "data_points", PInt (Z.of_nat (nrows mframe)))] in
    results ←
      (if has_column mframe "precipitation_inches" then
         precip ← lift (getitem mframe "precipitation_inches" ≫= as_nums);
         violations_col ← lift (getitem mframe "violation_count" ≫= as_nums);
         let valid_idx := both_present precip violations_col in
         if (10 <? count_true valid_idx)%nat then
           let results :=
             put results "precipitation_correlation"
               (correlation_block (present (select valid_idx precip))
                                  (present (select valid_idx violations_col))) in
           let precip_3day := rolling3 None None precip in
           setcol merged "precip_3day" (Nums precip_3day);;
           let valid_idx_3d := both_present precip_3day violations_col in
           if (10 <? count_true valid_idx_3d)%nat then
             mret (put results "precipitation_3day_correlation"
                     (correlation_block (present (select valid_idx_3d precip_3day))
                                        (present (select valid_idx_3d violations_col))))
           else mret results
         else mret results
       else mret results);
    mframe ← read merged;
    results ←
      (if has_column mframe "precipitation_inches" then
         threshold_analysis ← lift (_analyze_precipitation_thresholds mframe);
         mret (put results "threshold_analysis" threshold_analysis)
       else mret results);
    mret (PDict results).

(** *** Repeat violators *)

(** A row of the [facility_stats] frame. *)
Record FacilityStats : Type := {
  facility_name : string;
  violation_count : Z;
  first_violation : option Z;
  last_violation : option Z;
  primary_violation_type : string;
  latitude : option Q;
  longitude : option Q;
  active_days : option Z;
  violations_per_year : option Q;
  category : string
}.

(** [lambda x: "chronic" if x >= 10 else ("repeat" if x >= 3 else
    "occasional")] *)
Definition classify (x : Z) : string :=
  if 10 <=? x then "chronic" else if 3 <=? x then "repeat" else "occasional".

(** [x.mode().iloc[0] if len(x.mode()) > 0 else "Unknown"] *)
Definition primary_type (xs : list (option string)) : string :=
  match mode xs with
  | m :: _ => m
  | [] => "Unknown"
  end.

(** [count / (active_days / 365).clip(lower=1)], rounded to 2 places. *)
Definition per_year (count : Z) (active_days : option Z) : option Q :=
  days ← active_days;
  Some (round2 (inject_Z count / Qmax (inject_Z days / 365) 1)).

(** [violations.groupby("facility_name").agg(...)] with the columns
    derived from it. *)
Definition facility_stats (df : DataFrame) : result (list FacilityStats) :=
  names ← getitem df "facility_name" ≫= as_strs;
  dates ← getitem df "date" ≫= as_times;
  types ← getitem df "violation_type" ≫= as_strs;
  lats ← getitem df "latitude" ≫= as_nums;
  lons ← getitem df "longitude" ≫= as_nums;
  mret (map (fun '(name, rows) =>
               let seen := present (at_rows dates rows) in
               let count := Z.of_nat (length seen) in
               let first := minimum seen in
               let last := maximum seen in
               let active := a ← first; b ← last; Some (b - a) in
               {| facility_name := name;
                  violation_count := count;
                  first_violation := first;
                  last_violation := last;
                  primary_violation_type := primary_type (at_rows types rows);
                  latitude := first_valid (at_rows lats rows);
                  longitude := first_valid (at_rows lons rows);
                  active_days := active;
                  violations_per_year := per_year count active;
                  category := classify count |})
            (groupby String.eqb String.leb names)).

(** A row of [to_dict("records")]. *)
Definition record_of (f : FacilityStats) : pyval :=
  PDict [(KStr "facility_name", PStr (facility_name f));
         (KStr "violation_count", PInt (violation_count f));
         (KStr "first_violation", time_value (first_violation f));
         (KStr "last_violation", time_value (last_violation f));
         (KStr "primary_violation_type", PStr (primary_violation_type f));
         (KStr "latitude", num_value (latitude f));
         (KStr "longitude", num_value (longitude f));
         (KStr "active_days", match active_days f with Some d => PInt d | None => PNaN end);
         (KStr "violations_per_year", num_value (violations_per_year f));
         (KStr "category", PStr (category f))].

(** [int((facility_stats["category"] == c).sum())] *)
Definition count_category (c : string) (stats : list FacilityStats) : Z :=
  Z.of_nat (length (filter (fun f => category f = c) stats)).

Definition more_frequent (a b : FacilityStats) : bool :=
  match violations_per_year a, violations_per_year b with
  | Some x, Some y => negb (Qle_bool x y)
  | Some _, None => true
  | None, _ => false
  end.

Definition repeat_violators_result (stats : list FacilityStats) : pyval :=
  PDict [(KStr "total_facilities", PInt (Z.of_nat (length stats)));
         (KStr "chronic_violators", PInt (count_category "chronic" stats));
         (KStr "repeat_violators", PInt (count_category "repeat" stats));
         (KStr "occasional_violators", PInt (count_category "occasional" stats));
         (KStr "top_violators",
          PList (map record_of
                   (nlargest (fun a b => violation_count b <? violation_count a) 10 stats)));
         (KStr "highest_frequency",
          PList (map record_of (nlargest more_frequent 5 stats)))].

Definition analyze_repeat_violators (violations : nat) : py pyval :=
  frame ← read violations;
  if empty frame || negb (has_column frame "facility_name")
  then mret (error_result "No facility data available")
  else
    violations ← copy violations;
    frame ← read violations;
    date ← lift (getitem frame "violation_date" ≫= to_datetime);
    setcol violations "date" date;;
    frame ← read violations;
    stats ← lift (facility_stats frame);
    mret (repeat_violators_result stats).

End AnalysisEngine.

(** ** The vocabulary of the specification *)

Module Specification.
Import Text Calendar QueryProcessor Pandas AnalysisEngine.

(** [text] mentions one of [words]. *)
Definition mentions (words : list string) (text : string) : Prop :=
  exists w, In w words /\ Substring w text.

(** [name] is the first entry of [table], in table order, that occurs
    in [text]. *)
Definition FirstNamed (table : list (string * string)) (text name abbrev : string) : Prop :=
  exists i : nat,
    table !! i = Some (name, abbrev) /\
    Substring name text /\
    forall (j : nat) n a, (j < i)%nat -> table !! j = Some (n, a) -> ~ Substring n text.

(** The frame property of a computation: run from any store of at least
    [n] tables, [m] leaves the first [n] tables as they were, and every
    value it returns satisfies [Q]. *)
Definition keeps {A} (n : nat) (m : py A) (Q : A -> Prop) : Prop :=
  forall σ, (n <= length σ)%nat ->
    take n (m σ).2 = take n σ /\ forall a, (m σ).1 = Ok a -> Q a.

(** The days of a weather table whose precipitation is known; after
    the violation counts are filled with zero these are the days with a
    value on both sides. *)
Definition precipitation_of (weather : DataFrame) : list (option Q) :=
  match lookup_column (columns weather) "precipitation_inches" with
  | Some (Nums precip) => precip
  | _ => []
  end.

Definition paired_days (weather : DataFrame) : nat :=
  length (present (precipitation_of weather)).

(** The weather table is read as the engine expects: its [date] column
    holds timestamps, it has no [violation_count] column of its own,
    and a [precipitation_inches] column holds one number or a missing
    value for every date. *)
Definition weather_table (weather : DataFrame) (dates : list (option Z)) : Prop :=
  lookup_column (columns weather) "date" = Some (Times dates) /\
  has_column weather "violation_count" = false /\
  forall c, lookup_column (columns weather) "precipitation_inches" = Some c ->
            exists precip, c = Nums precip /\ length precip = length dates.

(** The order of two ["%Y-%m-%d"] texts as calendar dates. *)
Definition ymd_le (a b : ymd) : Prop :=
  year a < year b \/
  (year a = year b /\ (month a < month b \/ (month a = month b /\ day a <= day b))).

(** A date moved by a number of years. *)
Definition add_years (y : Z) (d : ymd) : ymd := YMD (year d + y) (month d) (day d).

(** From a day of the first 400-year cycle to the next the date does
    not go back, and its year is between 1 and 400. *)
Definition cycle_day_ok (date next : ymd) : bool :=
  ymd_leb date next && (1 <=? year date) && (year date <=? 400).

(** [cycle_day_ok] on [count] days from day [i] on, whose date is
    [date]. *)
Fixpoint cycle_days_from (count : nat) (i : Z) (date : ymd) : bool :=
  match count with
  | O => true
  | S count' =>
      let next := _ord2ymd (i + 1) in
      cycle_day_ok date next && cycle_days_from count' (i + 1) next
  end.

(** Each monthly count is greater than the one before. *)
Definition strictly_increasing (monthly : list Z) : Prop :=
  forall (i : nat) a b, monthly !! i = Some a -> monthly !! S i = Some b -> a < b.

End Specification.

(** ** Inputs of the scenarios *)

Module Scenarios.
Import Text Calendar QueryProcessor Pandas AnalysisEngine.

(** The day 2026-11-03, as a proleptic Gregorian ordinal. *)
Definition today : Z := 739923.
Definition spill_trend_query : string :=
  "Show me the trend of sewage spills over time".

Definition long_span_query : string := "last 20000 years".

Definition dated_table : DataFrame :=
  {| nrows := 2;
     columns := [("violation_date", Times [Some 738000; Some 738045])] |}.

Definition undated_table : DataFrame :=
  {| nrows := 2;
     columns := [("facility_name", Strs [Some "Foley WWTP"; Some "Loxley WWTP"]);
                 ("violation_type", Strs [Some "Permit Violation"; Some "Reporting Violation"])] |}.

(** Twelve violations of one facility, on the first day of each month
    of 2021. *)
Definition monthly_days : list Z :=
  [737791; 737822; 737850; 737881; 737911; 737942; 737972; 738003; 738034; 738064;
   738095; 738125].

Definition one_facility_table : DataFrame :=
  {| nrows := 12;
     columns :=
       [("facility_name", Strs (replicate 12 (Some "Fairhope WWTP")));
        ("violation_date", Times (map Some monthly_days));
        ("violation_type", Strs (replicate 12 (Some "SSO - Sanitary Sewer Overflow")));
        ("latitude", Nums (replicate 12 (Some (305227 # 10000)%Q)));
        ("longitude", Nums (replicate 12 (Some (- 879033 # 10000)%Q)))] |}.

Definition one_facility_result : pyval :=
  Eval vm_compute in
    match (analyze_repeat_violators 0 [one_facility_table]).1 with
    | Ok res => res
    | Raise _ => PNone
    end.

(** A weather table of [n] days, each with a precipitation value. *)
Definition weather_of_days (n : nat) : DataFrame :=
  {| nrows := n;
     columns :=
       [("date", Times (map (fun i => Some (738000 + Z.of_nat i)) (seq 0 n)));
        ("precipitation_inches",
         Nums (map (fun i => Some (inject_Z (Z.of_nat i) / 10)%Q) (seq 0 n)))] |}.

(** 201 days of heavy rain and a dry one; the only violation falls on
    the first rainy day. *)
Definition rainy_weather : DataFrame :=
  {| nrows := 202;
     columns :=
       [("date", Times (map (fun i => Some (738000 + Z.of_nat i)) (seq 0 202)));
        ("precipitation_inches",
         Nums (replicate 201 (Some (3 # 2)%Q) ++ [Some 0%Q]))] |}.

Definition single_violation : DataFrame :=
  {| nrows := 1;
     columns :=
       [("facility_name", Strs [Some "Foley WWTP"]);
        ("violation_date", Times [Some 738000])] |}.

Definition rainy_merged : DataFrame :=
  {| nrows := 202;
     columns :=
       columns rainy_weather ++
       [("violation_count", Nums (Some 1%Q :: replicate 201 (Some 0%Q)))] |}.

Definition unnamed_table : DataFrame :=
  {| nrows := 3;
     columns :=
       [("violation_date", Times [Some 738000; Some 738031; None]);
        ("latitude", Nums [Some (304066 # 10000)%Q; Some (305227 # 10000)%Q; None]);
        ("longitude", Nums [Some (- 876836 # 10000)%Q; Some (- 879033 # 10000)%Q; None])] |}.

Definition rising_months : list Z := [1; 2; 3; 10]%Z.

(** One violation in January 2021, two in February, three in March and
    ten in April. *)
Definition rising_table : DataFrame :=
  {| nrows := 16;
     columns :=
       [("date",
         Times (map Some
                  ([737791; 737822; 737823; 737850; 737851; 737852]
                   ++ map (fun i => 737881 + Z.of_nat i) (seq 0 10))))] |}.

(** Five violations in each of January, February and March 2021. *)
Definition flat_table : DataFrame :=
  {| nrows := 15;
     columns :=
       [("date",
         Times (map Some
                  (map (fun i => 737791 + Z.of_nat i) (seq 0 5)
                   ++ map (fun i => 737822 + Z.of_nat i) (seq 0 5)
                   ++ map (fun i => 737850 + Z.of_nat i) (seq 0 5))))] |}.

End Scenarios.

(** ** [utils/helpers.py]: FIPS codes *)

Module helpers.
Import Text.

(** [str.upper] *)
Fixpoint upper (s : string) : string :=
  match s with
  | EmptyString => EmptyString
  | String c s' => String (to_upper c) (upper s')
  end.

(** [d.get(k)] on a dictionary literal with string keys. *)
Fixpoint dict_find {V} (d : list (string * V)) (k : string) : option V :=
  match d with
  | [] => None
  | (k', v) :: d' => if String.eqb k' k then Some v else dict_find d' k
  end.

Definition fips_codes : list (string * string) :=
  [("AL", "01"); ("AK", "02"); ("AZ", "04"); ("AR", "05"); ("CA", "06");
   ("CO", "08"); ("CT", "09"); ("DE", "10"); ("FL", "12"); ("GA", "13");
   ("HI", "15"); ("ID", "16"); ("IL", "17"); ("IN", "18"); ("IA", "19");
   ("KS", "20"); ("KY", "21"); ("LA", "22"); ("ME", "23"); ("MD", "24");
   ("MA", "25"); ("MI", "26"); ("MN", "27"); ("MS", "28"); ("MO", "29");
   ("MT", "30"); ("NE", "31"); ("NV", "32"); ("NH", "33"); ("NJ", "34");
   ("NM", "35"); ("NY", "36"); ("NC", "37"); ("ND", "38"); ("OH", "39");
   ("OK", "40"); ("OR", "41"); ("PA", "42"); ("RI", "44"); ("SC", "45");
   ("SD", "46"); ("TN", "47"); ("TX", "48"); ("UT", "49"); ("VT", "50");
   ("VA", "51"); ("WA", "53"); ("WV", "54"); ("WI", "55"); ("WY", "56")].

Definition get_state_fips (state_abbrev : string) : option string :=
  dict_find fips_codes (upper state_abbrev).

(** The [county_fips] dictionary, keyed by [(state, county)]. *)
Definition county_fips : list ((string * string) * string) :=
  [(("AL", "BALDWIN"), "01003");
   (("AL", "MOBILE"), "01097");
   (("CA", "LOS ANGELES"), "06037");
   (("CA", "SAN FRANCISCO"), "06075");
   (("FL", "MIAMI-DADE"), "12086");
   (("TX", "HARRIS"), "48201")].

Fixpoint pair_find {V} (d : list ((string * string) * V)) (k : string * string) : option V :=
  match d with
  | [] => None
  | (k', v) :: d' =>
      if String.eqb (fst k') (fst k) && String.eqb (snd k') (snd k) then Some v
      else pair_find d' k
  end.

Definition get_county_fips (state county : string) : option string :=
  pair_find county_fips (upper state, upper county).

End helpers.

(** ** [data/data_manager.py] and [data/noaa_client.py]: the FIPS code of
    a location *)

Module DataManager.
Import Text helpers.

(** [DataManager._get_location_fips(state, county)]; [county] defaults
    to [None]. *)
Definition _get_location_fips (state : string) (county : option string) : string :=
  let county_code :=
    if QueryProcessor.truthy county then
      match county with
      | Some name =>
          match get_county_fips state name with
          | Some fips => if is_empty fips then None else Some fips
          | None => None
          end
      | None => None
      end
    else None in
  match county_code with
  | Some fips => fips
  | None =>
      match get_state_fips state with
      | Some state_fips => if is_empty state_fips then "01" else state_fips
      | None => "01"
      end
  end.

(** [NOAAClient._get_state_fips] *)
Definition _get_state_fips (state_abbrev : string) : string :=
  match get_state_fips state_abbrev with
  | Some state_fips => if is_empty state_fips then "01" else state_fips
  | None => "01"
  end.

End DataManager.

(** ** Results of the code outside the two core modules

    The exceptions of [exn], [AttributeError] with the name of the
    missing attribute, and [IndexError]. *)

Module Outcome.

Inductive raised : Type :=
| Builtin (e : exn)
| AttributeError (attribute : string)
| IndexError.

Inductive outcome (A : Type) : Type :=
| Returns (a : A)
| Raises (r : raised).
Arguments Returns {A} a.
Arguments Raises {A} r.

#[global] Instance outcome_ret : MRet outcome := fun A a => Returns a.
#[global] Instance outcome_bind : MBind outcome := fun A B k m =>
  match m with
  | Returns a => k a
  | Raises r => Raises r
  end.

Definition builtin {A} (r : result A) : outcome A :=
  match r with
  | Ok a => Returns a
  | Raise e => Raises (Builtin e)
  end.

End Outcome.

(** ** [core/query_processor.py]: the path through the language model

    The reply of the model is the value [json.loads] decodes from it;
    [_validate_and_enhance] completes it in place. *)

Module ModelReply.
Import Text Calendar QueryProcessor Outcome.

(** A decoded JSON value.  [JDate d] is the text [strftime] writes for
    the date [d]; [JNaN] is the float [nan]. *)
#[warnings="-register-all"]
Inductive json : Type :=
| JNull
| JBool (b : bool)
| JInt (n : Z)
| JFloat (x : Q)
| JNaN
| JStr (s : string)
| JDate (d : ymd)
| JList (items : list json)
| JDict (items : list (string * json)).

(** The truth value of a JSON value. *)
Definition truth (v : json) : bool :=
  match v with
  | JNull => false
  | JBool b => b
  | JInt n => negb (n =? 0)
  | JFloat x => negb (Qeq_bool x 0)
  | JNaN => true
  | JStr s => negb (is_empty s)
  | JDate _ => true
  | JList items => match items with [] => false | _ => true end
  | JDict items => match items with [] => false | _ => true end
  end.

(** [d[k] = x] on the items of a dictionary: the value of an existing
    key is replaced in place, a new key is appended. *)
Fixpoint store_item (items : list (string * json)) (k : string) (x : json)
  : list (string * json) :=
  match items with
  | [] => [(k, x)]
  | (k', x') :: items' =>
      if String.eqb k' k then (k', x) :: items' else (k', x') :: store_item items' k x
  end.

(** [v.get(k, default)] *)
Definition get_method (v : json) (k : string) (default : json) : outcome json :=
  match v with
  | JDict items =>
      match helpers.dict_find items k with
      | Some x => Returns x
      | None => Returns default
      end
  | _ => Raises (AttributeError "get")
  end.

(** [v[k]] *)
Definition getitem (v : json) (k : string) : outcome json :=
  match v with
  | JDict items =>
      match helpers.dict_find items k with
      | Some x => Returns x
      | None => Raises (Builtin (KeyError k))
      end
  | _ => Raises (Builtin TypeError)
  end.

(** [v[k] = x] *)
Definition setitem (v : json) (k : string) (x : json) : outcome json :=
  match v with
  | JDict items => Returns (JDict (store_item items k x))
  | _ => Raises (Builtin TypeError)
  end.

(** [v[k1][k2] = x] *)
Definition setitem_in (v : json) (k1 k2 : string) (x : json) : outcome json :=
  inner ← getitem v k1;
  inner ← setitem inner k2 x;
  setitem v k1 inner.

(** The dictionary [_parse_relative_time] returns. *)
Definition range_dict (tr : TimeRange) : json :=
  JDict [("start_date", JDate (start_date tr)); ("end_date", JDate (end_date tr))].

(** [self._parse_relative_time(v)]: a value that is not a string has no
    [lower]; the text of a date names no unit of time. *)
Definition parse_relative (now : Z) (v : json) : outcome json :=
  match v with
  | JStr s => tr ← builtin (_parse_relative_time now s); mret (range_dict tr)
  | JDate _ =>
      start ← builtin (minus_days now 365);
      mret (range_dict {| start_date := strftime start; end_date := strftime now |})
  | _ => Raises (AttributeError "lower")
  end.

(** [table.get(v, default)] on a table with string keys: a list or a
    dictionary cannot be hashed. *)
Definition table_get {V} (table : string -> V) (default : V) (v : json) : outcome V :=
  match v with
  | JStr s => Returns (table s)
  | JList _ | JDict _ => Raises (Builtin TypeError)
  | _ => Returns default
  end.

Definition _validate_and_enhance (now : Z) (parsed : json) (original_query : string)
  : outcome json :=
  parsed ← setitem parsed "original_query" (JStr original_query);
  location ← get_method parsed "location" JNull;
  parsed ← (if truth location then mret parsed
            else setitem parsed "location" (JDict []));
  location ← getitem parsed "location";
  state ← get_method location "state" JNull;
  parsed ← (if truth state then mret parsed
            else setitem_in parsed "location" "state" (JStr config.DEFAULT_STATE));
  location ← getitem parsed "location";
  county ← get_method location "county" JNull;
  parsed ← (if truth county then mret parsed
            else setitem_in parsed "location" "county" (JStr config.DEFAULT_COUNTY));
  time_range ← get_method parsed "time_range" (JDict []);
  relative ← get_method time_range "relative" JNull;
  parsed ←
    (if truth relative then
       start ← get_method time_range "start_date" JNull;
       if truth start then mret parsed
       else
         relative ← getitem time_range "relative";
         range ← parse_relative now relative;
         setitem parsed "time_range" range
     else mret parsed);
  time_range ← get_method parsed "time_range" JNull;
  missing ←
    (if truth time_range then
       time_range ← getitem parsed "time_range";
       start ← get_method time_range "start_date" JNull;
       mret (negb (truth start))
     else mret true);
  parsed ←
    (if missing : bool then
       start ← builtin (minus_days now (365 * 3));
       setitem parsed "time_range"
         (range_dict {| start_date := strftime start; end_date := strftime now |})
     else mret parsed);
  sources ← get_method parsed "data_sources" JNull;
  parsed ←
    (if truth sources then mret parsed
     else
       query_type ← get_method parsed "query_type" (JStr "general_overview");
       inferred ← table_get _infer_data_sources ["epa"] query_type;
       setitem parsed "data_sources" (JList (map JStr inferred)));
  visualization ← get_method parsed "visualization_type" JNull;
  parsed ←
    (if truth visualization then mret parsed
     else
       query_type ← get_method parsed "query_type" (JStr "general_overview");
       inferred ← table_get _infer_visualization "combined" query_type;
       setitem parsed "visualization_type" (JStr inferred));
  mret parsed.

(** The dictionary [_fallback_parse] returns. *)
Definition parsed_dict (pq : ParsedQuery) : json :=
  let text (o : option string) :=
    match o with Some s => JStr s | None => JNull end in
  JDict [("query_type", JStr (query_type pq));
         ("location", JDict [("state", text (state (location pq)));
                             ("county", text (county (location pq)));
                             ("city", text (city (location pq)))]);
         ("time_range", range_dict (time_range pq));
         ("data_sources", JList (map JStr (data_sources pq)));
         ("visualization_type", JStr (visualization_type pq));
         ("filters", JDict (map (fun kv => (fst kv, JStr (snd kv))) (filters pq)));
         ("original_query", JStr (original_query pq))].

(** [process_query] of a processor that has a client.  [reply] is the
    value decoded from the answer of the model, or [None] when the
    request or the decoding raised; every exception of the [try] block
    leads to the fallback parse. *)
Definition process_query_with_client (now : Z) (reply : option json) (query : string)
  : result json :=
  let fallback := pq ← _fallback_parse now query; mret (parsed_dict pq) in
  match reply with
  | Some parsed =>
      match _validate_and_enhance now parsed query with
      | Returns validated => Ok validated
      | Raises _ => fallback
      end
  | None => fallback
  end.

(** [v[k]] when [v] is a dictionary that has the key. *)
Definition item (v : json) (k : string) : option json :=
  match v with
  | JDict items => helpers.dict_find items k
  | _ => None
  end.

(** The value of [k] after a default has been filled in: the value the
    reply gave when that is true, the default otherwise. *)
Definition filled (given : option json) (default : json) : json :=
  match given with
  | Some v => if truth v then v else default
  | None => default
  end.

End ModelReply.

(** ** [core/analysis_engine.py]: the summary statistics *)

Module Summary.
Import Calendar QueryProcessor Pandas AnalysisEngine Outcome.

(** [pd.DataFrame()] *)
Definition no_frame : DataFrame := {| nrows := 0; columns := [] |}.

(** [data.get(name, pd.DataFrame())] *)
Definition frame_of (data : list (string * DataFrame)) (name : string) : DataFrame :=
  dict_get data name no_frame.

(** [round(x, 3)] *)
Definition round3 (x : Q) : Q := Qred (inject_Z (rint (x * 1000)) / 1000).

(** [s.nunique()]: the number of distinct values, missing ones left
    out. *)
Definition nunique (xs : list (option string)) : Z :=
  Z.of_nat (length (group_sizes String.eqb String.leb xs)).

(** [int((s > bound).sum())] *)
Definition days_above (bound : Q) (xs : list (option Q)) : Z :=
  Z.of_nat (length (List.filter (fun x => negb (Qle_bool x bound)) (present xs))).

(** [int(x)] of a float: the fraction is cut off. *)
Definition truncate (x : Q) : Z := if Qle_bool 0 x then Qfloor x else Qceiling x.

(** [int(c.iloc[0]) if pd.notna(c.iloc[0]) else None] on a column of
    numbers; a population that is not numeric is outside the model. *)
Definition population_value (c : column) : outcome (option Z) :=
  match c with
  | Nums v =>
      match v with
      | x :: _ => Returns (fmap truncate x)
      | [] => Raises IndexError
      end
  | Ints v =>
      match v with
      | x :: _ => Returns x
      | [] => Raises IndexError
      end
  | _ => Raises (Builtin TypeError)
  end.

(** The facet of the violations table. *)
Definition violations_facet (violations : DataFrame) : result pyval :=
  unique ←
    (if has_column violations "facility_name" then
       names ← getitem violations "facility_name" ≫= as_strs;
       mret (nunique names)
     else mret 0);
  let facet := [(KStr "total", PInt (Z.of_nat (nrows violations)));
                (KStr "unique_facilities", PInt unique)] in
  facet ←
    (if has_column violations "severity" then
       severity ← getitem violations "severity" ≫= as_strs;
       mret (put facet "by_severity" (str_dict (value_counts severity)))
     else mret facet);
  facet ←
    (if has_column violations "violation_type" then
       types ← getitem violations "violation_type" ≫= as_strs;
       mret (put facet "by_type" (str_dict (value_counts types)))
     else mret facet);
  mret (PDict facet).

(** The facet of the precipitation table. *)
Definition weather_facet (rain : list (option Q)) : pyval :=
  PDict [(KStr "total_rainfall_inches", PNum (round2 (Qsum (present rain))));
         (KStr "avg_daily_rainfall",
          match mean rain with Some m => PNum (round3 m) | None => PNaN end);
         (KStr "rainy_days", PInt (days_above (1 # 10) rain));
         (KStr "heavy_rain_days", PInt (days_above 1 rain))].

Definition generate_summary_stats (data : list (string * DataFrame)) : outcome pyval :=
  let summary := [] in
  let violations := frame_of data "violations" in
  summary ←
    (if negb (empty violations) then
       facet ← builtin (violations_facet violations);
       mret (put summary "violations" facet)
     else mret summary);
  let precip := frame_of data "precipitation" in
  summary ←
    (if negb (empty precip) && has_column precip "precipitation_inches" then
       rain ← builtin (getitem precip "precipitation_inches" ≫= as_nums);
       mret (put summary "weather" (weather_facet rain))
     else mret summary);
  let population := frame_of data "population" in
  summary ←
    (if negb (empty population) && has_column population "population" then
       people ← builtin (getitem population "population") ≫= population_value;
       let summary :=
         put summary "demographics"
           (PDict [(KStr "population",
                    match people with Some n => PInt n | None => PNone end)]) in
       match people with
       | Some n =>
           if negb (empty violations) && negb (n =? 0) then
             mret (put summary "per_capita"
                     (PDict [(KStr "violations_per_100k",
                              PNum (round2 (inject_Z (Z.of_nat (nrows violations))
                                            / inject_Z n * 100000))%Q)]))
           else mret summary
       | None => mret summary
       end
     else mret summary);
  mret (PDict summary).

End Summary.

(** ** [app.py]: the dispatch of the analyses and the data of the
    correlation chart *)

Module App.
Import QueryProcessor Pandas AnalysisEngine helpers.

(** [pd.DataFrame()] *)
Definition no_frame : DataFrame := {| nrows := 0; columns := [] |}.

(** [analyze_data(parsed, data, components)]: [data] maps the names of
    the fetched tables to their frames; the default of a [data.get] is
    built before the lookup. *)
Definition analyze_data (parsed : ParsedQuery) (data : list (string * nat)) : py pyval :=
  let query_type := query_type parsed in
  if String.eqb query_type "spill_analysis" then
    default ← new no_frame;
    analyze_spill_patterns (dict_get data "violations" default)
                           (dict_find data "precipitation")
  else if String.eqb query_type "repeat_violators" then
    default ← new no_frame;
    analyze_repeat_violators (dict_get data "violations" default)
  else if String.eqb query_type "weather_correlation" then
    default ← new no_frame;
    default_weather ← new no_frame;
    analyze_weather_correlation (dict_get data "violations" default)
                                (dict_get data "precipitation" default_weather)
  else if String.eqb query_type "violation_trends" then
    default ← new no_frame;
    analyze_spill_patterns (dict_get data "violations" default) None
  else
    default ← new no_frame;
    analyze_spill_patterns (dict_get data "violations" default) None.

(** [df[names]] *)
Fixpoint select_columns (df : DataFrame) (names : list string)
  : result (list (string * column)) :=
  match names with
  | [] => Ok []
  | name :: names' =>
      c ← getitem df name;
      rest ← select_columns df names';
      mret ((name, c) :: rest)
  end.

(** [prepare_correlation_data(violations, precipitation)]; the value is
    the merged frame. *)
Definition prepare_correlation_data (violations precipitation : nat) : py nat :=
  vframe ← read violations;
  pframe ← read precipitation;
  if empty vframe || empty pframe then new no_frame
  else
    violations ← copy violations;
    vframe ← read violations;
    date ← lift (getitem vframe "violation_date" ≫= to_datetime);
    setcol violations "date" date;;
    vframe ← read violations;
    daily ← lift (daily_violations vframe);
    precipitation ← copy precipitation;
    pframe ← read precipitation;
    pdate ← lift (getitem pframe "date" ≫= to_datetime);
    setcol precipitation "date" pdate;;
    pframe ← read precipitation;
    selected ← lift (select_columns pframe ["date"; "precipitation_inches"]);
    selected ← new {| nrows := nrows pframe; columns := selected |};
    sframe ← read selected;
    joined ← lift (merge_left sframe daily);
    merged ← new joined;
    mframe ← read merged;
    counts ← lift (getitem mframe "violation_count" ≫= as_nums);
    setcol merged "violation_count" (Nums (fillna0 counts));;
    mret merged.

End App.

(** ** Vocabulary of the further properties *)

Module Properties.
Import Text Calendar QueryProcessor.

(** The query types the processor knows. *)
Definition query_types : list string :=
  ["spill_analysis"; "violation_trends"; "repeat_violators"; "weather_correlation";
   "facility_search"; "general_overview"].

(** A non-empty run of decimal digits. *)
Definition Digits (g : string) : Prop := g <> EmptyString /\ all_chars is_digit g = true.

(** The text has no decimal digit. *)
Definition digit_free (s : string) : bool := all_chars (fun c => negb (is_digit c)) s.

(** A time range that ends on the day [now] and starts [days] days
    before it. *)
Definition days_back (now days : Z) : TimeRange :=
  {| start_date := strftime (now - days); end_date := strftime now |}.

(** The calendar year [y]. *)
Definition calendar_year (y : Z) : TimeRange :=
  {| start_date := YMD y 1 1; end_date := YMD y 12 31 |}.

(** The column [_get_date_range] reads. *)
Definition date_column (df : Pandas.DataFrame) : option Pandas.column :=
  if Pandas.has_column df "violation_date"
  then Pandas.lookup_column (Pandas.columns df) "violation_date"
  else Pandas.lookup_column (Pandas.columns df) "date".

(** The sum of a list of counts. *)
Definition total (sizes : list Z) : Z := fold_right Z.add 0 sizes.

(** The rows are in descending order of [count]. *)
Definition descending {A} (count : A -> Z) (rows : list A) : Prop :=
  forall (i j : nat) a b,
    (i < j)%nat -> rows !! i = Some a -> rows !! j = Some b -> count b <= count a.

(** The month and the day of a date lie in the ranges of the calendar. *)
Definition cycle_fields_ok (date : ymd) : bool :=
  (1 <=? month date) && (month date <=? 12) && (1 <=? day date) && (day date <=? 31).

(** [cycle_fields_ok] on [count] days from day [i] on. *)
Fixpoint cycle_fields_from (count : nat) (i : Z) : bool :=
  match count with
  | O => true
  | S count' => cycle_fields_ok (_ord2ymd i) && cycle_fields_from count' (i + 1)
  end.

(** Every frame named by [data] is in the store. *)
Definition fetched (σ : list Pandas.DataFrame) (data : list (string * nat)) : Prop :=
  forall name r, In (name, r) data -> exists df, σ !! r = Some df.

(** The rows of all groups together. *)
Definition rows_total {K} (groups : list (K * list nat)) : Z :=
  total (map (fun g => Z.of_nat (length (snd g))) groups).

(** The results begin with the number of data points. *)
Definition begins_with_data_points (n : Z) (results : list (key * pyval)) : Prop :=
  exists rest, results = (KStr "data_points", PInt n) :: rest.

(** *** Example tables *)

(** Three violations of the first two months of 2021, and one without
    a date. *)
Definition spring_dates : list (option Z) :=
  [Some 737791; Some 737822; Some 737823; None].
Definition spring_table : Pandas.DataFrame :=
  {| Pandas.nrows := 4; Pandas.columns := [("date", Pandas.Times spring_dates)] |}.

(** One row with coordinates and one without. *)
Definition lone_point_table : Pandas.DataFrame :=
  {| Pandas.nrows := 2;
     Pandas.columns :=
       [("latitude", Pandas.Nums [Some (304066 # 10000)%Q; None]);
        ("longitude", Pandas.Nums [Some (- 876836 # 10000)%Q; None])] |}.

(** A wet day with two violations, a dry day, and a day without a
    measurement. *)
Definition wet_days : list (option Q) := [Some (3 # 2)%Q; Some 0%Q; None].
Definition wet_counts : list (option Q) := [Some 2%Q; Some 0%Q; Some 1%Q].
Definition wet_and_dry : Pandas.DataFrame :=
  {| Pandas.nrows := 3;
     Pandas.columns :=
       [("precipitation_inches", Pandas.Nums wet_days);
        ("violation_count", Pandas.Nums wet_counts)] |}.

(** A reply of the model that names a state and a relative time range,
    and leaves the county open. *)
Definition texas_reply : ModelReply.json :=
  ModelReply.JDict
    [("query_type", ModelReply.JStr "repeat_violators");
     ("location", ModelReply.JDict [("state", ModelReply.JStr "TX");
                                    ("county", ModelReply.JNull)]);
     ("time_range", ModelReply.JDict [("relative", ModelReply.JStr "last 2 years")])].

(** The population of Baldwin County, and the tables of a summary. *)
Definition population_table : Pandas.DataFrame :=
  {| Pandas.nrows := 1;
     Pandas.columns := [("name", Pandas.Strs [Some "Baldwin County, Alabama"]);
                        ("population", Pandas.Ints [Some 231767])] |}.
Definition summary_data : list (string * Pandas.DataFrame) :=
  [("violations", Scenarios.undated_table);
   ("precipitation", wet_and_dry);
   ("population", population_table)].

(** A parsed query of the general overview. *)
Definition overview_query : ParsedQuery :=
  {| query_type := "general_overview";
     location := {| state := Some "AL"; county := Some "Baldwin"; city := None |};
     time_range := calendar_year 2021;
     data_sources := ["epa"; "census"];
     visualization_type := "combined";
     filters := [];
     original_query := "overview" |}.

End Properties.

(** ** Properties of the calendar *)

Module CalendarFacts.
Import Calendar Specification.

Lemma ymd_leb_le a b : ymd_leb a b = true <-> ymd_le a b.
Proof.
  unfold ymd_leb, ymd_le.
  rewrite !orb_true_iff, !andb_true_iff, !orb_true_iff, !andb_true_iff.
  rewrite !Z.ltb_lt, !Z.eqb_eq, Z.leb_le. tauto.
Qed.

Lemma ymd_le_refl a : ymd_le a a.
Proof. unfold ymd_le. lia. Qed.

Lemma ymd_le_trans a b c : ymd_le a b -> ymd_le b c -> ymd_le a c.
Proof. unfold ymd_le. lia. Qed.

(** The date of a day is the date of its place in the 400-year cycle,
    moved by the cycles before it. *)
Lemma _ord2ymd_cycle n :
  _ord2ymd n = add_years (400 * ((n - 1) / _DI400Y))
                         (_ord2ymd ((n - 1) mod _DI400Y + 1)).
Proof.
  unfold _ord2ymd.
  replace ((n - 1) mod _DI400Y + 1 - 1) with ((n - 1) mod _DI400Y) by lia.
  assert (Hr : 0 <= (n - 1) mod _DI400Y < _DI400Y)
    by (apply Z.mod_pos_bound; reflexivity).
  rewrite (Z.div_small ((n - 1) mod _DI400Y) _DI400Y Hr).
  rewrite (Z.mod_small ((n - 1) mod _DI400Y) _DI400Y Hr).
  cbv zeta.
  repeat match goal with
         | |- context [if ?b then _ else _] => destruct b
         end; unfold add_years; cbn [year month day]; f_equal; lia.
Qed.

Lemma cycle_days_ok : cycle_days_from (Z.to_nat 146097) 1 (_ord2ymd 1) = true.
Proof. vm_compute. reflexivity. Qed.

Lemma cycle_days_from_spec count i j :
  cycle_days_from count i (_ord2ymd i) = true ->
  i <= j < i + Z.of_nat count ->
  cycle_day_ok (_ord2ymd j) (_ord2ymd (j + 1)) = true.
Proof.
  revert i. induction count as [|count IH]; intros i H Hj; [lia|].
  cbn [cycle_days_from] in H. cbv zeta in H.
  apply andb_true_iff in H as [Hi Hrest].
  destruct (Z.eq_dec i j) as [->|Hne]; [exact Hi|].
  apply (IH (i + 1)); [exact Hrest | lia].
Qed.

Lemma cycle_day i :
  1 <= i <= 146097 ->
  ymd_le (_ord2ymd i) (_ord2ymd (i + 1)) /\ 1 <= year (_ord2ymd i) <= 400.
Proof.
  intros Hi.
  pose proof (cycle_days_from_spec _ 1 i cycle_days_ok ltac:(lia)) as H.
  unfold cycle_day_ok in H. rewrite !andb_true_iff, ymd_leb_le, !Z.leb_le in H.
  tauto.
Qed.

Lemma cycle_monotone a (k : nat) :
  1 <= a -> a + Z.of_nat k <= 146098 ->
  ymd_le (_ord2ymd a) (_ord2ymd (a + Z.of_nat k)).
Proof.
  intros Ha. induction k as [|k IH]; intros Hb.
  - rewrite Z.add_0_r. apply ymd_le_refl.
  - eapply ymd_le_trans; [apply IH; lia|].
    replace (a + Z.of_nat (S k)) with (a + Z.of_nat k + 1) by lia.
    apply cycle_day. lia.
Qed.

(** [strftime] keeps the order of the days. *)
Lemma _ord2ymd_monotone a b :
  1 <= a <= b -> ymd_le (_ord2ymd a) (_ord2ymd b).
Proof.
  intros Hab. rewrite (_ord2ymd_cycle a), (_ord2ymd_cycle b).
  unfold _DI400Y.
  pose proof (Z.div_mod (a - 1) 146097 ltac:(lia)) as Hda.
  pose proof (Z.div_mod (b - 1) 146097 ltac:(lia)) as Hdb.
  pose proof (Z.mod_pos_bound (a - 1) 146097 ltac:(lia)) as Hra.
  pose proof (Z.mod_pos_bound (b - 1) 146097 ltac:(lia)) as Hrb.
  set (qa := (a - 1) / 146097) in *. set (ra := (a - 1) mod 146097) in *.
  set (qb := (b - 1) / 146097) in *. set (rb := (b - 1) mod 146097) in *.
  destruct (Z.lt_trichotomy qa qb) as [Hq|[Hq|Hq]]; [| |lia].
  - destruct (cycle_day (ra + 1) ltac:(lia)) as [_ Hya].
    destruct (cycle_day (rb + 1) ltac:(lia)) as [_ Hyb].
    unfold ymd_le, add_years. cbn [year month day]. lia.
  - assert (Hr : ra <= rb) by lia.
    pose proof (cycle_monotone (ra + 1) (Z.to_nat (rb - ra)) ltac:(lia) ltac:(lia)) as H.
    replace (ra + 1 + Z.of_nat (Z.to_nat (rb - ra))) with (rb + 1) in H by lia.
    rewrite Hq. unfold ymd_le, add_years in *. cbn [year month day]. lia.
Qed.

End CalendarFacts.

(** ** Properties of the fallback parser *)

Module QueryProcessorFacts.
Import Text Calendar QueryProcessor Specification Scenarios CalendarFacts.

Lemma append_nil (s : string) : EmptyString +:+ s = s.
Proof. reflexivity. Qed.

Lemma append_cons (c : ascii) (s t : string) : String c s +:+ t = String c (s +:+ t).
Proof. reflexivity. Qed.

Lemma bind_ok_result {A B} (a : A) (k : A -> result B) : (Ok a ≫= k) = k a.
Proof. reflexivity. Qed.

Lemma starts_with_spec (w s : string) :
  starts_with w s = true <-> exists post, s = w +:+ post.
Proof.
  revert s. induction w as [|c w IH]; intros s; simpl.
  - split; [intros _; exists s; reflexivity | reflexivity].
  - destruct s as [|d s].
    + split; [discriminate | intros [post H]; discriminate].
    + rewrite andb_true_iff, Ascii.eqb_eq, IH. split.
      * intros [-> [post ->]]. by exists post.
      * intros [post H]. rewrite append_cons in H.
        injection H as -> ->. split; [done | by exists post].
Qed.

Lemma contains_spec (w s : string) :
  contains w s = true <-> Substring w s.
Proof.
  induction s as [|d s IH]; simpl.
  - rewrite orb_false_r, starts_with_spec. split.
    + intros [post H]. by exists EmptyString, post.
    + intros [pre [post H]]. destruct pre as [|e pre].
      * by exists post.
      * rewrite append_cons in H. discriminate.
  - rewrite orb_true_iff, starts_with_spec, IH. split.
    + intros [[post H] | [pre [post H]]].
      * by exists EmptyString, post.
      * exists (String d pre), post. rewrite append_cons. by rewrite H.
    + intros [pre [post H]]. destruct pre as [|e pre].
      * left. by exists post.
      * right. exists pre, post. rewrite append_cons in H. congruence.
Qed.

Lemma any_in_spec (words : list string) (s : string) :
  any_in words s = true <-> mentions words s.
Proof.
  unfold any_in, mentions. rewrite existsb_exists.
  split; intros [w [Hin H]]; exists w; split; try done; by apply contains_spec.
Qed.

Lemma any_in_false (words : list string) (s : string) :
  any_in words s = false <-> ~ mentions words s.
Proof.
  rewrite <- any_in_spec. destruct (any_in words s); split; congruence.
Qed.

Lemma fallback_query_type now q pq :
  process_query now q = Ok pq -> query_type pq = detect_query_type (lower q).
Proof.
  unfold process_query, _fallback_parse.
  destruct (_extract_time_range now q); simpl; [|done].
  by intros [= <-].
Qed.

(** C7. The fallback classifier tests keyword membership in a fixed
    priority order: a spill word gives [spill_analysis]; failing that a
    repeat word gives [repeat_violators]; failing that a weather word
    gives [weather_correlation]; failing that a trend word gives
    [violation_trends]; failing that a search word gives
    [facility_search]; otherwise [general_overview].  In particular a
    text with both a spill word and a trend word is [spill_analysis]. *)
Theorem fallback_priority_order now q pq :
  process_query now q = Ok pq ->
  let text := lower q in
  (mentions spill_words text -> query_type pq = "spill_analysis") /\
  (~ mentions spill_words text -> mentions repeat_words text ->
     query_type pq = "repeat_violators") /\
  (~ mentions spill_words text -> ~ mentions repeat_words text ->
   mentions weather_words text -> query_type pq = "weather_correlation") /\
  (~ mentions spill_words text -> ~ mentions repeat_words text ->
   ~ mentions weather_words text -> mentions trend_words text ->
     query_type pq = "violation_trends") /\
  (~ mentions spill_words text -> ~ mentions repeat_words text ->
   ~ mentions weather_words text -> ~ mentions trend_words text ->
   mentions search_words text -> query_type pq = "facility_search") /\
  (~ mentions spill_words text -> ~ mentions repeat_words text ->
   ~ mentions weather_words text -> ~ mentions trend_words text ->
   ~ mentions search_words text -> query_type pq = "general_overview") /\
  (mentions spill_words text -> mentions trend_words text ->
     query_type pq = "spill_analysis").
Proof.
  intros Hq text. rewrite (fallback_query_type _ _ _ Hq). fold text.
  unfold detect_query_type.
  repeat split; intros;
    repeat match goal with
           | H : mentions _ _ |- _ => apply any_in_spec in H; rewrite H
           | H : ~ mentions _ _ |- _ => apply any_in_false in H; rewrite H
           end; reflexivity.
Qed.

Lemma fallback_priority_order_witness :
  exists pq,
    process_query today spill_trend_query = Ok pq /\
    mentions spill_words (lower spill_trend_query) /\
    mentions trend_words (lower spill_trend_query) /\
    query_type pq = "spill_analysis".
Proof.
  eexists. split; [vm_compute; reflexivity|].
  assert (Hs : mentions spill_words (lower spill_trend_query))
    by (apply any_in_spec; vm_compute; reflexivity).
  assert (Ht : mentions trend_words (lower spill_trend_query))
    by (apply any_in_spec; vm_compute; reflexivity).
  split; [exact Hs|]. split; [exact Ht|].
  eapply (fallback_priority_order today spill_trend_query); [vm_compute; reflexivity | exact Hs | exact Ht].
Defined.

(** *** State resolution *)

Lemma first_state_name_first table text name abbrev :
  FirstNamed table text name abbrev -> first_state_name table text = Some abbrev.
Proof.
  intros [i [Hi [Hsub Hbefore]]].
  revert i Hi Hbefore. induction table as [|[n a] table IH]; intros i Hi Hbefore.
  - by destruct i.
  - destruct i as [|i]; simpl in *.
    + injection Hi as -> ->.
      apply contains_spec in Hsub. by rewrite Hsub.
    + destruct (contains n text) eqn:Hn.
      * apply contains_spec in Hn. exfalso.
        apply (Hbefore O n a); [lia | reflexivity | exact Hn].
      * apply (IH i Hi). intros j n' a' Hj Hlook.
        apply (Hbefore (S j) n' a'); [lia | exact Hlook].
Qed.

Lemma first_state_name_truthy table text abbrev :
  Forall (fun entry => is_empty (snd entry) = false) table ->
  first_state_name table text = Some abbrev -> is_empty abbrev = false.
Proof.
  induction 1 as [|[n a] table Ha _ IH]; simpl; [done|].
  destruct (contains n text); [by intros [= <-] | exact IH].
Qed.

Lemma states_abbrevs_nonempty :
  Forall (fun entry : string * string => is_empty (snd entry) = false) states.
Proof. repeat constructor. Qed.

Lemma abbrev_search_two_letters previous query g :
  abbrev_search previous query = Some g ->
  exists a b, g = String a (String b EmptyString) /\ is_upper a = true /\ is_upper b = true.
Proof.
  revert previous. induction query as [|a query IH]; intros previous; simpl; [done|].
  destruct query as [|b rest]; [done|].
  destruct (is_upper a && is_upper b && boundary_before previous && boundary_after rest) eqn:E.
  - intros [= <-]. exists a, b.
    rewrite !andb_true_iff in E. tauto.
  - apply IH.
Qed.

(** Every two-capital token that [abbrev_search] returns stands in the
    text between two word boundaries. *)
Lemma abbrev_search_occurs previous query g :
  abbrev_search previous query = Some g ->
  exists pre post,
    query = pre +:+ g +:+ post /\
    boundary_after post = true /\
    boundary_before (last_char previous pre) = true.
Proof.
  revert previous. induction query as [|a query IH]; intros previous; simpl; [done|].
  destruct query as [|b rest]; [done|].
  destruct (is_upper a && is_upper b && boundary_before previous && boundary_after rest) eqn:E.
  - intros [= <-]. exists EmptyString, rest.
    rewrite !andb_true_iff in E. rewrite append_nil. tauto.
  - intros H. destruct (IH _ H) as [pre [post [Heq [Hafter Hbefore]]]].
    exists (String a pre), post. rewrite append_cons, <- Heq.
    repeat split; [exact Hafter | exact Hbefore].
Qed.




(** *** Time range and the absence of exceptions *)

Lemma location_never_null query :
  truthy (state (_extract_location query)) = true /\
  truthy (county (_extract_location query)) = true.
Proof.
  unfold _extract_location. cbv zeta. cbn [state county]. split.
  - match goal with |- context [if truthy ?s then _ else _] => destruct (truthy s) eqn:E end;
      [exact E | reflexivity].
  - match goal with |- context [if truthy ?s then ?s else _] => destruct (truthy s) eqn:E end;
      [exact E | reflexivity].
Qed.

Lemma int_nonneg s n : int s = Ok n -> 0 <= n.
Proof.
  unfold int. destruct (is_empty s); [done|].
  destruct (NilEmpty.uint_of_string s); [|done]. intros [= <-]. lia.
Qed.

Lemma digits_or_one_nonneg relative : 0 <= digits_or_one relative.
Proof.
  unfold digits_or_one.
  destruct (int _) as [n|e] eqn:E; [by apply int_nonneg in E | lia].
Qed.

Lemma minus_days_back d days d' :
  0 <= days -> minus_days d days = Ok d' -> 1 <= d' <= d.
Proof.
  intros Hdays. unfold minus_days.
  destruct (999999999 <? Z.abs days); [done|].
  destruct (Z.leb_spec 1 (d - days)); simpl; [|done].
  destruct (d - days <=? MAXORDINAL); [|done]. intros [= <-]. lia.
Qed.

Lemma _parse_relative_time_order now relative tr :
  _parse_relative_time now relative = Ok tr ->
  ymd_le (start_date tr) (end_date tr).
Proof.
  unfold _parse_relative_time.
  pose proof (digits_or_one_nonneg (lower relative)) as Hn.
  match goal with
  | |- context [?m ≫= _] => destruct m as [start|e] eqn:Hstart
  end; [|done].
  rewrite bind_ok_result. intros [= <-]. cbn [start_date end_date].
  apply _ord2ymd_monotone.
  repeat match type of Hstart with
         | (if ?b then _ else _) = _ => destruct b
         end; eapply minus_days_back in Hstart; lia.
Qed.

Lemma _extract_time_range_order now query tr :
  _extract_time_range now query = Ok tr ->
  ymd_le (start_date tr) (end_date tr).
Proof.
  unfold _extract_time_range.
  destruct (search years_at (lower query)) as [g2|].
  - destruct (int g2) as [n|e]; [|done]. rewrite bind_ok_result.
    apply _parse_relative_time_order.
  - destruct (search year_at query) as [g1|].
    + destruct (int g1) as [n|e]; [|done]. rewrite bind_ok_result.
      intros [= <-]. unfold ymd_le. cbn [start_date end_date year month day]. lia.
    + apply _parse_relative_time_order.
Qed.

(** Whenever the fallback path returns, the state and the county are
    set and the time range is in order. *)
Lemma process_query_result now query pq :
  process_query now query = Ok pq ->
  truthy (state (location pq)) = true /\
  truthy (county (location pq)) = true /\
  ymd_le (start_date (time_range pq)) (end_date (time_range pq)).
Proof.
  unfold process_query, _fallback_parse.
  destruct (_extract_time_range now query) as [tr|e] eqn:Htr; [|done].
  rewrite bind_ok_result. intros [= <-]. cbn [location time_range].
  destruct (location_never_null query) as [Hs Hc].
  repeat split; [exact Hs | exact Hc |].
  by apply (_extract_time_range_order now query).
Qed.

(** The scenario of the specification. *)
Example baldwin_county_query :
  process_query today "Show me sewage spill patterns in Baldwin County over the last 3 years"
  = Ok {| query_type := "spill_analysis";
          location := {| state := Some "AL"; county := Some "Baldwin"; city := None |};
          time_range := {| start_date := YMD 2023 11 4; end_date := YMD 2026 11 3 |};
          data_sources := ["epa"];
          visualization_type := "combined";
          filters := [];
          original_query :=
            "Show me sewage spill patterns in Baldwin County over the last 3 years" |}.
Proof. reflexivity. Qed.

Lemma long_span_time_range now :
  _extract_time_range now long_span_query = _parse_relative_time now "last 20000 years".
Proof. reflexivity. Qed.

(** C1.  The fallback path is not free of exceptions: a count of years
    that reaches before year 1 makes the date subtraction of
    [_parse_relative_time] raise [OverflowError], on whatever day the
    query is processed. *)
Theorem process_query_raises_on_long_span now :
  valid_ordinal now ->
  process_query now long_span_query = Raise OverflowError.
Proof.
  intros [Hlo Hhi]. unfold MAXORDINAL in Hhi.
  unfold process_query, _fallback_parse.
  rewrite long_span_time_range.
  unfold _parse_relative_time.
  replace (contains "year" (lower "last 20000 years")) with true by reflexivity.
  replace (digits_or_one (lower "last 20000 years")) with 20000 by reflexivity.
  unfold minus_days.
  replace (999999999 <? Z.abs (365 * 20000)) with false by reflexivity.
  destruct (Z.leb_spec 1 (now - 365 * 20000)); [lia | reflexivity].
Qed.

Lemma process_query_raises_on_long_span_witness :
  valid_ordinal today /\ process_query today long_span_query = Raise OverflowError.
Proof.
  assert (H : valid_ordinal today) by (unfold valid_ordinal, today, MAXORDINAL; lia).
  split; [exact H | exact (process_query_raises_on_long_span today H)].
Defined.

End QueryProcessorFacts.

(** ** Properties of the analysis engine *)

Module AnalysisEngineFacts.
Import Calendar Pandas Stats AnalysisEngine Specification Scenarios.

(** *** Columns of a frame *)

Lemma lookup_assign_eq cols name c :
  lookup_column (assign cols name c) name = Some c.
Proof.
  induction cols as [|[n c0] cols IH]; simpl.
  - by rewrite String.eqb_refl.
  - destruct (String.eqb n name) eqn:E; simpl; by rewrite E.
Qed.

Lemma lookup_assign_ne cols name name' c :
  name <> name' ->
  lookup_column (assign cols name c) name' = lookup_column cols name'.
Proof.
  intros Hne. induction cols as [|[n c0] cols IH]; simpl.
  - destruct (String.eqb name name') eqn:E; [|done].
    by apply String.eqb_eq in E.
  - destruct (String.eqb n name) eqn:E; simpl.
    + apply String.eqb_eq in E as ->.
      destruct (String.eqb name name') eqn:E'; [|done].
      by apply String.eqb_eq in E'.
    + by rewrite IH.
Qed.

Lemma has_column_setitem_eq df name c : has_column (setitem df name c) name = true.
Proof. unfold has_column, setitem. simpl. by rewrite lookup_assign_eq. Qed.

Lemma has_column_setitem_ne df name name' c :
  name <> name' -> has_column (setitem df name c) name' = has_column df name'.
Proof. intros H. unfold has_column, setitem. simpl. by rewrite lookup_assign_ne. Qed.

Lemma getitem_setitem_eq df name c : getitem (setitem df name c) name = Ok c.
Proof. unfold getitem, setitem. simpl. by rewrite lookup_assign_eq. Qed.

Lemma getitem_setitem_ne df name name' c :
  name <> name' -> getitem (setitem df name c) name' = getitem df name'.
Proof. intros H. unfold getitem, setitem. simpl. by rewrite lookup_assign_ne. Qed.

Lemma getitem_missing df name :
  has_column df name = false -> getitem df name = Raise (KeyError name).
Proof. unfold has_column, getitem. by destruct (lookup_column _ _). Qed.

Lemma getitem_found df name c :
  lookup_column (columns df) name = Some c -> getitem df name = Ok c.
Proof. unfold getitem. by intros ->. Qed.

Lemma has_column_found df name c :
  lookup_column (columns df) name = Some c -> has_column df name = true.
Proof. unfold has_column. by intros ->. Qed.

Lemma lookup_column_missing df name :
  has_column df name = false -> lookup_column (columns df) name = None.
Proof. unfold has_column. by destruct (lookup_column _ _). Qed.

Lemma empty_setitem df name c : empty df = false -> empty (setitem df name c) = false.
Proof.
  unfold empty, setitem. simpl. intros H.
  apply orb_false_iff in H as [-> _]. simpl.
  by destruct (columns df) as [|[n c0] cols]; simpl; [|destruct (String.eqb n name)].
Qed.

Lemma to_datetime_times v : to_datetime (Times v) = Ok (Times v).
Proof. reflexivity. Qed.

Lemma bind_ok {A B} (a : A) (k : A -> result B) : (Ok a ≫= k) = k a.
Proof. reflexivity. Qed.

Lemma ret_ok {A} (a : A) : (mret a : result A) = Ok a.
Proof. reflexivity. Qed.

Ltac result_norm :=
  repeat first [rewrite bind_ok | rewrite ret_ok | progress cbv beta].

(** *** Running a computation on a store *)

Lemma run_bind {A B} (m : py A) (k : A -> py B) σ :
  (m ≫= k) σ = match m σ with
               | (Ok a, σ') => k a σ'
               | (Raise e, σ') => (Raise e, σ')
               end.
Proof. reflexivity. Qed.

Lemma run_ret {A} (a : A) σ : (mret a : py A) σ = (Ok a, σ).
Proof. reflexivity. Qed.

Lemma run_read σ r df : σ !! r = Some df -> read r σ = (Ok df, σ).
Proof. unfold read. by intros ->. Qed.

Lemma run_read_dangling σ r :
  σ !! r = None -> read r σ = (Raise (KeyError "dangling reference"), σ).
Proof. unfold read. by intros ->. Qed.

Lemma run_copy σ r df : σ !! r = Some df -> copy r σ = (Ok (length σ), σ ++ [df]).
Proof. intros H. unfold copy. rewrite run_bind, (run_read _ _ _ H). reflexivity. Qed.

Lemma run_setcol σ r df name c :
  σ !! r = Some df -> setcol r name c σ = (Ok tt, <[r := setitem df name c]> σ).
Proof. unfold setcol. by intros ->. Qed.

Lemma lookup_fresh (σ : store) df : (σ ++ [df]) !! length σ = Some df.
Proof. by rewrite list_lookup_middle. Qed.

Lemma insert_fresh (σ : store) df df' : <[length σ := df']> (σ ++ [df]) = σ ++ [df'].
Proof.
  rewrite insert_app_r_alt by lia. by rewrite Nat.sub_diag.
Qed.

(** *** The frame rule: a computation keeps the first [n] frames

    [keeps n m Q]: run on a store with at least [n] frames, [m] leaves
    the first [n] of them as they are, and a value it returns
    satisfies [Q]. *)

Lemma keeps_length {A} n (m : py A) Q σ :
  keeps n m Q -> (n <= length σ)%nat -> (n <= length (m σ).2)%nat.
Proof.
  intros H Hn. destruct (H σ Hn) as [Ht _].
  apply (f_equal length) in Ht. rewrite !length_take in Ht. lia.
Qed.

Lemma keeps_weaken {A} n (m : py A) (Q Q' : A -> Prop) :
  keeps n m Q -> (forall a, Q a -> Q' a) -> keeps n m Q'.
Proof.
  intros H HQ σ Hn. destruct (H σ Hn) as [Ht Hq]. split; [exact Ht|].
  intros a Ha. apply HQ, Hq, Ha.
Qed.

Lemma keeps_ret {A} n (a : A) (Q : A -> Prop) : Q a -> keeps n (mret a) Q.
Proof. intros HQ σ _. split; [reflexivity|]. by intros a' [= <-]. Qed.

Lemma keeps_lift {A} n (r : result A) : keeps n (lift r) (fun a => r = Ok a).
Proof. intros σ _. split; [reflexivity|]. simpl. by intros a ->. Qed.

Lemma keeps_read n r : keeps n (read r) (fun _ => True).
Proof. intros σ _. unfold read. destruct (σ !! r); simpl; split; done. Qed.

Lemma keeps_new n df : keeps n (new df) (fun r => (n <= r)%nat).
Proof.
  intros σ Hn. unfold new. simpl. split.
  - by rewrite take_app_le.
  - by intros a [= <-].
Qed.

Lemma keeps_bind {A B} n (m : py A) (k : A -> py B) (Q : A -> Prop) (Q' : B -> Prop) :
  keeps n m Q -> (forall a, Q a -> keeps n (k a) Q') -> keeps n (m ≫= k) Q'.
Proof.
  intros Hm Hk σ Hn. rewrite run_bind.
  pose proof (keeps_length _ _ _ _ Hm Hn) as Hlen.
  destruct (Hm σ Hn) as [Ht Hq].
  destruct (m σ) as [[a|e] σ1]; simpl in *.
  - destruct (Hk a (Hq a eq_refl) σ1 Hlen) as [Ht' Hq'].
    split; [by rewrite Ht'|exact Hq'].
  - split; [exact Ht | discriminate].
Qed.

Lemma keeps_copy n r : keeps n (copy r) (fun r' => (n <= r')%nat).
Proof.
  unfold copy. eapply keeps_bind; [apply keeps_read|].
  intros df _. apply keeps_new.
Qed.

Lemma keeps_setcol n r name c : (n <= r)%nat -> keeps n (setcol r name c) (fun _ => True).
Proof.
  intros Hr σ Hn. unfold setcol. destruct (σ !! r); simpl; split; try done.
  by rewrite take_insert_ge.
Qed.

Lemma keeps_if {A} n (b : bool) (m1 m2 : py A) Q :
  keeps n m1 Q -> keeps n m2 Q -> keeps n (if b then m1 else m2) Q.
Proof. by destruct b. Qed.

Lemma keeps_prefix {A} (m : py A) Q σ :
  keeps (length σ) m Q -> take (length σ) (m σ).2 = σ.
Proof.
  intros H. destruct (H σ (Nat.le_refl _)) as [-> _]. by rewrite firstn_all.
Qed.

Create HintDb keeps.

Ltac keeps_step :=
  first
    [ apply keeps_copy
    | apply keeps_read
    | apply keeps_new
    | apply keeps_setcol; assumption
    | eapply keeps_weaken; [apply keeps_lift | intros; exact I]
    | apply keeps_ret; exact I
    | solve [eauto 1 with keeps] ].

Ltac keeps_auto :=
  lazymatch goal with
  | |- keeps ?n (fun σ => ?m σ) ?Q => change (keeps n m Q); keeps_auto
  | |- keeps _ (if _ then _ else _) _ => apply keeps_if; keeps_auto
  | |- keeps _ (_ ≫= _) _ =>
      first
        [ eapply keeps_bind; [keeps_step | intros; keeps_auto]
        | eapply (keeps_bind _ _ _ (fun _ => True)); [keeps_auto | intros; keeps_auto] ]
  | |- _ => keeps_step
  end.

(** *** The analyses that copy their input leave the store as it was *)

Lemma analyze_repeat_violators_keeps n violations :
  keeps n (analyze_repeat_violators violations) (fun _ => True).
Proof. unfold analyze_repeat_violators. keeps_auto. Qed.

Lemma analyze_weather_correlation_keeps n violations weather :
  keeps n (analyze_weather_correlation violations weather) (fun _ => True).
Proof. unfold analyze_weather_correlation. keeps_auto. Qed.

Lemma _analyze_temporal_patterns_keeps n df :
  keeps n (_analyze_temporal_patterns df) (fun _ => True).
Proof. unfold _analyze_temporal_patterns. keeps_auto. Qed.

Lemma _identify_hotspots_keeps n df :
  keeps n (_identify_hotspots df) (fun _ => True).
Proof. unfold _identify_hotspots. keeps_auto. Qed.

#[local] Hint Resolve _analyze_temporal_patterns_keeps _identify_hotspots_keeps : keeps.

Lemma _analyze_spatial_patterns_keeps n df :
  keeps n (_analyze_spatial_patterns df) (fun _ => True).
Proof. unfold _analyze_spatial_patterns. keeps_auto. Qed.

#[local] Hint Resolve _analyze_spatial_patterns_keeps : keeps.

(** The input tables of the two analyses that begin with [.copy()]
    are the same frames after the call as before it. *)
Lemma analyze_repeat_violators_pure σ violations :
  take (length σ) (analyze_repeat_violators violations σ).2 = σ.
Proof. eapply keeps_prefix, analyze_repeat_violators_keeps. Qed.

Lemma analyze_weather_correlation_pure σ violations weather :
  take (length σ) (analyze_weather_correlation violations weather σ).2 = σ.
Proof. eapply keeps_prefix, analyze_weather_correlation_keeps. Qed.

Lemma keeps_lookup {A} (m : py A) Q σ (r : nat) df :
  keeps (length σ) m Q -> σ !! r = Some df -> (m σ).2 !! r = Some df.
Proof.
  intros H Hr. pose proof (keeps_prefix _ _ _ H) as Hp.
  rewrite <- Hp in Hr. rewrite lookup_take_Some in Hr. tauto.
Qed.

(** *** [analyze_spill_patterns] writes into its input *)

Lemma minimum_is_Some xs : xs <> [] -> exists m, minimum xs = Some m.
Proof. destruct xs; [done | by eexists]. Qed.

Lemma maximum_is_Some xs : xs <> [] -> exists m, maximum xs = Some m.
Proof. destruct xs; [done | by eexists]. Qed.

Lemma _get_date_range_dated df dates :
  lookup_column (columns df) "violation_date" = Some (Times dates) ->
  present dates <> [] ->
  exists range, _get_date_range df = Ok range.
Proof.
  intros Hcol Hdates. unfold _get_date_range.
  rewrite !(has_column_found _ _ _ Hcol). simpl negb. cbv iota.
  rewrite (getitem_found _ _ _ Hcol). simpl.
  destruct (minimum_is_Some _ Hdates) as [lo ->].
  destruct (maximum_is_Some _ Hdates) as [hi ->]. simpl. by eexists.
Qed.

(** C3.  [analyze_spill_patterns] is not pure: on a table with a
    [violation_date] column it assigns the converted dates to
    [violations["date"]] without copying first, so the caller's table
    has that column (added, or rewritten) when the call is over. *)
Theorem analyze_spill_patterns_writes_input σ (violations : nat) weather df dates :
  σ !! violations = Some df ->
  empty df = false ->
  lookup_column (columns df) "violation_date" = Some (Times dates) ->
  present dates <> [] ->
  (analyze_spill_patterns violations weather σ).2 !! violations
    = Some (setitem df "date" (Times dates)) /\
  (has_column df "date" = false ->
   (analyze_spill_patterns violations weather σ).2 !! violations <> σ !! violations).
Proof.
  intros Hv Hne Hcol Hdates.
  assert (Hgoal : (analyze_spill_patterns violations weather σ).2 !! violations
                  = Some (setitem df "date" (Times dates))).
  { unfold analyze_spill_patterns.
    rewrite run_bind, (run_read _ _ _ Hv), Hne.
    destruct (_get_date_range_dated _ _ Hcol Hdates) as [range Hrange].
    rewrite run_bind. unfold lift at 1. rewrite Hrange.
    rewrite (has_column_found _ _ _ Hcol).
    rewrite run_bind. rewrite (run_bind (lift _)). unfold lift at 1.
    rewrite (getitem_found _ _ _ Hcol), bind_ok, to_datetime_times.
    rewrite (run_bind (setcol _ _ _)), (run_setcol _ _ _ _ _ Hv).
    rewrite <- run_bind.
    eapply keeps_lookup.
    - keeps_auto.
    - apply list_lookup_insert_eq. by apply lookup_lt_Some in Hv. }
  split; [exact Hgoal|].
  intros Hdate. rewrite Hgoal, Hv. intros [= Heq].
  apply (f_equal (fun d => has_column d "date")) in Heq.
  rewrite has_column_setitem_eq in Heq. congruence.
Qed.

Lemma analyze_spill_patterns_writes_input_witness :
  (analyze_spill_patterns 0 None [dated_table]).2 !! 0%nat
    = Some {| nrows := 2;
              columns := [("violation_date", Times [Some 738000; Some 738045]);
                          ("date", Times [Some 738000; Some 738045])] |} /\
  (analyze_spill_patterns 0 None [dated_table]).2 !! 0%nat <> Some dated_table.
Proof.
  destruct (analyze_spill_patterns_writes_input [dated_table] 0 None dated_table
              [Some 738000; Some 738045]) as [H1 H2]; try reflexivity; try discriminate.
  split; [exact H1 | exact (H2 eq_refl)].
Defined.

(** *** [analyze_repeat_violators] *)

(** C4.  [analyze_repeat_violators] guards the facility-name column
    only: on a non-empty table that has it but lacks [violation_date],
    the unguarded [violations["violation_date"]] raises [KeyError]
    where an error facet is promised. *)
Theorem analyze_repeat_violators_raises σ (violations : nat) df :
  σ !! violations = Some df ->
  empty df = false ->
  has_column df "facility_name" = true ->
  has_column df "violation_date" = false ->
  (analyze_repeat_violators violations σ).1 = Raise (KeyError "violation_date").
Proof.
  intros Hv Hne Hname Hdate. unfold analyze_repeat_violators.
  rewrite run_bind, (run_read _ _ _ Hv), Hne, Hname. simpl (false || negb true).
  cbv iota.
  rewrite run_bind, (run_copy _ _ _ Hv).
  rewrite run_bind, (run_read _ _ _ (lookup_fresh _ _)).
  rewrite run_bind. unfold lift at 1.
  by rewrite (getitem_missing _ _ Hdate).
Qed.

Lemma analyze_repeat_violators_raises_witness :
  (analyze_repeat_violators 0 [undated_table]).1 = Raise (KeyError "violation_date").
Proof.
  apply (analyze_repeat_violators_raises [undated_table] 0 undated_table); reflexivity.
Defined.

(** What [analyze_repeat_violators] returns, when it returns. *)
Lemma analyze_repeat_violators_cases σ (violations : nat) :
  match (analyze_repeat_violators violations σ).1 with
  | Raise _ => True
  | Ok res =>
      res = error_result "No facility data available" \/
      exists frame stats,
        facility_stats frame = Ok stats /\ res = repeat_violators_result stats
  end.
Proof.
  unfold analyze_repeat_violators. rewrite run_bind.
  destruct (σ !! violations) as [df|] eqn:Hv;
    [rewrite (run_read _ _ _ Hv) | by rewrite (run_read_dangling _ _ Hv)].
  destruct (empty df || negb (has_column df "facility_name")); [by left|].
  rewrite run_bind, (run_copy _ _ _ Hv).
  rewrite run_bind, (run_read _ _ _ (lookup_fresh _ _)).
  rewrite run_bind. unfold lift at 1.
  destruct (getitem df "violation_date" ≫= to_datetime) as [date|e]; [|done].
  rewrite run_bind, (run_setcol _ _ _ _ _ (lookup_fresh _ _)), insert_fresh.
  rewrite run_bind, (run_read _ _ _ (lookup_fresh _ _)).
  rewrite run_bind. unfold lift at 1.
  destruct (facility_stats _) as [stats|e] eqn:Hstats; [|done].
  right. by exists (setitem df "date" date), stats.
Qed.

Lemma classify_chronic x : classify x = "chronic" <-> 10 <= x.
Proof.
  unfold classify. destruct (Z.leb_spec 10 x); [tauto|].
  destruct (Z.leb_spec 3 x); split; (discriminate || lia).
Qed.

Lemma classify_repeat x : classify x = "repeat" <-> 3 <= x < 10.
Proof.
  unfold classify. destruct (Z.leb_spec 10 x); [split; (discriminate || lia)|].
  destruct (Z.leb_spec 3 x); split; (discriminate || lia || done).
Qed.

Lemma classify_occasional x : classify x = "occasional" <-> x < 3.
Proof.
  unfold classify. destruct (Z.leb_spec 10 x); [split; (discriminate || lia)|].
  destruct (Z.leb_spec 3 x); split; (discriminate || lia || done).
Qed.

Lemma facility_stats_classified df stats :
  facility_stats df = Ok stats ->
  Forall (fun f => category f = classify (violation_count f)) stats.
Proof.
  unfold facility_stats.
  destruct (getitem df "facility_name" ≫= as_strs) as [names|]; [|done].
  destruct (getitem df "date" ≫= as_times) as [dates|]; [|done].
  destruct (getitem df "violation_type" ≫= as_strs) as [types|]; [|done].
  destruct (getitem df "latitude" ≫= as_nums) as [lats|]; [|done].
  destruct (getitem df "longitude" ≫= as_nums) as [lons|]; [|done].
  rewrite !bind_ok. intros [= <-].
  apply Forall_map, Forall_forall. by intros [name rows] _.
Qed.

Lemma count_category_partition stats :
  Forall (fun f => category f = classify (violation_count f)) stats ->
  count_category "chronic" stats + count_category "repeat" stats
  + count_category "occasional" stats = Z.of_nat (length stats).
Proof.
  unfold count_category. induction 1 as [|f stats Hf _ IH]; [done|].
  rewrite !filter_cons. simpl length.
  unfold classify in Hf.
  destruct (10 <=? violation_count f); [|destruct (3 <=? violation_count f)];
    rewrite Hf; repeat case_decide; try discriminate; try congruence;
    simpl length; lia.
Qed.



(** The scenario of the specification: the facility of twelve monthly
    violations is chronic. *)
Example one_facility_is_chronic :
  get one_facility_result "total_facilities" = Some (PInt 1) /\
  get one_facility_result "chronic_violators" = Some (PInt 1) /\
  get one_facility_result "repeat_violators" = Some (PInt 0) /\
  get one_facility_result "occasional_violators" = Some (PInt 0).
Proof. repeat split. Qed.

(** *** [analyze_weather_correlation] *)

Lemma lookup_column_app cols cols' name :
  lookup_column (cols ++ cols') name =
    match lookup_column cols name with
    | Some c => Some c
    | None => lookup_column cols' name
    end.
Proof.
  induction cols as [|[n c] cols IH]; simpl; [done|].
  by destruct (String.eqb n name).
Qed.

Lemma count_true_present {A} (xs : list (option A)) :
  count_true (map is_present xs) = length (present xs).
Proof.
  unfold count_true, present. induction xs as [|[x|] xs IH]; simpl; [done| |].
  - by rewrite IH.
  - exact IH.
Qed.

Lemma both_present_filled (precip counts : list (option Q)) :
  length precip = length counts ->
  both_present precip (fillna0 counts) = map is_present precip.
Proof.
  unfold both_present, fillna0. revert counts.
  induction precip as [|p precip IH]; intros [|c counts] Hlen; simpl in *; try done.
  rewrite IH by lia. f_equal. destruct c; simpl; by rewrite andb_true_r.
Qed.

Lemma run_new σ df : new df σ = (Ok (length σ), σ ++ [df]).
Proof. reflexivity. Qed.

Lemma run_lift {A} (r : result A) σ : lift r σ = (r, σ).
Proof. reflexivity. Qed.

Lemma thresholds_ok df precip counts :
  getitem df "precipitation_inches" = Ok (Nums precip) ->
  getitem df "violation_count" = Ok (Nums counts) ->
  exists analysis, _analyze_precipitation_thresholds df = Ok analysis.
Proof.
  intros Hp Hc. unfold _analyze_precipitation_thresholds.
  rewrite Hp, bind_ok. simpl as_nums. rewrite bind_ok, Hc, bind_ok.
  simpl as_nums. rewrite bind_ok. by eexists.
Qed.


Lemma weather_of_days_table n :
  weather_table (weather_of_days n)
    (map (fun i => Some (738000 + Z.of_nat i)) (seq 0 n)).
Proof.
  split; [reflexivity|]. split; [reflexivity|].
  intros c [= <-]. eexists. split; [reflexivity|]. by rewrite !length_map.
Qed.


(** *** The precipitation thresholds *)

Local Open Scope Q_scope.

(** Rounding reaches 101 exactly above 100.5, the half being rounded
    down to the even 100. *)
Ltac qlra :=
  repeat match goal with
         | H : context [inject_Z (Zpos ?p)] |- _ =>
             change (inject_Z (Zpos p)) with (Zpos p # 1) in H
         | |- context [inject_Z (Zpos ?p)] =>
             change (inject_Z (Zpos p)) with (Zpos p # 1)
         end;
  Lqa.lra.

Lemma rint_above_100 (y : Q) : (101 <= rint y)%Z <-> 201 # 2 < y.
Proof.
  unfold rint. set (f := Qfloor y).
  pose proof (Qfloor_le y) as Hlo. pose proof (Qlt_floor y) as Hhi.
  fold f in Hlo, Hhi. rewrite inject_Z_plus in Hhi. clearbody f.
  assert (Hup : forall k : Z, (k <= f)%Z -> inject_Z k <= inject_Z f)
    by (intros k; by rewrite Zle_Qle).
  assert (Hdn : forall k : Z, (f <= k)%Z -> inject_Z f <= inject_Z k)
    by (intros k; by rewrite Zle_Qle).
  destruct (Qcompare_spec (y - inject_Z f) (1 # 2)) as [He|Hl|Hg].
  - destruct (Z.even f) eqn:Hev.
    + split; intros H.
      * apply Hup in H. qlra.
      * destruct (Z.le_gt_cases 101 f) as [H'|H']; [done|].
        assert (f = 100%Z \/ (f <= 99)%Z) as [->|H99] by lia.
        -- qlra.
        -- apply Hdn in H99. qlra.
    + assert (Hf : f <> 100%Z) by (intros ->; discriminate).
      split; intros H.
      * assert (101 <= f)%Z as H' by lia. apply Hup in H'. qlra.
      * destruct (Z.le_gt_cases 101 f) as [H'|H']; [lia|].
        assert (f <= 100)%Z as H100 by lia. apply Hdn in H100. qlra.
  - split; intros H.
    + apply Hup in H. qlra.
    + destruct (Z.le_gt_cases 101 f) as [H'|H']; [done|].
      assert (f <= 100)%Z as H100 by lia. apply Hdn in H100. qlra.
  - split; intros H.
    + assert (100 <= f)%Z as H' by lia. apply Hup in H'. qlra.
    + destruct (Z.le_gt_cases 100 f) as [H'|H']; [lia|].
      assert (f <= 99)%Z as H99 by lia. apply Hdn in H99. qlra.
Qed.

Lemma round2_above_1 (x : Q) : 1 < round2 x <-> 201 # 200 < x.
Proof.
  unfold round2. rewrite Qred_correct.
  assert (Hx : 201 # 200 < x <-> 201 # 2 < x * 100) by (split; Lqa.lra).
  rewrite Hx, <- (rint_above_100 (x * 100)).
  set (n := rint (x * 100)). clearbody n.
  split; intros H.
  - destruct (Z.le_gt_cases 101 n) as [H'|H']; [done|].
    assert (n <= 100)%Z as H100 by lia. rewrite Zle_Qle in H100.
    assert (inject_Z n / 100 <= 1) by (apply Qle_shift_div_r; qlra). Lqa.lra.
  - rewrite Zle_Qle in H.
    apply Qlt_shift_div_l; [reflexivity|]. qlra.
Qed.

Lemma Qsum_zero (xs : list Q) : (forall x, In x xs -> x == 0) -> Qsum xs == 0.
Proof.
  induction xs as [|x xs IH]; intros H; simpl; [reflexivity|].
  rewrite (H x) by (by left). rewrite IH; [reflexivity|].
  intros y Hy. apply H. by right.
Qed.

Lemma In_present {A} (x : A) (xs : list (option A)) : In x (present xs) -> In (Some x) xs.
Proof.
  unfold present. induction xs as [|[y|] xs IH]; simpl; [done| |].
  - intros [->|H]; [by left | right; by apply IH].
  - intros H. right. by apply IH.
Qed.

(** The mean of a group without violations is zero. *)
Lemma mean_zero (group : list (option Q)) rate :
  (forall c, In (Some c) group -> c == 0) -> mean group = Some rate -> rate == 0.
Proof.
  intros Hzero. unfold mean.
  destruct (present group) as [|v vs] eqn:Hp; [done|].
  intros [= <-]. rewrite Qred_correct.
  assert (Hs : Qsum (v :: vs) == 0).
  { apply Qsum_zero. intros x Hx. apply Hzero, In_present. by rewrite Hp. }
  rewrite Hs. apply Qmult_0_l.
Qed.

Lemma Qmax_floor (rate : Q) : rate == 0 -> Qmax rate (1 # 100) = 1 # 100.
Proof.
  intros H. unfold Qmax.
  destruct (Qle_bool (1 # 100) rate) eqn:E; [|reflexivity].
  apply Qle_bool_iff in E. Lqa.lra.
Qed.


Close Scope Q_scope.



(** *** Hotspots of a table without facility names *)

Lemma lookup_column_filter_rows mask df name :
  lookup_column (columns (filter_rows mask df)) name
  = select_column mask <$> lookup_column (columns df) name.
Proof.
  unfold filter_rows. cbn [columns].
  induction (columns df) as [|[n c] cols IH]; simpl; [done|].
  by destruct (String.eqb n name).
Qed.

Lemma not_empty df name c :
  (0 < nrows df)%nat -> lookup_column (columns df) name = Some c -> empty df = false.
Proof.
  intros Hn Hc. unfold empty.
  destruct (columns df); [done|].
  rewrite orb_false_r. by apply Nat.eqb_neq, Nat.neq_0_lt_0.
Qed.

Lemma _identify_hotspots_no_names σ (r : nat) frame lat lon :
  σ !! r = Some frame ->
  (0 < nrows frame)%nat ->
  lookup_column (columns frame) "latitude" = Some (Nums lat) ->
  lookup_column (columns frame) "longitude" = Some (Nums lon) ->
  has_column frame "facility_name" = false ->
  (_identify_hotspots r σ).1 = Raise (KeyError "facility_name").
Proof.
  intros Hr Hn Hlat Hlon Hname. unfold _identify_hotspots.
  rewrite run_bind, (run_read _ _ _ Hr), (not_empty _ _ _ Hn Hlat). cbv iota.
  rewrite run_bind, (run_copy _ _ _ Hr).
  rewrite run_bind, (run_read _ _ _ (lookup_fresh _ _)).
  rewrite run_bind, run_lift, (getitem_found _ _ _ Hlat), bind_ok.
  simpl (as_nums _). cbv iota.
  rewrite run_bind, (run_setcol _ _ _ _ _ (lookup_fresh _ _)), insert_fresh.
  rewrite run_bind, (run_read _ _ _ (lookup_fresh _ _)).
  set (f1 := setitem frame "lat_bin" _).
  assert (Hlon1 : getitem f1 "longitude" = Ok (Nums lon)).
  { unfold f1. rewrite getitem_setitem_ne by discriminate. by apply getitem_found. }
  rewrite run_bind, run_lift, Hlon1, bind_ok. simpl (as_nums _). cbv iota.
  rewrite run_bind, (run_setcol _ _ _ _ _ (lookup_fresh _ _)), insert_fresh.
  rewrite run_bind, (run_read _ _ _ (lookup_fresh _ _)).
  set (f2 := setitem f1 "lon_bin" _).
  rewrite run_lift. cbn [fst].
  assert (H1 : getitem f2 "lat_bin" = Ok (Nums (map (fmap to_bin) lat))).
  { unfold f2. rewrite getitem_setitem_ne by discriminate. apply getitem_setitem_eq. }
  assert (H2 : getitem f2 "lon_bin" = Ok (Nums (map (fmap to_bin) lon)))
    by apply getitem_setitem_eq.
  assert (H3 : getitem f2 "latitude" = Ok (Nums lat)).
  { unfold f2, f1. rewrite !getitem_setitem_ne by discriminate. by apply getitem_found. }
  assert (H4 : getitem f2 "longitude" = Ok (Nums lon)).
  { unfold f2. rewrite getitem_setitem_ne by discriminate. exact Hlon1. }
  assert (H5 : getitem f2 "facility_name" = Raise (KeyError "facility_name")).
  { apply getitem_missing. unfold f2, f1.
    by rewrite !has_column_setitem_ne by discriminate. }
  rewrite H1, bind_ok. simpl (as_nums _). rewrite bind_ok.
  rewrite H2, bind_ok. simpl (as_nums _). rewrite bind_ok.
  cbv zeta.
  rewrite H3, bind_ok. simpl (as_nums _). rewrite bind_ok.
  rewrite H4, bind_ok. simpl (as_nums _). rewrite bind_ok.
  rewrite H5. reflexivity.
Qed.

Lemma both_present_notna {A B} (a : list (option A)) (b : list (option B)) :
  zip_with andb (map is_present a) (map is_present b) = both_present a b.
Proof.
  unfold both_present. revert b.
  induction a as [|x a IH]; intros [|y b]; simpl; try done. by rewrite IH.
Qed.

Lemma length_both_present {A B} (a : list (option A)) (b : list (option B)) :
  length a = length b -> length (both_present a b) = length a.
Proof.
  unfold both_present. revert b.
  induction a as [|x a IH]; intros [|y b]; simpl; try done.
  intros [= H]. by rewrite IH.
Qed.

Lemma has_column_filter_rows mask df name :
  has_column (filter_rows mask df) name = has_column df name.
Proof.
  unfold has_column. rewrite lookup_column_filter_rows.
  by destruct (lookup_column (columns df) name).
Qed.

Lemma _analyze_spatial_patterns_no_names σ (r : nat) frame lat lon :
  σ !! r = Some frame ->
  lookup_column (columns frame) "latitude" = Some (Nums lat) ->
  lookup_column (columns frame) "longitude" = Some (Nums lon) ->
  length lat = nrows frame ->
  length lon = nrows frame ->
  (2 <= count_true (both_present lat lon))%nat ->
  has_column frame "facility_name" = false ->
  (_analyze_spatial_patterns r σ).1 = Raise (KeyError "facility_name").
Proof.
  intros Hr Hlat Hlon Hllat Hllon Hvalid Hname. unfold _analyze_spatial_patterns.
  rewrite run_bind, (run_read _ _ _ Hr).
  rewrite run_bind, run_lift. unfold dropna2.
  rewrite (getitem_found _ _ _ Hlat), bind_ok, (getitem_found _ _ _ Hlon), bind_ok, ret_ok.
  cbv iota. cbn [notna]. rewrite both_present_notna.
  set (mask := both_present lat lon) in *.
  set (dropped := filter_rows mask frame).
  assert (Hrows : nrows dropped = count_true mask).
  { unfold dropped, filter_rows. cbn [nrows]. rewrite firstn_all2; [done|].
    unfold mask. rewrite length_both_present; lia. }
  rewrite run_bind, run_new.
  rewrite run_bind, (run_read _ _ _ (lookup_fresh _ _)).
  assert (Hlt : (nrows dropped <? 2)%nat = false) by (apply Nat.ltb_ge; lia).
  rewrite Hlt. cbv iota.
  assert (Hdlat : lookup_column (columns dropped) "latitude" = Some (Nums (select mask lat)))
    by (unfold dropped; by rewrite lookup_column_filter_rows, Hlat).
  assert (Hdlon : lookup_column (columns dropped) "longitude" = Some (Nums (select mask lon)))
    by (unfold dropped; by rewrite lookup_column_filter_rows, Hlon).
  rewrite run_bind, run_lift, (getitem_found _ _ _ Hdlat), bind_ok.
  simpl (as_nums _). cbv iota.
  rewrite run_bind, run_lift, (getitem_found _ _ _ Hdlon), bind_ok.
  simpl (as_nums _). cbv iota. cbv zeta.
  rewrite run_bind, (run_copy _ _ _ (lookup_fresh _ _)).
  rewrite run_bind, (run_setcol _ _ _ _ _ (lookup_fresh _ _)), insert_fresh.
  set (coords := setitem dropped "distance_from_center" _).
  rewrite run_bind.
  assert (Hhot : (_identify_hotspots (length (σ ++ [dropped]))
                    ((σ ++ [dropped]) ++ [coords])).1 = Raise (KeyError "facility_name")).
  { apply (_identify_hotspots_no_names _ _ coords (select mask lat) (select mask lon)).
    - apply lookup_fresh.
    - unfold coords, setitem. cbn [nrows]. lia.
    - unfold coords, setitem. cbn [columns]. by rewrite lookup_assign_ne.
    - unfold coords, setitem. cbn [columns]. by rewrite lookup_assign_ne.
    - unfold coords. rewrite has_column_setitem_ne by discriminate.
      unfold dropped. by rewrite has_column_filter_rows. }
  destruct (_identify_hotspots _ _) as [res σ'].
  simpl in Hhot. by subst res.
Qed.

(** *** The temporal analysis of a dated table returns *)

Lemma add_row_nonempty {K} (eqb leb : K -> K -> bool) k i groups :
  add_row eqb leb k i groups <> [].
Proof.
  destruct groups as [|[k' rows] rest]; simpl; [done|].
  destruct (eqb k k'); [done|]. by destruct (leb k k').
Qed.

Lemma group_from_nonempty {K} (eqb leb : K -> K -> bool) i keys groups :
  groups <> [] \/ present keys <> [] -> group_from eqb leb i keys groups <> [].
Proof.
  revert i groups. induction keys as [|[k|] keys IH]; intros i groups H; simpl.
  - destruct H as [H|H]; [exact H | by destruct H].
  - apply IH. left. apply add_row_nonempty.
  - apply IH. destruct H as [H|H]; [by left | by right].
Qed.

Lemma group_sizes_nonempty {K} (eqb leb : K -> K -> bool) keys :
  present keys <> [] -> group_sizes eqb leb keys <> [].
Proof.
  intros H. unfold group_sizes, groupby.
  pose proof (group_from_nonempty eqb leb 0 keys [] (or_intror H)) as Hg.
  by destruct (group_from eqb leb 0 keys []).
Qed.

Lemma present_fmap {A B} (f : A -> B) (xs : list (option A)) :
  present (map (fmap f) xs) = map f (present xs).
Proof.
  unfold present. induction xs as [|[x|] xs IH]; simpl; [done| |exact IH].
  f_equal. exact IH.
Qed.

Lemma fold_left_max_in xs x :
  fold_left Z.max xs x = x \/ In (fold_left Z.max xs x) xs.
Proof.
  revert x. induction xs as [|a xs IH]; intros x; simpl; [by left|].
  destruct (IH (Z.max x a)) as [H|H]; [|by right; right].
  rewrite H. destruct (Z.max_spec x a) as [[_ ->]|[_ ->]]; [right; by left | by left].
Qed.

Lemma maximum_in xs top : maximum xs = Some top -> In top xs.
Proof.
  destruct xs as [|x xs]; simpl; [done|]. intros [= <-].
  destruct (fold_left_max_in xs x) as [->|H]; [by left | by right].
Qed.

Lemma idxmax_ok sizes : sizes <> [] -> exists k, idxmax sizes = Ok k.
Proof.
  intros Hne. unfold idxmax.
  destruct (maximum (map snd sizes)) as [top|] eqn:Hmax.
  - apply maximum_in, in_map_iff in Hmax as [[k n] [Hn Hin]]. simpl in Hn.
    assert (Hf : (k, n) ∈ filter (fun kv : Z * Z => kv.2 = top) sizes).
    { apply list_elem_of_filter. split; [done | by apply list_elem_of_In]. }
    destruct (filter _ sizes) as [|[k' n'] rest]; [by apply elem_of_nil in Hf|].
    by eexists.
  - destruct sizes; [done | discriminate].
Qed.

Lemma _analyze_temporal_patterns_ok σ (r : nat) frame dates :
  σ !! r = Some frame ->
  getitem frame "date" = Ok (Times dates) ->
  present dates <> [] ->
  exists temporal, (_analyze_temporal_patterns r σ).1 = Ok temporal.
Proof.
  intros Hr Hdate Hdates. unfold _analyze_temporal_patterns.
  rewrite run_bind, (run_copy _ _ _ Hr).
  rewrite run_bind, (run_read _ _ _ (lookup_fresh _ _)).
  rewrite run_bind, run_lift, Hdate, bind_ok. simpl (as_times _). cbv iota.
  do 4 (rewrite run_bind, (run_setcol _ _ _ _ _ (lookup_fresh _ _)), insert_fresh).
  rewrite run_bind, (run_read _ _ _ (lookup_fresh _ _)).
  rewrite run_lift. cbn [fst].
  set (f := setitem _ "quarter" _).
  assert (Hm : getitem f "month" = Ok (Ints (map (fmap month_of) dates))).
  { unfold f. rewrite !getitem_setitem_ne by discriminate. apply getitem_setitem_eq. }
  assert (Hy : getitem f "year" = Ok (Ints (map (fmap year_of) dates))).
  { unfold f. rewrite !getitem_setitem_ne by discriminate. apply getitem_setitem_eq. }
  assert (Hq : getitem f "quarter" = Ok (Ints (map (fmap quarter_of) dates)))
    by apply getitem_setitem_eq.
  assert (Hd : getitem f "date" = Ok (Times dates)).
  { unfold f. by rewrite !getitem_setitem_ne by discriminate. }
  unfold sizes_by. rewrite Hm, Hy, Hq. result_norm. simpl (ints_of _).
  result_norm.
  destruct (idxmax_ok (group_sizes Z.eqb Z.leb (map (fmap month_of) dates))) as [k ->].
  { apply group_sizes_nonempty. rewrite present_fmap. by destruct (present dates). }
  result_norm. unfold _calculate_trend, monthly_counts.
  rewrite Hd. result_norm. simpl (as_times _). result_norm.
  by eexists.
Qed.

(** *** [analyze_spill_patterns] on a table without facility names *)

Lemma _get_date_range_inv df range :
  _get_date_range df = Ok range ->
  match lookup_column (columns df) "violation_date" with
  | Some c => exists dates, c = Times dates /\ present dates <> []
  | None => True
  end.
Proof.
  unfold _get_date_range, has_column, getitem.
  destruct (lookup_column (columns df) "violation_date") as [c|] eqn:Hc; [|done].
  cbn [negb]. cbv iota. rewrite Hc. cbn [negb]. cbv iota. result_norm.
  destruct c as [v|v|v|v|dates]; try done.
  simpl (as_times _). result_norm.
  destruct (present dates) as [|d ds] eqn:Hp; [done|].
  intros _. exists dates. split; [done|]. by rewrite Hp.
Qed.

Lemma spill_patterns_without_names σ (violations : nat) weather df lat lon :
  σ !! violations = Some df ->
  lookup_column (columns df) "latitude" = Some (Nums lat) ->
  lookup_column (columns df) "longitude" = Some (Nums lon) ->
  length lat = nrows df ->
  length lon = nrows df ->
  (2 <= count_true (both_present lat lon))%nat ->
  has_column df "facility_name" = false ->
  (analyze_spill_patterns violations weather σ).1 =
    match _get_date_range df with
    | Ok _ => Raise (KeyError "facility_name")
    | Raise e => Raise e
    end.
Proof.
  intros Hv Hlat Hlon Hllat Hllon Hvalid Hname.
  assert (Hrows : (0 < nrows df)%nat).
  { pose proof (length_both_present lat lon ltac:(lia)) as Hl.
    unfold count_true in Hvalid.
    pose proof (filter_length_le (fun b : bool => b) (both_present lat lon)). lia. }
  unfold analyze_spill_patterns.
  rewrite run_bind, (run_read _ _ _ Hv), (not_empty _ _ _ Hrows Hlat). cbv iota.
  rewrite run_bind, run_lift.
  destruct (_get_date_range df) as [range|e] eqn:Hrange; [|reflexivity].
  cbv iota. rewrite run_bind.
  pose proof (_get_date_range_inv _ _ Hrange) as Hinv.
  destruct (lookup_column (columns df) "violation_date") as [c|] eqn:Hvd.
  - destruct Hinv as [dates [-> Hdates]].
    rewrite (has_column_found _ _ _ Hvd). cbv iota.
    rewrite run_bind, run_lift, (getitem_found _ _ _ Hvd), bind_ok, to_datetime_times.
    cbv iota.
    rewrite run_bind, (run_setcol _ _ _ _ _ Hv).
    set (df1 := setitem df "date" (Times dates)).
    set (σ1 := <[violations := df1]> σ).
    assert (Hv1 : σ1 !! violations = Some df1).
    { apply list_lookup_insert_eq. by apply lookup_lt_Some in Hv. }
    rewrite run_bind.
    destruct (_analyze_temporal_patterns_ok σ1 violations df1 dates Hv1) as [t Ht];
      [apply getitem_setitem_eq | exact Hdates |].
    pose proof (keeps_lookup _ _ σ1 violations df1
                  (_analyze_temporal_patterns_keeps _ violations) Hv1) as Hkeep.
    destruct (_analyze_temporal_patterns violations σ1) as [res σ2].
    simpl in Ht, Hkeep. subst res. cbv iota.
    rewrite run_ret. cbv iota.
    rewrite run_bind, (run_read _ _ _ Hkeep).
    assert (Hhas : has_column df1 "latitude" && has_column df1 "longitude" = true).
    { unfold df1. rewrite !has_column_setitem_ne by discriminate.
      by rewrite (has_column_found _ _ _ Hlat), (has_column_found _ _ _ Hlon). }
    rewrite run_bind, Hhas. cbv iota. rewrite run_bind.
    assert (Hsp : (_analyze_spatial_patterns violations σ2).1
                  = Raise (KeyError "facility_name")).
    { apply (_analyze_spatial_patterns_no_names _ _ df1 lat lon); try done.
      - unfold df1, setitem. cbn [columns]. by rewrite lookup_assign_ne.
      - unfold df1, setitem. cbn [columns]. by rewrite lookup_assign_ne.
      - unfold df1. by rewrite has_column_setitem_ne. }
    destruct (_analyze_spatial_patterns violations σ2) as [res σ3].
    simpl in Hsp. by subst res.
  - assert (Hno : has_column df "violation_date" = false)
      by (unfold has_column; by rewrite Hvd).
    rewrite Hno. cbv iota. rewrite run_ret. cbv iota.
    rewrite run_bind, (run_read _ _ _ Hv).
    rewrite run_bind, (has_column_found _ _ _ Hlat), (has_column_found _ _ _ Hlon).
    cbn [andb]. cbv iota. rewrite run_bind.
    pose proof (_analyze_spatial_patterns_no_names σ violations df lat lon
                  Hv Hlat Hlon Hllat Hllon Hvalid Hname) as Hsp.
    destruct (_analyze_spatial_patterns violations σ) as [res σ3].
    simpl in Hsp. by subst res.
Qed.



(** *** Trend classification *)

Section Trend.
Local Open Scope R_scope.

Lemma t_within_zero df : t_within df 0 = 0.
Proof.
  unfold t_within.
  replace (0 / sqrt (INR df + 0 * 0)) with 0 by (unfold Rdiv; ring).
  replace (0 / sqrt (INR df)) with 0 by (unfold Rdiv; ring).
  rewrite atan_0. destruct (Nat.even df); unfold Rdiv; ring.
Qed.

Lemma two_sided_p_zero df : two_sided_p df 0 = 1.
Proof. unfold two_sided_p. rewrite Rabs_R0, t_within_zero. ring. Qed.

Lemma Rsum_replicate n c : Rsum (replicate n c) = INR n * c.
Proof.
  induction n as [|n IH]; [simpl; ring|].
  rewrite S_INR. cbn [replicate]. unfold Rsum in *. cbn [fold_right].
  rewrite IH. ring.
Qed.

Lemma Rmean_replicate n c : (0 < n)%nat -> Rmean (replicate n c) = c.
Proof.
  intros Hn. unfold Rmean. rewrite Rsum_replicate, length_replicate.
  field. apply not_0_INR. lia.
Qed.

Lemma zip_with_replicate {A B C} (f : A -> B -> C) n a b :
  zip_with f (replicate n a) (replicate n b) = replicate n (f a b).
Proof. induction n as [|n IH]; [done|]. simpl. by rewrite IH. Qed.

Lemma covariance_flat n c : covariance (replicate n c) (replicate n c) = 0.
Proof.
  destruct n as [|n]; [unfold covariance, Rmean; simpl; unfold Rdiv; ring|].
  unfold covariance. rewrite Rmean_replicate by lia.
  rewrite zip_with_replicate. unfold Rmean.
  rewrite Rsum_replicate. unfold Rdiv. ring.
Qed.

Lemma map_IZR_replicate n (c : Z) : map IZR (replicate n c) = replicate n (IZR c).
Proof. induction n as [|n IH]; [done|]. simpl. by rewrite IH. Qed.

Lemma r_value_flat ssxm ssxym : r_value ssxm 0 ssxym = 0.
Proof.
  unfold r_value. destruct (Req_dec_T ssxm 0); [done|].
  by destruct (Req_dec_T 0 0).
Qed.

(** A flat series of at least three months is [stable]. *)
Lemma classify_trend_flat n c : (3 <= n)%nat -> classify_trend (replicate n c) = "stable".
Proof.
  intros Hn. unfold classify_trend. rewrite length_replicate.
  destruct (Nat.ltb_spec n 3); [lia|].
  unfold linregress. rewrite map_IZR_replicate, covariance_flat, r_value_flat.
  rewrite Rmult_0_l, two_sided_p_zero.
  destruct (Rlt_dec 0.05 1) as [_|Hn1]; [done | exfalso; lra].
Qed.

Lemma classify_trend_short monthly :
  (length monthly < 3)%nat -> classify_trend monthly = "insufficient_data".
Proof.
  intros Hn. unfold classify_trend. by destruct (Nat.ltb_spec (length monthly) 3); [|lia].
Qed.

(** The decision on three months or more. *)
Lemma classify_trend_decision monthly :
  (3 <= length monthly)%nat ->
  let slope := (linregress (arange (length monthly)) (map IZR monthly)).1 in
  let p_value := (linregress (arange (length monthly)) (map IZR monthly)).2 in
  (0.05 < p_value -> classify_trend monthly = "stable") /\
  (p_value <= 0.05 -> 0 < slope -> classify_trend monthly = "increasing") /\
  (p_value <= 0.05 -> slope <= 0 -> classify_trend monthly = "decreasing").
Proof.
  intros Hn slope p_value. unfold classify_trend.
  destruct (Nat.ltb_spec (length monthly) 3); [lia|].
  subst slope p_value.
  destruct (linregress _ _) as [slope p_value]. simpl.
  destruct (Rlt_dec 0.05 p_value), (Rlt_dec 0 slope);
    repeat split; intros; try done; lra.
Qed.

Lemma two_sided_p_df2 t :
  two_sided_p 2 t = 1 - Rabs t / sqrt (2 + Rabs t * Rabs t).
Proof.
  unfold two_sided_p, t_within. simpl.
  replace (1 + 1) with 2 by ring. unfold Rdiv. ring.
Qed.

(** With two degrees of freedom a statistic whose square is below 18
    is not significant at the 0.05 level. *)
Lemma two_sided_p_df2_above t : t * t < 18 -> 0.05 < two_sided_p 2 t.
Proof.
  intros Ht. rewrite two_sided_p_df2.
  set (u := Rabs t).
  assert (Hu : 0 <= u) by apply Rabs_pos.
  assert (Huu : u * u = t * t).
  { unfold u. rewrite <- Rabs_mult. apply Rabs_pos_eq. nra. }
  set (w := sqrt (2 + u * u)).
  assert (Hw : 0 < w) by (apply sqrt_lt_R0; nra).
  assert (Hww : w * w = 2 + u * u) by (apply sqrt_sqrt; nra).
  assert (Huw : u < 0.95 * w) by nra.
  assert (Hdiv : u / w < 0.95).
  { apply (Rmult_lt_reg_r w); [exact Hw|].
    unfold Rdiv. rewrite Rmult_assoc, Rinv_l by lra. lra. }
  lra.
Qed.

Lemma TINY_pos : 0 < TINY.
Proof. unfold TINY. apply Rdiv_lt_0_compat; [lra | apply pow_lt; lra]. Qed.

Lemma statistic_below r :
  r * r = 784 / 1000 ->
  let t := r * sqrt (INR 2 / ((1 - r + TINY) * (1 + r + TINY))) in
  t * t < 18.
Proof.
  intros Hr. pose proof TINY_pos as HT.
  set (den := (1 - r + TINY) * (1 + r + TINY)).
  assert (Hden : 216 / 1000 <= den) by (unfold den; nra).
  replace (INR 2) with 2 by (simpl; ring).
  set (D := 2 / den).
  assert (HD : D * den = 2) by (unfold D; field; lra).
  assert (HD0 : 0 <= D) by (unfold D; apply Rlt_le, Rdiv_lt_0_compat; lra).
  intros t. unfold t.
  replace (r * sqrt D * (r * sqrt D)) with (r * r * (sqrt D * sqrt D)) by ring.
  rewrite sqrt_sqrt by exact HD0. rewrite Hr. nra.
Qed.

(** The monthly counts 1, 2, 3, 10 rise from month to month, yet the
    slope of their regression line is not significant. *)
Lemma classify_trend_rising : classify_trend rising_months = "stable".
Proof.
  unfold classify_trend, rising_months. cbn [length Nat.ltb Nat.leb].
  unfold linregress.
  assert (Hxx : covariance (arange 4) (arange 4) = 5 / 4)
    by (unfold covariance, Rmean, Rsum, arange; simpl; lra).
  assert (Hyy : covariance (map IZR [1; 2; 3; 10]%Z) (map IZR [1; 2; 3; 10]%Z) = 25 / 2)
    by (unfold covariance, Rmean, Rsum; simpl; lra).
  assert (Hxy : covariance (arange 4) (map IZR [1; 2; 3; 10]%Z) = 7 / 2)
    by (unfold covariance, Rmean, Rsum, arange; simpl; lra).
  rewrite Hxx, Hyy, Hxy.
  set (s := sqrt (5 / 4 * (25 / 2))).
  assert (Hs : 0 < s) by (apply sqrt_lt_R0; lra).
  assert (Hss : s * s = 125 / 8) by (unfold s; rewrite sqrt_sqrt; lra).
  assert (Hr0 : 7 / 2 / s * (7 / 2 / s) = 784 / 1000).
  { replace (7 / 2 / s * (7 / 2 / s)) with (49 / 4 / (s * s)) by (field; lra).
    rewrite Hss. lra. }
  assert (Hpos : 0 < 7 / 2 / s) by (apply Rdiv_lt_0_compat; lra).
  assert (Hr : r_value (5 / 4) (25 / 2) (7 / 2) = 7 / 2 / s).
  { unfold r_value. fold s.
    destruct (Req_dec_T (5 / 4) 0); [lra|]. destruct (Req_dec_T (25 / 2) 0); [lra|].
    destruct (Rlt_dec 1 (7 / 2 / s)); [nra|].
    destruct (Rlt_dec (7 / 2 / s) (-1)); [lra | reflexivity]. }
  rewrite Hr. cbn [length Nat.sub].
  pose proof (two_sided_p_df2_above _ (statistic_below _ Hr0)) as Hp.
  destruct (Rlt_dec 0.05 _) as [_|Hn]; [reflexivity | contradiction].
Qed.

End Trend.

Lemma rising_table_months : monthly_counts rising_table = Ok rising_months.
Proof. vm_compute. reflexivity. Qed.

Lemma _calculate_trend_of_counts df monthly :
  monthly_counts df = Ok monthly -> _calculate_trend df = Ok (classify_trend monthly).
Proof. intros H. unfold _calculate_trend. by rewrite H. Qed.




End AnalysisEngineFacts.

(** ** Further properties of the fallback parser *)

Module FallbackParserFacts.
Import Text Calendar QueryProcessor Specification Scenarios Properties.
Import CalendarFacts QueryProcessorFacts helpers DataManager.

(** *** Text lemmas *)

Lemma append_assoc (a b c : string) : (a +:+ b) +:+ c = a +:+ (b +:+ c).
Proof.
  induction a as [|x a IH]; [by rewrite !append_nil|].
  by rewrite !append_cons, IH.
Qed.

Lemma append_empty_r (a : string) : a +:+ EmptyString = a.
Proof. induction a as [|x a IH]; [done|]. by rewrite append_cons, IH. Qed.

Lemma Substring_intro (pre w post : string) : Substring w (pre +:+ w +:+ post).
Proof. by exists pre, post. Qed.

Lemma Substring_suffix (w pre s : string) : Substring w s -> Substring w (pre +:+ s).
Proof.
  intros (a & b & ->). exists (pre +:+ a), b. by rewrite append_assoc.
Qed.

Lemma Substring_prefix (w s post : string) : Substring w s -> Substring w (s +:+ post).
Proof.
  intros (a & b & ->). exists a, (b +:+ post). by rewrite !append_assoc.
Qed.

Lemma span_spec p s a b :
  span p s = (a, b) -> s = a +:+ b /\ all_chars p a = true.
Proof.
  revert a b. induction s as [|c s IH]; intros a b; simpl.
  - intros [= <- <-]. by rewrite append_nil.
  - destruct (p c) eqn:Hc.
    + destruct (span p s) as [a' b'] eqn:Hs. intros [= <- <-].
      destruct (IH a' b' eq_refl) as [-> Ha]. rewrite append_cons. simpl.
      by rewrite Hc, Ha.
    + intros [= <- <-]. by rewrite append_nil.
Qed.

Lemma search_suffix {A} (m : string -> option A) s r :
  search m s = Some r -> exists pre post, s = pre +:+ post /\ m post = Some r.
Proof.
  induction s as [|c s IH]; simpl.
  - destruct (m EmptyString) eqn:Hm; [|done]. intros [= <-].
    exists EmptyString, EmptyString. by rewrite append_nil.
  - destruct (m (String c s)) eqn:Hm.
    + intros [= <-]. exists EmptyString, (String c s). by rewrite append_nil.
    + intros (pre & post & -> & Hpost)%IH.
      exists (String c pre), post. by rewrite append_cons.
Qed.

Lemma search_none {A} (m : string -> option A) s :
  (forall pre post, s = pre +:+ post -> m post = None) -> search m s = None.
Proof.
  induction s as [|c s IH]; intros Hm; simpl.
  - by rewrite (Hm EmptyString EmptyString) by (by rewrite append_nil).
  - rewrite (Hm EmptyString (String c s)) by (by rewrite append_nil).
    apply IH. intros pre post ->. apply (Hm (String c pre) post).
    by rewrite append_cons.
Qed.

Lemma starts_with_prefix w s : starts_with w s = true -> exists post, s = w +:+ post.
Proof. apply starts_with_spec. Qed.

Lemma is_empty_false s : is_empty s = false <-> s <> EmptyString.
Proof. by destruct s. Qed.

Lemma drop_spec n s : exists pre, s = pre +:+ drop n s.
Proof.
  revert s. induction n as [|n IH]; intros s; simpl.
  - exists EmptyString. by rewrite append_nil.
  - destruct s as [|c s]; [exists EmptyString; by rewrite append_nil|].
    destruct (IH s) as [pre Hpre]. exists (String c pre).
    by rewrite append_cons, <- Hpre.
Qed.

Lemma substring_prefix n s : exists post, s = substring 0 n s +:+ post.
Proof.
  revert s. induction n as [|n IH]; intros s.
  - exists s. destruct s; by rewrite append_nil.
  - destruct s as [|c s]; simpl; [exists EmptyString; by rewrite append_nil|].
    destruct (IH s) as [post Hpost]. exists post. by rewrite append_cons, <- Hpost.
Qed.

(** *** The patterns of [_extract_time_range] *)

Lemma count_years_at_spec s g :
  count_years_at s = Some g -> Digits g /\ exists post, s = g +:+ post.
Proof.
  unfold count_years_at.
  destruct (span is_digit s) as [digits rest] eqn:Hd.
  destruct (span is_space rest) as [blank rest'] eqn:Hb.
  destruct (negb (is_empty digits) && negb (is_empty blank) && starts_with "year" rest')
    eqn:Hif; [|done].
  intros [= <-]. apply span_spec in Hd as [-> Hdigits].
  rewrite !andb_true_iff, !negb_true_iff in Hif. destruct Hif as [[Hne _] _].
  split; [split; [by apply is_empty_false | done] | by exists rest].
Qed.

Lemma years_at_spec s g : years_at s = Some g -> Digits g /\ Substring g s.
Proof.
  unfold years_at.
  set (with_last := if starts_with "last" s then _ else _).
  destruct with_last as [g'|] eqn:Hlast.
  - intros [= ->]. subst with_last.
    destruct (starts_with "last" s); [|done].
    destruct (span is_space (drop 4 s)) as [blank rest] eqn:Hb.
    destruct (is_empty blank); [done|].
    apply count_years_at_spec in Hlast as [Hg [post ->]].
    split; [done|]. apply span_spec in Hb as [Hb _].
    destruct (drop_spec 4 s) as [pre Hpre]. rewrite Hb in Hpre. rewrite Hpre.
    apply Substring_suffix, Substring_suffix. by exists EmptyString, post.
  - intros [Hg [post ->]]%count_years_at_spec. split; [done|].
    by exists EmptyString, post.
Qed.

Lemma year_at_spec s g :
  year_at s = Some g ->
  String.length g = 4%nat /\ all_chars is_digit g = true /\ exists post, s = g +:+ post.
Proof.
  unfold year_at.
  destruct ((String.length (substring 0 4 s) =? 4)%nat && all_chars is_digit (substring 0 4 s))
    eqn:Hif; [|done].
  intros [= <-]. apply andb_true_iff in Hif as [Hlen Hdigits].
  apply Nat.eqb_eq in Hlen. split; [done|]. split; [done|]. apply substring_prefix.
Qed.

(** *** Digits written and read back *)

Lemma is_digit_not_upper c : is_digit c = true -> is_upper c = false.
Proof.
  unfold is_digit, is_upper, between. rewrite andb_true_iff, andb_false_iff.
  rewrite !N.leb_le, !N.leb_gt. lia.
Qed.

Lemma lower_app a b : lower (a +:+ b) = lower a +:+ lower b.
Proof.
  induction a as [|c a IH]; [by rewrite !append_nil|].
  simpl. by rewrite !append_cons, <- IH.
Qed.

Lemma lower_digits s : all_chars is_digit s = true -> lower s = s.
Proof.
  induction s as [|c s IH]; [done|]. simpl. intros [Hc Hs]%andb_true_iff.
  unfold to_lower. by rewrite (is_digit_not_upper c Hc), IH.
Qed.

Lemma filter_chars_app p a b :
  filter_chars p (a +:+ b) = filter_chars p a +:+ filter_chars p b.
Proof.
  induction a as [|c a IH]; [by rewrite !append_nil|].
  rewrite append_cons. simpl. destruct (p c); [by rewrite append_cons, IH | done].
Qed.

Lemma filter_chars_all p s : all_chars p s = true -> filter_chars p s = s.
Proof.
  induction s as [|c s IH]; [done|]. simpl. intros [-> Hs]%andb_true_iff.
  by rewrite IH.
Qed.

Lemma string_of_uint_digits d : all_chars is_digit (NilEmpty.string_of_uint d) = true.
Proof. induction d; simpl; [done|..]; by rewrite IHd. Qed.

Lemma string_of_uint_empty d : NilEmpty.string_of_uint d = EmptyString -> d = Decimal.Nil.
Proof. by destruct d. Qed.

Lemma int_str_of_int n : 0 <= n -> int (str_of_int n) = Ok n.
Proof.
  intros Hn. unfold str_of_int, int.
  destruct (Z.ltb_spec n 0); [lia|].
  destruct (is_empty _) eqn:He.
  - assert (Hnil : N.to_uint (Z.to_N n) = Decimal.Nil).
    { apply string_of_uint_empty. by destruct (NilEmpty.string_of_uint _). }
    pose proof (Unsigned.of_to (Z.to_N n)) as Hof. rewrite Hnil in Hof.
    simpl in Hof. rewrite <- Hof in Hnil. done.
  - rewrite NilEmpty.usu, Unsigned.of_to. f_equal. lia.
Qed.

Lemma str_of_int_digits n : 0 <= n -> Digits (str_of_int n).
Proof.
  intros Hn. split.
  - intros He. pose proof (int_str_of_int n Hn) as Hint. by rewrite He in Hint.
  - unfold str_of_int. destruct (Z.ltb_spec n 0); [lia|]. apply string_of_uint_digits.
Qed.

Lemma digits_or_one_years n :
  0 <= n -> digits_or_one (lower ("last " +:+ str_of_int n +:+ " years")) = n.
Proof.
  intros Hn. destruct (str_of_int_digits n Hn) as [Hne Hdigits].
  unfold digits_or_one. rewrite !lower_app, !filter_chars_app.
  rewrite (lower_digits _ Hdigits), (filter_chars_all _ _ Hdigits).
  change (filter_chars is_digit (lower "last ")) with EmptyString.
  change (filter_chars is_digit (lower " years")) with EmptyString.
  rewrite append_nil, append_empty_r.
  apply is_empty_false in Hne. rewrite Hne. by rewrite int_str_of_int.
Qed.

Lemma contains_years n :
  contains "year" (lower ("last " +:+ str_of_int n +:+ " years")) = true.
Proof.
  apply contains_spec. rewrite !lower_app.
  apply Substring_suffix, Substring_suffix. by exists " ", "s".
Qed.

Lemma _parse_relative_time_years now n :
  0 <= n ->
  _parse_relative_time now ("last " +:+ str_of_int n +:+ " years")
  = (start ← minus_days now (365 * n);
     mret {| start_date := strftime start; end_date := strftime now |}).
Proof.
  intros Hn. unfold _parse_relative_time.
  by rewrite contains_years, digits_or_one_years.
Qed.

Lemma minus_days_ok d days d' :
  minus_days d days = Ok d' -> d' = d - days /\ 1 <= d' <= MAXORDINAL.
Proof.
  unfold minus_days. destruct (999999999 <? Z.abs days); [done|].
  destruct (Z.leb_spec 1 (d - days)); simpl; [|done].
  destruct (Z.leb_spec (d - days) MAXORDINAL); [|done]. intros [= <-]. lia.
Qed.

Lemma _parse_relative_time_years_inv now n tr :
  0 <= n ->
  _parse_relative_time now ("last " +:+ str_of_int n +:+ " years") = Ok tr ->
  365 * n < now /\ tr = days_back now (365 * n).
Proof.
  intros Hn. rewrite (_parse_relative_time_years now n Hn).
  destruct (minus_days now (365 * n)) as [start|e] eqn:Hstart; [|done].
  rewrite bind_ok_result. intros [= <-].
  apply minus_days_ok in Hstart as [-> ?]. split; [lia | done].
Qed.


(** *** Queries without digits *)

Lemma all_chars_app p a b : all_chars p (a +:+ b) = all_chars p a && all_chars p b.
Proof.
  induction a as [|c a IH]; [by rewrite append_nil|].
  rewrite append_cons. simpl. by rewrite IH, andb_assoc.
Qed.

Lemma is_digit_to_lower c : is_digit (to_lower c) = is_digit c.
Proof. by destruct c as [[] [] [] [] [] [] [] []]. Qed.

Lemma digit_free_lower s : digit_free (lower s) = digit_free s.
Proof.
  unfold digit_free. induction s as [|c s IH]; [done|].
  simpl. by rewrite is_digit_to_lower, IH.
Qed.

Lemma digit_free_Substring g s :
  digit_free s = true -> Substring g s -> digit_free g = true.
Proof.
  intros Hs (pre & post & ->). unfold digit_free in *.
  rewrite !all_chars_app, !andb_true_iff in Hs. tauto.
Qed.

Lemma Digits_not_digit_free g :
  g <> EmptyString -> all_chars is_digit g = true -> digit_free g = false.
Proof.
  destruct g as [|c g]; [done|]. intros _. unfold digit_free. simpl.
  intros [-> _]%andb_true_iff. done.
Qed.

Lemma no_years_without_digits s : digit_free s = true -> search years_at s = None.
Proof.
  intros Hs. apply search_none. intros pre post ->.
  destruct (years_at post) as [g|] eqn:Hg; [|done].
  apply years_at_spec in Hg as [[Hne Hdigits] Hsub].
  pose proof (Digits_not_digit_free g Hne Hdigits) as Hfalse.
  rewrite (digit_free_Substring g _ Hs) in Hfalse; [done | by apply Substring_suffix].
Qed.

Lemma no_year_without_digits s : digit_free s = true -> search year_at s = None.
Proof.
  intros Hs. apply search_none. intros pre post ->.
  destruct (year_at post) as [g|] eqn:Hg; [|done].
  apply year_at_spec in Hg as (Hlen & Hdigits & post' & ->).
  assert (g <> EmptyString) as Hne by (by destruct g).
  pose proof (Digits_not_digit_free g Hne Hdigits) as Hfalse.
  rewrite (digit_free_Substring g _ Hs) in Hfalse;
    [done | by apply Substring_suffix; exists EmptyString, post'].
Qed.

Lemma default_range_without_digits now query :
  1096 <= now <= MAXORDINAL ->
  digit_free query = true ->
  _extract_time_range now query = Ok (days_back now 1095).
Proof.
  intros Hnow Hfree. unfold _extract_time_range.
  rewrite no_years_without_digits by (by rewrite digit_free_lower).
  rewrite no_year_without_digits by done.
  change "last 3 years" with ("last " +:+ str_of_int 3 +:+ " years").
  rewrite _parse_relative_time_years by done.
  unfold minus_days. change (999999999 <? Z.abs (365 * 3)) with false.
  destruct (Z.leb_spec 1 (now - 365 * 3)); [|lia].
  destruct (Z.leb_spec (now - 365 * 3) MAXORDINAL); [|lia].
  cbn [andb]. by rewrite !bind_ok_result.
Qed.

(** *** The state and the county *)

Lemma first_state_name_in_values table text abbrev :
  first_state_name table text = Some abbrev -> in_values abbrev table = true.
Proof.
  unfold in_values. induction table as [|[name a] table IH]; [done|]. simpl.
  destruct (contains name text).
  - intros [= ->]. by rewrite String.eqb_refl.
  - intros ->%IH. by rewrite orb_true_r.
Qed.

Lemma county_at_spec s g :
  county_at s = Some g ->
  exists blank post,
    s = g +:+ blank +:+ "county" +:+ post /\
    g <> EmptyString /\ all_chars is_word g = true /\
    blank <> EmptyString /\ all_chars is_space blank = true.
Proof.
  unfold county_at.
  destruct (span is_word s) as [word rest] eqn:Hw.
  destruct (span is_space rest) as [blank rest'] eqn:Hb.
  destruct (negb (is_empty word) && negb (is_empty blank) && starts_with "county" rest')
    eqn:Hif; [|done].
  intros [= <-]. rewrite !andb_true_iff, !negb_true_iff in Hif.
  destruct Hif as [[Hword Hblank] Hrest].
  apply span_spec in Hw as [-> Hw]. apply span_spec in Hb as [-> Hb].
  apply starts_with_prefix in Hrest as [post ->].
  exists blank, post. rewrite !is_empty_false in *. done.
Qed.

(** *** FIPS codes *)

Lemma dict_find_In {V} (d : list (string * V)) k v :
  dict_find d k = Some v -> In (k, v) d.
Proof.
  induction d as [|[k' v'] d IH]; simpl; [done|].
  destruct (String.eqb k' k) eqn:Hk.
  - apply String.eqb_eq in Hk as ->. intros [= ->]. by left.
  - intros H. right. by apply IH.
Qed.

Lemma state_fips_two_digits state_ code :
  get_state_fips state_ = Some code -> String.length code = 2%nat.
Proof.
  unfold get_state_fips. intros Hin%dict_find_In.
  assert (Hall : forallb (fun entry : string * string =>
                            (String.length (snd entry) =? 2)%nat) fips_codes = true)
    by (by vm_compute).
  rewrite forallb_forall in Hall. apply Hall in Hin. by apply Nat.eqb_eq in Hin.
Qed.

(** *** The properties *)

(** X1.  Whenever the fallback parse returns, the state and the county
    of the location are non-empty strings, the city is [None], the time
    range starts no later than it ends, and the original query is kept. *)
Theorem fallback_parse_well_formed now query pq :
  _fallback_parse now query = Ok pq ->
  truthy (state (location pq)) = true /\
  truthy (county (location pq)) = true /\
  city (location pq) = None /\
  ymd_le (start_date (time_range pq)) (end_date (time_range pq)) /\
  original_query pq = query.
Proof.
  unfold _fallback_parse.
  destruct (_extract_time_range now query) as [tr|e] eqn:Htr; [|done].
  rewrite bind_ok_result. intros [= <-]. cbn [location time_range original_query].
  destruct (location_never_null query) as [Hs Hc].
  repeat split; [exact Hs | exact Hc |].
  by apply (_extract_time_range_order now query).
Qed.

Lemma fallback_parse_well_formed_witness :
  exists pq,
    _fallback_parse today "Which facilities in Mobile County had violations in 2021?" = Ok pq /\
    truthy (state (location pq)) = true /\
    truthy (county (location pq)) = true /\
    city (location pq) = None /\
    ymd_le (start_date (time_range pq)) (end_date (time_range pq)) /\
    original_query pq = "Which facilities in Mobile County had violations in 2021?".
Proof.
  eexists. split; [reflexivity|].
  apply (fallback_parse_well_formed today
           "Which facilities in Mobile County had violations in 2021?").
  reflexivity.
Defined.

(** X2.  The query type of a fallback parse is one of the six known
    types; the EPA source is always requested, the NOAA source exactly
    for a weather correlation, the census source exactly for a general
    overview; no filter is set. *)
Theorem fallback_parse_sources now query pq :
  _fallback_parse now query = Ok pq ->
  In (query_type pq) query_types /\
  In "epa" (data_sources pq) /\
  (In "noaa" (data_sources pq) <-> query_type pq = "weather_correlation") /\
  (In "census" (data_sources pq) <-> query_type pq = "general_overview") /\
  filters pq = [].
Proof.
  unfold _fallback_parse.
  destruct (_extract_time_range now query) as [tr|e]; [|done].
  rewrite bind_ok_result. intros [= <-].
  cbn [query_type data_sources filters]. unfold detect_query_type.
  repeat (destruct (any_in _ _)); vm_compute; intuition discriminate.
Qed.

Lemma fallback_parse_sources_witness :
  exists pq,
    _fallback_parse today "Is there a link between storms and violations?" = Ok pq /\
    query_type pq = "weather_correlation" /\
    In (query_type pq) query_types /\
    In "epa" (data_sources pq) /\
    (In "noaa" (data_sources pq) <-> query_type pq = "weather_correlation") /\
    (In "census" (data_sources pq) <-> query_type pq = "general_overview") /\
    filters pq = [].
Proof.
  eexists. split; [reflexivity|]. split; [reflexivity|].
  apply (fallback_parse_sources today "Is there a link between storms and violations?").
  reflexivity.
Defined.

(** X3.  The time range of a fallback parse spans whole years only: it
    is either the calendar year written by four digits of the query, or
    it ends today and starts 365 * n days earlier, where n is a number
    written in the query or 3. *)
Theorem fallback_time_range_cases now query tr :
  _extract_time_range now query = Ok tr ->
  (exists g y,
     Substring g query /\ String.length g = 4%nat /\ all_chars is_digit g = true /\
     int g = Ok y /\ tr = calendar_year y) \/
  (exists n,
     0 <= n /\ 365 * n < now /\ tr = days_back now (365 * n) /\
     (n = 3 \/ exists g, Substring g (lower query) /\ Digits g /\ int g = Ok n)).
Proof.
  unfold _extract_time_range.
  destruct (search years_at (lower query)) as [g2|] eqn:Hyears.
  - destruct (int g2) as [n|e] eqn:Hint; [|done]. rewrite bind_ok_result.
    pose proof (int_nonneg _ _ Hint) as Hn.
    intros Htr. apply _parse_relative_time_years_inv in Htr as [Hspan Htr]; [subst tr | done].
    right. exists n. split; [done|]. split; [done|]. split; [done|]. right. exists g2.
    apply search_suffix in Hyears as (pre & post & -> & Hat).
    apply years_at_spec in Hat as [Hdigits Hsub].
    split; [by apply Substring_suffix | done].
  - destruct (search year_at query) as [g1|] eqn:Hyear.
    + destruct (int g1) as [y|e] eqn:Hint; [|done]. rewrite bind_ok_result.
      intros [= <-]. left. exists g1, y.
      apply search_suffix in Hyear as (pre & post & -> & Hat).
      apply year_at_spec in Hat as (Hlen & Hdigits & post' & ->).
      split; [apply Substring_suffix; by exists EmptyString, post' | done].
    + change "last 3 years" with ("last " +:+ str_of_int 3 +:+ " years").
      intros Htr. apply _parse_relative_time_years_inv in Htr as [Hspan Htr]; [subst tr | done].
      right. exists 3. split; [done|]. split; [done|]. split; [done|]. by left.
Qed.

Lemma fallback_time_range_cases_witness :
  _extract_time_range today "zip 36532, spills over the last 2 years"
    = Ok (days_back today 730) /\
  ((exists g y,
      Substring g "zip 36532, spills over the last 2 years" /\
      String.length g = 4%nat /\ all_chars is_digit g = true /\
      int g = Ok y /\ days_back today 730 = calendar_year y) \/
   (exists n,
      0 <= n /\ 365 * n < today /\ days_back today 730 = days_back today (365 * n) /\
      (n = 3 \/ exists g, Substring g (lower "zip 36532, spills over the last 2 years") /\
                          Digits g /\ int g = Ok n))).
Proof.
  split; [reflexivity|].
  apply (fallback_time_range_cases today "zip 36532, spills over the last 2 years").
  reflexivity.
Defined.

(** X4.  On a query without a decimal digit the fallback parse never
    raises, on any day from 0004-01-01 on: it returns the range of the
    last 1095 days. *)
Theorem fallback_parse_without_digits now query :
  1096 <= now <= MAXORDINAL ->
  digit_free query = true ->
  exists pq,
    _fallback_parse now query = Ok pq /\ time_range pq = days_back now 1095.
Proof.
  intros Hnow Hfree. unfold _fallback_parse.
  destruct (_extract_time_range now query) as [tr|e] eqn:Hrange.
  - rewrite bind_ok_result. eexists. split; [reflexivity|]. cbn [time_range].
    rewrite (default_range_without_digits now query Hnow Hfree) in Hrange.
    by injection Hrange as <-.
  - by rewrite (default_range_without_digits now query Hnow Hfree) in Hrange.
Qed.

Lemma fallback_parse_without_digits_witness :
  (1096 <= today <= MAXORDINAL) /\
  digit_free "What are the violation trends in the past year?" = true /\
  exists pq,
    _fallback_parse today "What are the violation trends in the past year?" = Ok pq /\
    time_range pq = days_back today 1095.
Proof.
  split; [by vm_compute|]. split; [reflexivity|].
  apply (fallback_parse_without_digits today
           "What are the violation trends in the past year?"); [by vm_compute | reflexivity].
Defined.

(** X5.  The state extracted from a query is always one of the fifty
    abbreviations of the state table. *)
Theorem extracted_state_is_valid query :
  exists abbrev,
    state (_extract_location query) = Some abbrev /\ in_values abbrev states = true.
Proof.
  unfold _extract_location. cbv zeta. cbn [state].
  set (named := first_state_name states (lower query)).
  set (st := match abbrev_search None query with Some g => _ | None => _ end).
  assert (Hst : forall a, st = Some a -> in_values a states = true).
  { intros a. subst st. destruct (abbrev_search None query) as [g|].
    - destruct (in_values g states) eqn:Hg; [by intros [= <-]|].
      apply first_state_name_in_values.
    - apply first_state_name_in_values. }
  clearbody st. destruct (truthy st) eqn:Htruthy; [|by exists config.DEFAULT_STATE].
  destruct st as [a|]; [|done]. exists a. split; [done | by apply Hst].
Qed.

(** X6.  The county extracted from a query is the configured default,
    or the word that stands before the word county in the lowered
    query, in title case. *)
Theorem extracted_county query :
  county (_extract_location query) = Some config.DEFAULT_COUNTY \/
  exists pre word blank post,
    lower query = pre +:+ word +:+ blank +:+ "county" +:+ post /\
    word <> EmptyString /\ all_chars is_word word = true /\
    blank <> EmptyString /\ all_chars is_space blank = true /\
    county (_extract_location query) = Some (title word).
Proof.
  unfold _extract_location. cbv zeta. cbn [county].
  destruct (search county_at (lower query)) as [g|] eqn:Hsearch; [|by left].
  destruct (truthy (Some (title g))); [|by left]. right.
  apply search_suffix in Hsearch as (pre & rest & Hq & Hat).
  apply county_at_spec in Hat as (blank & post & -> & ? & ? & ? & ?).
  by exists pre, g, blank, post.
Qed.


(** X7.  A county FIPS code has five characters and begins with the
    FIPS code of the state it was asked for, whatever the case of the
    names; the code of a location is the code of its state or such a
    county code, and a location whose state has no FIPS code is given
    the code 01. *)
Theorem location_fips_codes state_ county_ :
  (forall name fips,
     get_county_fips state_ name = Some fips ->
     String.length fips = 5%nat /\ get_state_fips state_ = Some (substring 0 2 fips)) /\
  match get_state_fips state_ with
  | Some code =>
      _get_location_fips state_ county_ = code \/
      (String.length (_get_location_fips state_ county_) = 5%nat /\
       substring 0 2 (_get_location_fips state_ county_) = code)
  | None => _get_location_fips state_ county_ = "01"
  end.
Proof.
  assert (Hcounty : forall name fips,
             get_county_fips state_ name = Some fips ->
             String.length fips = 5%nat /\
             get_state_fips state_ = Some (substring 0 2 fips)).
  { intros name fips.
    unfold get_county_fips, get_state_fips, county_fips. cbn [pair_find fst snd].
    repeat (destruct (_ && _) eqn:E;
            [apply andb_true_iff in E as [E%String.eqb_eq _]; rewrite <- E;
             intros [= <-]; by vm_compute | clear E]).
    done. }
  split; [exact Hcounty|].
  unfold _get_location_fips.
  destruct (get_state_fips state_) as [code|] eqn:Hcode.
  - assert (Hne : is_empty code = false).
    { apply state_fips_two_digits in Hcode. by destruct code. }
    rewrite Hne. destruct (truthy county_); [|by left].
    destruct county_ as [name|]; [|by left].
    destruct (get_county_fips state_ name) as [fips|] eqn:Hfips; [|by left].
    apply Hcounty in Hfips as [Hfive Hprefix]. injection Hprefix as ->.
    assert (Hne' : is_empty fips = false) by (by destruct fips).
    rewrite Hne'. by right.
  - destruct (truthy county_); [|done]. destruct county_ as [name|]; [|done].
    destruct (get_county_fips state_ name) as [fips|] eqn:Hfips; [|done].
    by apply Hcounty in Hfips as [_ Hprefix].
Qed.

Lemma location_fips_codes_witness :
  String.length "06037" = 5%nat /\ get_state_fips "ca" = Some (substring 0 2 "06037").
Proof.
  apply (proj1 (location_fips_codes "ca" None) "Los Angeles" "06037"). reflexivity.
Defined.

End FallbackParserFacts.

(** ** Further properties of the analysis engine *)

Module EngineFacts.
Import Text Calendar QueryProcessor Pandas Stats AnalysisEngine Specification Scenarios.
Import helpers App Properties CalendarFacts AnalysisEngineFacts FallbackParserFacts.

#[local] Hint Resolve _analyze_temporal_patterns_keeps _identify_hotspots_keeps
  _analyze_spatial_patterns_keeps : keeps.

(** *** Sorting into descending order *)

Section SortFacts.
Context {A : Type} (count : A -> Z) (outranks : A -> A -> bool).
Hypothesis outranks_spec : forall a b, outranks a b = (count b <? count a).

Lemma insert_desc_perm x xs : insert_desc outranks x xs ≡ₚ x :: xs.
Proof.
  induction xs as [|y xs IH]; simpl; [done|].
  destruct (outranks y x); [|done]. rewrite IH. apply Permutation_swap.
Qed.

Lemma sort_desc_perm xs : sort_desc outranks xs ≡ₚ xs.
Proof.
  induction xs as [|x xs IH]; simpl; [done|]. by rewrite insert_desc_perm, IH.
Qed.

Lemma descending_nil : descending count [].
Proof. intros i j a b _ Hi. by rewrite lookup_nil in Hi. Qed.

Lemma descending_cons x xs :
  Forall (fun y => count y <= count x) xs -> descending count xs ->
  descending count (x :: xs).
Proof.
  intros Hall Hxs i j a b Hij Hi Hj.
  destruct j as [|j]; [lia|]. simpl in Hj.
  destruct i as [|i]; simpl in Hi.
  - injection Hi as <-. rewrite Forall_forall in Hall.
    apply Hall. by eapply list_elem_of_lookup_2.
  - apply (Hxs i j); [lia | done..].
Qed.

Lemma descending_inv x xs :
  descending count (x :: xs) ->
  Forall (fun y => count y <= count x) xs /\ descending count xs.
Proof.
  intros H. split.
  - apply Forall_forall. intros y [j Hj]%list_elem_of_lookup_1.
    by apply (H 0%nat (S j) x y); [lia | |].
  - intros i j a b Hij Hi Hj. by apply (H (S i) (S j)); [lia | |].
Qed.

Lemma insert_desc_descending x xs :
  descending count xs -> descending count (insert_desc outranks x xs).
Proof.
  induction xs as [|y xs IH]; intros Hxs; simpl.
  - apply descending_cons; [constructor | apply descending_nil].
  - apply descending_inv in Hxs as [Hall Hxs].
    rewrite outranks_spec. destruct (Z.ltb_spec (count x) (count y)).
    + apply descending_cons; [|by apply IH].
      apply Forall_forall. intros z Hz.
      rewrite insert_desc_perm in Hz. apply elem_of_cons in Hz as [-> | Hz]; [lia|].
      rewrite Forall_forall in Hall. by apply Hall.
    + apply descending_cons; [|by apply descending_cons].
      constructor; [done|]. eapply Forall_impl; [exact Hall|]. simpl. intros; lia.
Qed.

Lemma sort_desc_descending xs : descending count (sort_desc outranks xs).
Proof.
  induction xs as [|x xs IH]; simpl; [apply descending_nil|].
  by apply insert_desc_descending.
Qed.

Lemma descending_take n xs : descending count xs -> descending count (take n xs).
Proof.
  intros H i j a b Hij [Hi _]%lookup_take_Some [Hj _]%lookup_take_Some.
  by apply (H i j).
Qed.

Lemma nlargest_descending n xs : descending count (nlargest outranks n xs).
Proof. apply descending_take, sort_desc_descending. Qed.

Lemma nlargest_length n xs : (length (nlargest outranks n xs) <= n)%nat.
Proof. unfold nlargest. rewrite length_firstn. lia. Qed.

Lemma nlargest_length_all n xs :
  length (nlargest outranks n xs) = Nat.min n (length xs).
Proof. unfold nlargest. by rewrite length_firstn, sort_desc_perm. Qed.

Lemma nlargest_In n xs x : In x (nlargest outranks n xs) -> In x xs.
Proof.
  unfold nlargest. intros Hx%list_elem_of_In. apply list_elem_of_In.
  rewrite <- (sort_desc_perm xs).
  apply elem_of_take in Hx as (i & Hi & _). by eapply list_elem_of_lookup_2.
Qed.

End SortFacts.

(** *** Grouping *)

Section GroupFacts.
Context {K : Type} (eqb leb : K -> K -> bool).

Lemma add_row_total k i groups :
  rows_total (add_row eqb leb k i groups) = 1 + rows_total groups.
Proof.
  unfold rows_total, total. induction groups as [|[k' rows] groups IH]; simpl; [done|].
  destruct (eqb k k'); simpl.
  - rewrite length_app. simpl. lia.
  - destruct (leb k k'); simpl; lia.
Qed.

Lemma group_from_total i keys groups :
  rows_total (group_from eqb leb i keys groups)
  = Z.of_nat (length (present keys)) + rows_total groups.
Proof.
  revert i groups. induction keys as [|[k|] keys IH]; intros i groups; simpl.
  - lia.
  - rewrite IH, add_row_total. unfold present. simpl. lia.
  - apply IH.
Qed.

Lemma group_sizes_total keys :
  total (map snd (group_sizes eqb leb keys)) = Z.of_nat (length (present keys)).
Proof.
  pose proof (group_from_total 0 keys []) as H. unfold rows_total in H.
  unfold group_sizes, groupby. rewrite map_map.
  rewrite (map_ext _ (fun g => Z.of_nat (length (snd g)))) by (by intros []).
  rewrite H. simpl. lia.
Qed.

Lemma add_row_rows k i groups :
  Forall (fun g => snd g <> []) groups ->
  Forall (fun g => snd g <> []) (add_row eqb leb k i groups).
Proof.
  induction 1 as [|[k' rows] groups Hrows Hall IH]; simpl.
  - by constructor.
  - destruct (eqb k k').
    + constructor; [|done]. simpl. by destruct rows.
    + destruct (leb k k'); constructor; try done; by constructor.
Qed.

Lemma group_from_rows i keys groups :
  Forall (fun g => snd g <> []) groups ->
  Forall (fun g => snd g <> []) (group_from eqb leb i keys groups).
Proof.
  revert i groups. induction keys as [|[k|] keys IH]; intros i groups Hall; simpl.
  - done.
  - by apply IH, add_row_rows.
  - by apply IH.
Qed.

Lemma groupby_rows keys : Forall (fun g => snd g <> []) (groupby eqb leb keys).
Proof. by apply group_from_rows. Qed.

Lemma group_sizes_positive keys :
  Forall (fun kv => 1 <= snd kv) (group_sizes eqb leb keys).
Proof.
  unfold group_sizes. apply Forall_map.
  eapply Forall_impl; [apply groupby_rows|]. intros [k rows] Hrows. simpl in *.
  destruct rows; [done|]. simpl. lia.
Qed.

Lemma add_row_keys k i groups k' :
  In k' (map fst (add_row eqb leb k i groups)) -> k' = k \/ In k' (map fst groups).
Proof.
  induction groups as [|[k0 rows] groups IH]; simpl.
  - intros [<- | []]. by left.
  - destruct (eqb k k0); simpl; [by right|].
    destruct (leb k k0); simpl.
    + intros [<- | H]; [by left | by right].
    + intros [<- | H]; [right; by left|].
      destruct (IH H) as [-> | ?]; [by left | right; by right].
Qed.

Lemma group_from_keys i keys groups k :
  In k (map fst (group_from eqb leb i keys groups)) ->
  In (Some k) keys \/ In k (map fst groups).
Proof.
  revert i groups. induction keys as [|[k0|] keys IH]; intros i groups; simpl.
  - by right.
  - intros [H | H]%IH; [left; by right|].
    apply add_row_keys in H as [-> | H]; [left; by left | by right].
  - intros [H | H]%IH; [left; by right | by right].
Qed.

Lemma group_sizes_keys keys k n :
  In (k, n) (group_sizes eqb leb keys) -> In (Some k) keys.
Proof.
  intros H. unfold group_sizes in H. apply in_map_iff in H as ([k' rows] & [= -> _] & Hin).
  destruct (group_from_keys 0 keys [] k) as [? | []]; [|done].
  apply in_map_iff. by exists (k, rows).
Qed.

End GroupFacts.

(** *** Smallest and largest *)

Lemma fold_left_min_spec xs x :
  let m := fold_left Z.min xs x in
  (m = x \/ In m xs) /\ m <= x /\ Forall (fun y => m <= y) xs.
Proof.
  revert x. induction xs as [|y xs IH]; intros x; simpl.
  - split; [by left|]. split; [lia | constructor].
  - destruct (IH (Z.min x y)) as (Hin & Hle & Hall). split; [|split].
    + destruct Hin as [-> | Hin]; [|right; by right].
      destruct (Z.min_spec x y) as [[_ ->] | [_ ->]]; [by left | right; by left].
    + lia.
    + constructor; [lia | done].
Qed.

Lemma fold_left_max_spec xs x :
  let m := fold_left Z.max xs x in
  (m = x \/ In m xs) /\ x <= m /\ Forall (fun y => y <= m) xs.
Proof.
  revert x. induction xs as [|y xs IH]; intros x; simpl.
  - split; [by left|]. split; [lia | constructor].
  - destruct (IH (Z.max x y)) as (Hin & Hle & Hall). split; [|split].
    + destruct Hin as [-> | Hin]; [|right; by right].
      destruct (Z.max_spec x y) as [[_ ->] | [_ ->]]; [right; by left | by left].
    + lia.
    + constructor; [lia | done].
Qed.

Lemma minimum_spec xs m :
  minimum xs = Some m -> In m xs /\ Forall (fun y => m <= y) xs.
Proof.
  destruct xs as [|x xs]; [done|]. simpl. intros [= <-].
  destruct (fold_left_min_spec xs x) as (Hin & Hle & Hall).
  split; [destruct Hin as [-> | ?]; [by left | by right] | by constructor].
Qed.

Lemma maximum_spec xs m :
  maximum xs = Some m -> In m xs /\ Forall (fun y => y <= m) xs.
Proof.
  destruct xs as [|x xs]; [done|]. simpl. intros [= <-].
  destruct (fold_left_max_spec xs x) as (Hin & Hle & Hall).
  split; [destruct Hin as [-> | ?]; [by left | by right] | by constructor].
Qed.

(** *** What the analyses do to the store *)

Lemma take_all (σ : store) : take (length σ) σ = σ.
Proof. by apply take_ge. Qed.

Lemma analyze_spill_patterns_store σ (violations : nat) weather :
  take (length σ) (analyze_spill_patterns violations weather σ).2 = σ \/
  exists df date,
    σ !! violations = Some df /\
    has_column df "violation_date" = true /\
    take (length σ) (analyze_spill_patterns violations weather σ).2
      = <[violations := setitem df "date" date]> σ.
Proof.
  unfold analyze_spill_patterns. rewrite run_bind.
  destruct (σ !! violations) as [df|] eqn:Hv;
    [rewrite (run_read _ _ _ Hv) | rewrite (run_read_dangling _ _ Hv); left; apply take_all].
  destruct (empty df); [left; apply take_all|].
  rewrite run_bind, run_lift.
  destruct (_get_date_range df) as [range|e]; [|left; apply take_all].
  destruct (has_column df "violation_date") eqn:Hcol.
  - rewrite run_bind, (run_bind (lift _)), run_lift.
    destruct (getitem df "violation_date" ≫= to_datetime) as [date|e];
      [|left; apply take_all].
    rewrite (run_bind (setcol _ _ _)), (run_setcol _ _ _ _ _ Hv).
    rewrite <- run_bind. right. exists df, date. split; [done|]. split; [done|].
    rewrite <- (length_insert σ violations (setitem df "date" date)).
    eapply keeps_prefix. keeps_auto.
  - left. eapply keeps_prefix. keeps_auto.
Qed.


(** X8.  The two analyses that begin by copying their input leave every
    table that existed before the call as it was, whatever they return
    or raise: the store after the call begins with the store before it. *)
Theorem copying_analyses_keep_the_store σ (violations weather : nat) :
  take (length σ) (analyze_repeat_violators violations σ).2 = σ /\
  take (length σ) (analyze_weather_correlation violations weather σ).2 = σ.
Proof.
  split; eapply keeps_prefix;
    [apply analyze_repeat_violators_keeps | apply analyze_weather_correlation_keeps].
Qed.

(** X9.  [analyze_spill_patterns] may write the [date] column of its
    violations table and nothing else: every table that existed before
    the call is still there with the same number of rows and the same
    columns under every other name; a table other than the violations
    table, and a violations table without a [violation_date] column, are
    unchanged. *)
Theorem analyze_spill_patterns_frame σ (violations : nat) weather (r : nat) df :
  σ !! r = Some df ->
  exists df',
    (analyze_spill_patterns violations weather σ).2 !! r = Some df' /\
    nrows df' = nrows df /\
    (forall name, name <> "date" ->
                  lookup_column (columns df') name = lookup_column (columns df) name) /\
    (r <> violations -> df' = df) /\
    (has_column df "violation_date" = false -> df' = df).
Proof.
  intros Hr. pose proof (lookup_lt_Some _ _ _ Hr) as Hlt.
  destruct (analyze_spill_patterns_store σ violations weather)
    as [Hsame | (dfv & date & Hv & Hcol & Hstore)].
  - exists df. split; [|done].
    rewrite <- (lookup_take_lt _ (length σ)) by done. by rewrite Hsame.
  - destruct (decide (r = violations)) as [-> | Hne].
    + rewrite Hv in Hr. injection Hr as ->.
      exists (setitem df "date" date). split.
      { rewrite <- (lookup_take_lt _ (length σ)) by done. rewrite Hstore.
        by apply list_lookup_insert_eq. }
      split; [done|]. split; [|split; [done | congruence]].
      intros name Hname. simpl. apply lookup_assign_ne. congruence.
    + exists df. split; [|done].
      rewrite <- (lookup_take_lt _ (length σ)) by done. rewrite Hstore.
      by rewrite list_lookup_insert_ne.
Qed.

Lemma analyze_spill_patterns_frame_witness :
  exists df',
    (analyze_spill_patterns 0 None [dated_table]).2 !! 0%nat = Some df' /\
    nrows df' = nrows dated_table /\
    (forall name, name <> "date" ->
                  lookup_column (columns df') name
                  = lookup_column (columns dated_table) name) /\
    (0%nat <> 0%nat -> df' = dated_table) /\
    (has_column dated_table "violation_date" = false -> df' = dated_table).
Proof.
  apply (analyze_spill_patterns_frame [dated_table] 0 None 0 dated_table). reflexivity.
Defined.

(** *** The date range *)

Lemma date_column_getitem df c :
  date_column df = Some c ->
  has_column df (if has_column df "violation_date" then "violation_date" else "date") = true /\
  getitem df (if has_column df "violation_date" then "violation_date" else "date") = Ok c.
Proof.
  unfold date_column. destruct (has_column df "violation_date") eqn:Hv; intros Hc.
  - split; [done | by apply getitem_found].
  - split; [by eapply has_column_found | by apply getitem_found].
Qed.

(** X10.  The date range of a table: empty when the table has neither
    a [violation_date] nor a [date] column; [ValueError] when its date
    column holds no date at all; otherwise the dates of its earliest and
    its latest row, the start no later than the end. *)
Theorem _get_date_range_cases df :
  (date_column df = None -> _get_date_range df = Ok (PDict [])) /\
  (forall dates,
     date_column df = Some (Times dates) -> present dates = [] ->
     _get_date_range df = Raise ValueError) /\
  (forall dates,
     date_column df = Some (Times dates) -> present dates <> [] ->
     exists first_day last_day,
       In first_day (present dates) /\ In last_day (present dates) /\
       (forall d, In d (present dates) -> first_day <= d <= last_day) /\
       _get_date_range df
         = Ok (PDict [(KStr "start", PDate (strftime first_day));
                      (KStr "end", PDate (strftime last_day))]) /\
       (1 <= first_day -> ymd_le (strftime first_day) (strftime last_day))).
Proof.
  split; [|split].
  - unfold date_column, _get_date_range.
    destruct (has_column df "violation_date") eqn:Hv.
    + unfold has_column in Hv. by destruct (lookup_column _ _).
    + intros Hd. unfold has_column at 1. by rewrite Hd.
  - intros dates [Hhas Hget]%date_column_getitem Hnone. unfold _get_date_range.
    cbv zeta. rewrite Hhas, Hget. simpl. by rewrite Hnone.
  - intros dates [Hhas Hget]%date_column_getitem Hsome. unfold _get_date_range.
    cbv zeta. rewrite Hhas, Hget. simpl negb. cbv iota. rewrite bind_ok. simpl (as_times _).
    rewrite bind_ok.
    destruct (minimum_is_Some _ Hsome) as [lo Hlo].
    destruct (maximum_is_Some _ Hsome) as [hi Hhi].
    rewrite Hlo, Hhi. simpl.
    apply minimum_spec in Hlo as [Hlo_in Hlo]. apply maximum_spec in Hhi as [Hhi_in Hhi].
    rewrite Forall_forall in Hlo, Hhi.
    exists lo, hi. split; [done|]. split; [done|]. split.
    { intros d Hd%list_elem_of_In. split; [by apply Hlo | by apply Hhi]. }
    split; [done|]. intros Hone. apply _ord2ymd_monotone. split; [done|].
    by apply Hhi, list_elem_of_In.
Qed.

Lemma _get_date_range_cases_witness :
  exists first_day last_day,
    In first_day (present [Some 738000; Some 738031; None]) /\
    In last_day (present [Some 738000; Some 738031; None]) /\
    (forall d, In d (present [Some 738000; Some 738031; None]) ->
               first_day <= d <= last_day) /\
    _get_date_range unnamed_table
      = Ok (PDict [(KStr "start", PDate (strftime first_day));
                   (KStr "end", PDate (strftime last_day))]) /\
    (1 <= first_day -> ymd_le (strftime first_day) (strftime last_day)).
Proof.
  apply (proj2 (proj2 (_get_date_range_cases unnamed_table))
           [Some 738000; Some 738031; None]); [reflexivity | discriminate].
Defined.


(** *** Counts by facility *)

Lemma total_perm l l' : l ≡ₚ l' -> total l = total l'.
Proof. unfold total. induction 1; simpl; lia. Qed.

Lemma single_or_repeat {K} (counts : list (K * Z)) :
  Forall (fun kv => 1 <= snd kv) counts ->
  (length (filter (fun kv : K * Z => snd kv = 1%Z) counts)
   + length (filter (fun kv : K * Z => (1 < snd kv)%Z) counts) = length counts)%nat.
Proof.
  induction 1 as [|kv counts Hkv Hall IH]; [done|].
  rewrite !filter_cons. repeat case_decide; simpl; lia.
Qed.

Lemma value_counts_perm names :
  value_counts names ≡ₚ group_sizes String.eqb String.leb names.
Proof. apply sort_desc_perm. Qed.

Lemma value_counts_descending names : descending snd (value_counts names).
Proof. by apply (sort_desc_descending snd). Qed.

Lemma value_counts_positive names : Forall (fun kv => 1 <= snd kv) (value_counts names).
Proof. rewrite value_counts_perm. apply group_sizes_positive. Qed.

Lemma value_counts_total names :
  total (map snd (value_counts names)) = Z.of_nat (length (present names)).
Proof.
  rewrite (total_perm _ (map snd (group_sizes String.eqb String.leb names))).
  - apply group_sizes_total.
  - apply Permutation_map, value_counts_perm.
Qed.

(** X11.  The facility facet counts every named row once: the counts of
    the distinct facilities are at least 1, in descending order, and add
    up to the number of rows with a name; every facility is either a
    single-incident facility or a repeat violator; at most ten
    facilities are listed. *)
Theorem _analyze_by_facility_counts df names :
  getitem df "facility_name" = Ok (Strs names) ->
  exists counts single repeated,
    _analyze_by_facility df
      = Ok (PDict [(KStr "total_facilities", PInt (Z.of_nat (length counts)));
                   (KStr "top_violators", str_dict (firstn 10 counts));
                   (KStr "single_incident_facilities", PInt single);
                   (KStr "repeat_violator_count", PInt repeated)]) /\
    single + repeated = Z.of_nat (length counts) /\
    total (map snd counts) = Z.of_nat (length (present names)) /\
    Forall (fun kv => 1 <= snd kv) counts /\
    descending snd counts /\
    (length (firstn 10 counts) <= 10)%nat.
Proof.
  intros Hnames. unfold _analyze_by_facility. rewrite Hnames, bind_ok.
  simpl (as_strs _). rewrite bind_ok. cbv zeta.
  eexists _, _, _. split; [reflexivity|].
  split; [|split; [|split; [|split]]].
  - pose proof (single_or_repeat _ (value_counts_positive names)). lia.
  - apply value_counts_total.
  - apply value_counts_positive.
  - apply value_counts_descending.
  - rewrite length_firstn. lia.
Qed.

Lemma _analyze_by_facility_counts_witness :
  exists counts single repeated,
    _analyze_by_facility undated_table
      = Ok (PDict [(KStr "total_facilities", PInt (Z.of_nat (length counts)));
                   (KStr "top_violators", str_dict (firstn 10 counts));
                   (KStr "single_incident_facilities", PInt single);
                   (KStr "repeat_violator_count", PInt repeated)]) /\
    single + repeated = Z.of_nat (length counts) /\
    total (map snd counts)
      = Z.of_nat (length (present [Some "Foley WWTP"; Some "Loxley WWTP"])) /\
    Forall (fun kv => 1 <= snd kv) counts /\
    descending snd counts /\
    (length (firstn 10 counts) <= 10)%nat.
Proof.
  apply (_analyze_by_facility_counts undated_table [Some "Foley WWTP"; Some "Loxley WWTP"]).
  reflexivity.
Defined.

(** *** Temporal patterns *)

Lemma cycle_fields_checked : cycle_fields_from (Z.to_nat 146097) 1 = true.
Proof. vm_compute. reflexivity. Qed.

Lemma cycle_fields_from_spec count i j :
  cycle_fields_from count i = true ->
  i <= j < i + Z.of_nat count ->
  cycle_fields_ok (_ord2ymd j) = true.
Proof.
  revert i. induction count as [|count IH]; intros i H Hj; [lia|].
  cbn [cycle_fields_from] in H. apply andb_true_iff in H as [Hi Hrest].
  destruct (Z.eq_dec i j) as [->|Hne]; [exact Hi|].
  apply (IH (i + 1)); [exact Hrest | lia].
Qed.

Lemma month_of_range d : 1 <= month_of d <= 12.
Proof.
  unfold month_of. rewrite _ord2ymd_cycle. unfold add_years. cbn [month].
  pose proof (Z.mod_pos_bound (d - 1) _DI400Y ltac:(done)) as Hmod.
  unfold _DI400Y in *.
  pose proof (cycle_fields_from_spec _ 1 ((d - 1) mod 146097 + 1)
                cycle_fields_checked ltac:(lia)) as H.
  unfold cycle_fields_ok in H. rewrite !andb_true_iff, !Z.leb_le in H. lia.
Qed.

Lemma quarter_of_range d : 1 <= quarter_of d <= 4.
Proof.
  unfold quarter_of. pose proof (month_of_range d).
  Z.div_mod_to_equations. lia.
Qed.

Lemma idxmax_spec sizes k :
  idxmax sizes = Ok k ->
  exists top, In (k, top) sizes /\ Forall (fun kv => snd kv <= top) sizes.
Proof.
  unfold idxmax. destruct (maximum (map snd sizes)) as [top|] eqn:Hmax; [|done].
  destruct (filter _ sizes) as [|[k' n] rest] eqn:Hfilter; [done|].
  intros [= <-]. exists top.
  assert (Hin : (k', n) ∈ filter (fun kv : Z * Z => snd kv = top) sizes)
    by (rewrite Hfilter; by left).
  apply list_elem_of_filter in Hin as [Hn Hin]. simpl in Hn. subst n.
  split; [by apply list_elem_of_In|].
  apply maximum_spec in Hmax as [_ Hall]. rewrite Forall_map in Hall. exact Hall.
Qed.

Lemma In_present_fmap {A B} (f : A -> B) (xs : list (option A)) y :
  In (Some y) (map (fmap f) xs) -> exists x, y = f x.
Proof.
  intros ([x|] & Hx & _)%in_map_iff; [|done]. injection Hx as <-. by exists x.
Qed.

(** X12.  The temporal facet counts every dated row once in each of its
    three tables; the months lie in 1..12 and the quarters in 1..4; the
    peak month is a month of the table of months, and no month has more
    violations. *)
Theorem temporal_pattern_counts σ (r : nat) frame dates :
  σ !! r = Some frame ->
  getitem frame "date" = Ok (Times dates) ->
  present dates <> [] ->
  exists by_month by_year by_quarter peak_month trend,
    (_analyze_temporal_patterns r σ).1
      = Ok (PDict [(KStr "by_month", int_dict by_month);
                   (KStr "by_year", int_dict by_year);
                   (KStr "by_quarter", int_dict by_quarter);
                   (KStr "peak_month", PInt peak_month);
                   (KStr "trend", PStr trend)]) /\
    total (map snd by_month) = Z.of_nat (length (present dates)) /\
    total (map snd by_year) = Z.of_nat (length (present dates)) /\
    total (map snd by_quarter) = Z.of_nat (length (present dates)) /\
    (forall m n, In (m, n) by_month -> 1 <= m <= 12 /\ 1 <= n) /\
    (forall q n, In (q, n) by_quarter -> 1 <= q <= 4 /\ 1 <= n) /\
    exists top,
      In (peak_month, top) by_month /\ forall m n, In (m, n) by_month -> n <= top.
Proof.
  intros Hr Hdate Hdates. unfold _analyze_temporal_patterns.
  rewrite run_bind, (run_copy _ _ _ Hr).
  rewrite run_bind, (run_read _ _ _ (lookup_fresh _ _)).
  rewrite run_bind, run_lift, Hdate, bind_ok. simpl (as_times _). cbv iota.
  do 4 (rewrite run_bind, (run_setcol _ _ _ _ _ (lookup_fresh _ _)), insert_fresh).
  rewrite run_bind, (run_read _ _ _ (lookup_fresh _ _)).
  rewrite run_lift. cbn [fst].
  set (f := setitem _ "quarter" _).
  assert (Hm : getitem f "month" = Ok (Ints (map (fmap month_of) dates))).
  { unfold f. rewrite !getitem_setitem_ne by discriminate. apply getitem_setitem_eq. }
  assert (Hy : getitem f "year" = Ok (Ints (map (fmap year_of) dates))).
  { unfold f. rewrite !getitem_setitem_ne by discriminate. apply getitem_setitem_eq. }
  assert (Hq : getitem f "quarter" = Ok (Ints (map (fmap quarter_of) dates)))
    by apply getitem_setitem_eq.
  assert (Hd : getitem f "date" = Ok (Times dates)).
  { unfold f. by rewrite !getitem_setitem_ne by discriminate. }
  unfold sizes_by. rewrite Hm, Hy, Hq. result_norm. simpl (ints_of _).
  result_norm.
  set (by_month := group_sizes Z.eqb Z.leb (map (fmap month_of) dates)).
  destruct (idxmax_ok by_month) as [k Hk].
  { apply group_sizes_nonempty. rewrite present_fmap. by destruct (present dates). }
  rewrite Hk. result_norm. unfold _calculate_trend, monthly_counts.
  rewrite Hd. result_norm. simpl (as_times _). result_norm.
  eexists _, _, _, _, _. split; [reflexivity|].
  split; [|split; [|split; [|split; [|split]]]].
  - unfold by_month. by rewrite group_sizes_total, present_fmap, length_map.
  - by rewrite group_sizes_total, present_fmap, length_map.
  - by rewrite group_sizes_total, present_fmap, length_map.
  - intros m n Hin. split.
    + apply group_sizes_keys, In_present_fmap in Hin as [d ->]. apply month_of_range.
    + pose proof (group_sizes_positive Z.eqb Z.leb (map (fmap month_of) dates)) as Hpos.
      rewrite Forall_forall in Hpos. by apply (Hpos (m, n)), list_elem_of_In.
  - intros q n Hin. split.
    + apply group_sizes_keys, In_present_fmap in Hin as [d ->]. apply quarter_of_range.
    + pose proof (group_sizes_positive Z.eqb Z.leb (map (fmap quarter_of) dates)) as Hpos.
      rewrite Forall_forall in Hpos. by apply (Hpos (q, n)), list_elem_of_In.
  - apply idxmax_spec in Hk as (top & Hin & Hall). exists top. split; [done|].
    intros m n Hmn. rewrite Forall_forall in Hall.
    by apply (Hall (m, n)), list_elem_of_In.
Qed.


(** *** Hotspots *)

Lemma descending_map {A} (count : A -> Z) (rows : list A) :
  descending count rows -> descending (fun n => n) (map count rows).
Proof.
  intros H i j a b Hij Hi Hj.
  rewrite list_lookup_fmap in Hi, Hj.
  destruct (rows !! i) as [x|] eqn:Hx; [|done].
  destruct (rows !! j) as [y|] eqn:Hy; [|done].
  injection Hi as <-. injection Hj as <-. by apply (H i j).
Qed.

Lemma Forall2_map_same {A B C} (P : B -> C -> Prop) (f : A -> B) (g : A -> C) xs :
  (forall x, P (f x) (g x)) -> Forall2 P (map f xs) (map g xs).
Proof. intros H. induction xs; simpl; by constructor. Qed.

Lemma paired_bins_present (f g : Q -> Q) (a b : list (option Q)) :
  length (present (zip_with (fun x y => x' ← x; y' ← y; Some (x', y'))
                            (map (fmap f) a) (map (fmap g) b)))
  = count_true (both_present a b).
Proof.
  unfold present, count_true, both_present. revert b.
  induction a as [|[x|] a IH]; intros [|[y|] b]; simpl; try done; by rewrite IH.
Qed.

(** X13.  On a table with facility names in which at least one row has
    both coordinates, [_identify_hotspots] returns between one and five
    hotspots, the most frequent first, each with a count of at least 1. *)
Theorem _identify_hotspots_top_five σ (r : nat) frame lat lon names :
  σ !! r = Some frame ->
  (0 < nrows frame)%nat ->
  lookup_column (columns frame) "latitude" = Some (Nums lat) ->
  lookup_column (columns frame) "longitude" = Some (Nums lon) ->
  lookup_column (columns frame) "facility_name" = Some (Strs names) ->
  (1 <= count_true (both_present lat lon))%nat ->
  exists spots counts,
    (_identify_hotspots r σ).1 = Ok (PList spots) /\
    (1 <= length spots <= 5)%nat /\
    Forall2 (fun spot n => get spot "count" = Some (PInt n)) spots counts /\
    descending (fun n => n) counts /\
    Forall (fun n => 1 <= n) counts.
Proof.
  intros Hr Hn Hlat Hlon Hname Hpaired. unfold _identify_hotspots.
  rewrite run_bind, (run_read _ _ _ Hr), (not_empty _ _ _ Hn Hlat). cbv iota.
  rewrite run_bind, (run_copy _ _ _ Hr).
  rewrite run_bind, (run_read _ _ _ (lookup_fresh _ _)).
  rewrite run_bind, run_lift, (getitem_found _ _ _ Hlat), bind_ok.
  simpl (as_nums _). cbv iota.
  rewrite run_bind, (run_setcol _ _ _ _ _ (lookup_fresh _ _)), insert_fresh.
  rewrite run_bind, (run_read _ _ _ (lookup_fresh _ _)).
  set (f1 := setitem frame "lat_bin" _).
  assert (Hlon1 : getitem f1 "longitude" = Ok (Nums lon)).
  { unfold f1. rewrite getitem_setitem_ne by discriminate. by apply getitem_found. }
  rewrite run_bind, run_lift, Hlon1, bind_ok. simpl (as_nums _). cbv iota.
  rewrite run_bind, (run_setcol _ _ _ _ _ (lookup_fresh _ _)), insert_fresh.
  rewrite run_bind, (run_read _ _ _ (lookup_fresh _ _)).
  set (f2 := setitem f1 "lon_bin" _).
  rewrite run_lift. cbn [fst].
  assert (H1 : getitem f2 "lat_bin" = Ok (Nums (map (fmap to_bin) lat))).
  { unfold f2. rewrite getitem_setitem_ne by discriminate. apply getitem_setitem_eq. }
  assert (H2 : getitem f2 "lon_bin" = Ok (Nums (map (fmap to_bin) lon)))
    by apply getitem_setitem_eq.
  assert (H3 : getitem f2 "latitude" = Ok (Nums lat)).
  { unfold f2, f1. rewrite !getitem_setitem_ne by discriminate. by apply getitem_found. }
  assert (H4 : getitem f2 "longitude" = Ok (Nums lon)).
  { unfold f2. rewrite getitem_setitem_ne by discriminate. exact Hlon1. }
  assert (H5 : getitem f2 "facility_name" = Ok (Strs names)).
  { unfold f2, f1. rewrite !getitem_setitem_ne by discriminate. by apply getitem_found. }
  rewrite H1, bind_ok. simpl (as_nums _). rewrite bind_ok.
  rewrite H2, bind_ok. simpl (as_nums _). rewrite bind_ok.
  cbv zeta.
  rewrite H3, bind_ok. simpl (as_nums _). rewrite bind_ok.
  rewrite H4, bind_ok. simpl (as_nums _). rewrite bind_ok.
  rewrite H5, bind_ok. simpl (as_strs _). rewrite bind_ok, ret_ok.
  set (groups := groupby bin_eqb bin_leb _).
  set (hotspots := map _ groups).
  set (top := nlargest _ 5 hotspots).
  exists (map (fun '(lat, lon, name, count) =>
                 PDict [(KStr "lat", num_value lat); (KStr "lon", num_value lon);
                        (KStr "count", PInt count);
                        (KStr "name", match name with
                                      | Some n => PStr n
                                      | None => PNone
                                      end)]) top), (map snd top).
  split; [reflexivity|]. split; [|split; [|split]].
  - rewrite length_map. unfold top. rewrite nlargest_length_all.
    unfold hotspots, groups. rewrite length_map.
    assert (Hgroups : groupby bin_eqb bin_leb
                        (zip_with (fun a b => a' ← a; b' ← b; Some (a', b'))
                                  (map (fmap to_bin) lat) (map (fmap to_bin) lon)) <> []).
    { apply group_from_nonempty. right. intros Hnil.
      pose proof (paired_bins_present to_bin to_bin lat lon) as Hlen.
      rewrite Hnil in Hlen. simpl in Hlen. lia. }
    set (found := groupby _ _ _) in *. clearbody found.
    destruct found; [done|]. simpl length. lia.
  - apply Forall2_map_same. by intros [[[a b'] c] d].
  - apply descending_map. by apply (nlargest_descending snd).
  - apply Forall_map, Forall_forall. intros spot Hspot%list_elem_of_In.
    apply nlargest_In in Hspot.
    unfold hotspots in Hspot. apply in_map_iff in Hspot as ([k rows] & <- & Hin).
    simpl. pose proof (groupby_rows bin_eqb bin_leb
      (zip_with (fun a b => a' ← a; b' ← b; Some (a', b'))
                (map (fmap to_bin) lat) (map (fmap to_bin) lon))) as Hrows.
    rewrite Forall_forall in Hrows. apply list_elem_of_In, Hrows in Hin.
    simpl in Hin. destruct rows; [done|]. simpl. lia.
Qed.

(** X14.  When fewer than two rows have both coordinates,
    [_analyze_spatial_patterns] returns an empty list of clusters and
    nothing else, with or without a column of facility names. *)
Theorem _analyze_spatial_patterns_few_points σ (r : nat) frame lat lon :
  σ !! r = Some frame ->
  lookup_column (columns frame) "latitude" = Some (Nums lat) ->
  lookup_column (columns frame) "longitude" = Some (Nums lon) ->
  length lat = nrows frame ->
  length lon = nrows frame ->
  (count_true (both_present lat lon) < 2)%nat ->
  (_analyze_spatial_patterns r σ).1 = Ok (PDict [(KStr "clusters", PList [])]).
Proof.
  intros Hr Hlat Hlon Hllat Hllon Hvalid. unfold _analyze_spatial_patterns.
  rewrite run_bind, (run_read _ _ _ Hr).
  rewrite run_bind, run_lift. unfold dropna2.
  rewrite (getitem_found _ _ _ Hlat), bind_ok, (getitem_found _ _ _ Hlon), bind_ok, ret_ok.
  cbv iota. cbn [notna]. rewrite both_present_notna.
  set (mask := both_present lat lon) in *.
  set (dropped := filter_rows mask frame).
  assert (Hrows : nrows dropped = count_true mask).
  { unfold dropped, filter_rows. cbn [nrows]. rewrite firstn_all2; [done|].
    unfold mask. rewrite length_both_present; lia. }
  rewrite run_bind, run_new.
  rewrite run_bind, (run_read _ _ _ (lookup_fresh _ _)).
  assert (Hlt : (nrows dropped <? 2)%nat = true) by (apply Nat.ltb_lt; lia).
  by rewrite Hlt.
Qed.


(** *** The days of a precipitation threshold *)

Lemma length_select {A} (mask : list bool) (xs : list A) :
  length mask = length xs -> length (select mask xs) = count_true mask.
Proof.
  unfold count_true. revert xs.
  induction mask as [|[] mask IH]; intros [|x xs] Hlen; simpl in *; try done.
  - by rewrite IH by lia.
  - by rewrite IH by lia.
Qed.

Lemma length_counts_where test (precipitation counts : list (option Q)) :
  length counts = length precipitation ->
  length (counts_where test precipitation counts)
  = length (List.filter test (present precipitation)).
Proof.
  intros Hlen. unfold counts_where. rewrite length_select by (by rewrite length_map).
  unfold count_true, present. clear Hlen counts.
  induction precipitation as [|[p|] ps IH]; simpl; [done| |done].
  destruct (test p); simpl; by rewrite IH.
Qed.

Lemma length_filter_split {A} (test : A -> bool) (xs : list A) :
  (length (List.filter test xs) + length (List.filter (fun x => negb (test x)) xs)
   = length xs)%nat.
Proof. induction xs as [|x xs IH]; simpl; [done|]. destruct (test x); simpl; lia. Qed.

Lemma dict_lookup_omap {A} (g : A -> option (key * pyval)) (xs : list A) k v :
  dict_lookup (omap g xs) k = Some v ->
  exists x k', In x xs /\ g x = Some (k', v) /\ key_eqb k' k = true.
Proof.
  induction xs as [|x xs IH]; simpl; [done|].
  destruct (g x) as [[k' v']|] eqn:Hg; simpl.
  - destruct (key_eqb k' k) eqn:Hk.
    + intros [= <-]. exists x, k'. split; [by left | done].
    + intros (y & k'' & Hin & Hy & Hk'')%IH. exists y, k''. split; [by right | done].
  - intros (y & k'' & Hin & Hy & Hk'')%IH. exists y, k''. split; [by right | done].
Qed.

Lemma threshold_entry_days precipitation counts threshold entry :
  threshold_entry precipitation counts threshold = Some entry ->
  let above := counts_where (fun x => Qle_bool threshold x) precipitation counts in
  let below := counts_where (fun x => negb (Qle_bool threshold x)) precipitation counts in
  above <> [] /\ below <> [] /\
  get entry "days" = Some (PInt (Z.of_nat (length above))).
Proof.
  unfold threshold_entry. cbv zeta.
  destruct (counts_where (fun x => Qle_bool threshold x) precipitation counts)
    as [|a above]; [done|].
  destruct (counts_where (fun x => negb (Qle_bool threshold x)) precipitation counts)
    as [|b below]; [done|].
  destruct (mean (a :: above)), (mean (b :: below)); by intros [= <-].
Qed.

(** X15.  Every entry of the threshold analysis belongs to one of the
    four thresholds; its [days] are the days whose precipitation is at
    or above the threshold, at least one and fewer than the days with a
    precipitation value: a day without a value is in neither group. *)
Theorem threshold_days df precipitation counts res label entry :
  getitem df "precipitation_inches" = Ok (Nums precipitation) ->
  getitem df "violation_count" = Ok (Nums counts) ->
  length counts = length precipitation ->
  _analyze_precipitation_thresholds df = Ok res ->
  get res label = Some entry ->
  exists threshold name days,
    In (threshold, name) thresholds /\
    label = "above_" +:+ name +:+ "_inches" /\
    get entry "days" = Some (PInt days) /\
    days = Z.of_nat (length (List.filter (fun p => Qle_bool threshold p)
                                         (present precipitation))) /\
    1 <= days < Z.of_nat (length (present precipitation)).
Proof.
  intros Hp Hc Hlen. unfold _analyze_precipitation_thresholds.
  rewrite Hp, bind_ok. simpl (as_nums _). rewrite bind_ok, Hc, bind_ok.
  simpl (as_nums _). rewrite bind_ok, ret_ok.
  set (items := omap _ thresholds). intros Hres.
  assert (res = PDict items) as -> by congruence. unfold get, items.
  intros ([threshold name] & k' & Hin & Hentry & Hk)%dict_lookup_omap.
  destruct (threshold_entry precipitation counts threshold) as [e|] eqn:He; [|done].
  simpl in Hentry. injection Hentry as <- <-. cbn [key_eqb] in Hk.
  apply String.eqb_eq in Hk. subst label.
  apply threshold_entry_days in He as (Habove & Hbelow & Hdays).
  rewrite length_counts_where in Hdays by done.
  exists threshold, name. eexists. split; [done|]. split; [done|]. split; [exact Hdays|].
  split; [done|].
  pose proof (length_counts_where (fun x => Qle_bool threshold x) _ _ Hlen) as Ha.
  pose proof (length_counts_where (fun x => negb (Qle_bool threshold x)) _ _ Hlen) as Hb.
  pose proof (length_filter_split (fun x => Qle_bool threshold x) (present precipitation)).
  destruct (counts_where (fun x => Qle_bool threshold x) precipitation counts); [done|].
  destruct (counts_where (fun x => negb (Qle_bool threshold x)) precipitation counts);
    [done|].
  simpl in Ha, Hb. lia.
Qed.


(** *** The number of data points of a weather correlation *)

Lemma keeps_post {A} (m : py A) (Q : A -> Prop) σ a :
  keeps 0 m Q -> (m σ).1 = Ok a -> Q a.
Proof. intros H Hm. apply (H σ); [lia | done]. Qed.

Lemma merge_left_nrows weather daily joined :
  merge_left weather daily = Ok joined -> nrows joined = nrows weather.
Proof.
  unfold merge_left. destruct (getitem weather "date" ≫= as_times) as [dates|e]; [|done].
  rewrite bind_ok. by destruct (has_column weather "violation_count"); intros [= <-].
Qed.

Lemma begins_put n results k v :
  begins_with_data_points n results -> begins_with_data_points n (put results k v).
Proof. intros [rest ->]. by exists (rest ++ [(KStr k, v)]). Qed.

Lemma weather_correlation_tail n (merged : nat) mframe :
  keeps 0
    (let results := [(KStr "data_points", PInt n)] in
     results ←
       (if has_column mframe "precipitation_inches" then
          precip ← lift (getitem mframe "precipitation_inches" ≫= as_nums);
          violations_col ← lift (getitem mframe "violation_count" ≫= as_nums);
          let valid_idx := both_present precip violations_col in
          if (10 <? count_true valid_idx)%nat then
            let results :=
              put results "precipitation_correlation"
                (correlation_block (present (select valid_idx precip))
                                   (present (select valid_idx violations_col))) in
            let precip_3day := rolling3 None None precip in
            setcol merged "precip_3day" (Nums precip_3day);;
            let valid_idx_3d := both_present precip_3day violations_col in
            if (10 <? count_true valid_idx_3d)%nat then
              mret (put results "precipitation_3day_correlation"
                      (correlation_block (present (select valid_idx_3d precip_3day))
                                         (present (select valid_idx_3d violations_col))))
            else mret results
          else mret results
        else mret results);
     mframe ← read merged;
     results ←
       (if has_column mframe "precipitation_inches" then
          threshold_analysis ← lift (_analyze_precipitation_thresholds mframe);
          mret (put results "threshold_analysis" threshold_analysis)
        else mret results);
     mret (PDict results))
    (fun res => get res "data_points" = Some (PInt n)).
Proof.
  cbv zeta.
  eapply (keeps_bind _ _ _ (begins_with_data_points n)).
  - apply keeps_if; [|apply keeps_ret; by eexists].
    eapply keeps_bind; [apply keeps_lift|]. intros precip _.
    eapply keeps_bind; [apply keeps_lift|]. intros violations_col _.
    apply keeps_if; [|apply keeps_ret; by eexists].
    eapply keeps_bind; [apply keeps_setcol; lia|]. intros _ _.
    apply keeps_if; apply keeps_ret; by eexists.
  - intros results Hresults.
    eapply keeps_bind; [apply keeps_read|]. intros frame _.
    eapply (keeps_bind _ _ _ (begins_with_data_points n)).
    + apply keeps_if; [|by apply keeps_ret].
      eapply keeps_bind; [apply keeps_lift|]. intros analysis _.
      apply keeps_ret. by apply begins_put.
    + intros results' [rest ->]. by apply keeps_ret.
Qed.

(** X16.  A weather correlation that returns without the error facet
    reports as many data points as the weather table has rows: the
    merge keeps every day of the weather table once. *)
Theorem weather_correlation_data_points σ (violations weather : nat) wf res :
  σ !! weather = Some wf ->
  (analyze_weather_correlation violations weather σ).1 = Ok res ->
  has_key res "error" = false ->
  get res "data_points" = Some (PInt (Z.of_nat (nrows wf))).
Proof.
  intros Hw. unfold analyze_weather_correlation. rewrite run_bind.
  destruct (σ !! violations) as [vf|] eqn:Hv;
    [rewrite (run_read _ _ _ Hv) | by rewrite (run_read_dangling _ _ Hv)].
  rewrite run_bind, (run_read _ _ _ Hw).
  destruct (empty vf || empty wf).
  { rewrite run_ret. by intros [= <-]. }
  rewrite run_bind, (run_copy _ _ _ Hv).
  rewrite run_bind, (run_read _ _ _ (lookup_fresh _ _)).
  rewrite run_bind, run_lift.
  destruct (getitem vf "violation_date" ≫= to_datetime) as [date|e]; [|done].
  rewrite run_bind, (run_setcol _ _ _ _ _ (lookup_fresh _ _)), insert_fresh.
  rewrite run_bind, (run_read _ _ _ (lookup_fresh _ _)).
  rewrite run_bind, run_lift.
  destruct (daily_violations _) as [daily|e]; [|done].
  set (σ1 := σ ++ [setitem vf "date" date]).
  assert (Hw1 : σ1 !! weather = Some wf) by (by apply lookup_app_l_Some).
  rewrite run_bind, (run_copy _ _ _ Hw1).
  rewrite run_bind, (run_read _ _ _ (lookup_fresh _ _)).
  rewrite run_bind, run_lift.
  destruct (getitem wf "date" ≫= to_datetime) as [wdate|e]; [|done].
  rewrite run_bind, (run_setcol _ _ _ _ _ (lookup_fresh _ _)), insert_fresh.
  rewrite run_bind, (run_read _ _ _ (lookup_fresh _ _)).
  rewrite run_bind, run_lift.
  destruct (merge_left _ daily) as [joined|e] eqn:Hjoined; [|done].
  apply merge_left_nrows in Hjoined. cbn [setitem nrows] in Hjoined.
  rewrite run_bind, run_new.
  rewrite run_bind, (run_read _ _ _ (lookup_fresh _ _)).
  rewrite run_bind, run_lift.
  destruct (getitem joined "violation_count" ≫= as_nums) as [counts|e]; [|done].
  rewrite run_bind, (run_setcol _ _ _ _ _ (lookup_fresh _ _)), insert_fresh.
  rewrite run_bind, (run_read _ _ _ (lookup_fresh _ _)).
  cbn [setitem nrows]. rewrite Hjoined.
  intros Hres _. revert Hres.
  apply (keeps_post _ (fun res => get res "data_points" = Some (PInt (Z.of_nat (nrows wf))))).
  apply weather_correlation_tail.
Qed.


(** *** The report on repeat violators *)

Lemma rint_nonneg (x : Q) : (0 <= x)%Q -> 0 <= rint x.
Proof.
  intros Hx. unfold rint.
  assert (0 <= Qfloor x).
  { change 0 with (Qfloor 0). by apply Qfloor_resp_le. }
  destruct (_ ?= _)%Q; [destruct (Z.even _) | |]; lia.
Qed.

Lemma rint_at_most (x : Q) (k : Z) : (x <= inject_Z k)%Q -> rint x <= k.
Proof.
  intros Hx. unfold rint. set (f := Qfloor x).
  pose proof (Qfloor_le x) as Hlo. fold f in Hlo.
  assert (Hf : f <= k).
  { rewrite <- (Qfloor_Z k). by apply Qfloor_resp_le. }
  destruct (Z.eq_dec f k) as [Heq | Hne]; [|destruct (_ ?= _)%Q; [destruct (Z.even _) | |]; lia].
  destruct (Qcompare_spec (x - inject_Z f) (1 # 2)) as [He | Hl | Hg]; [| lia |].
  - rewrite Heq in He. Lqa.lra.
  - rewrite Heq in Hg. Lqa.lra.
Qed.

Lemma round2_bounds (x : Q) (k : Z) :
  (0 <= x <= inject_Z k)%Q -> (0 <= round2 x <= inject_Z k)%Q.
Proof.
  intros [Hlo Hhi]. unfold round2. rewrite Qred_correct.
  assert (H0 : 0 <= rint (x * 100)) by (apply rint_nonneg; Lqa.lra).
  assert (H1 : rint (x * 100) <= k * 100).
  { apply rint_at_most. rewrite inject_Z_mult. change (inject_Z 100) with 100%Q. Lqa.lra. }
  rewrite Zle_Qle in H0, H1. rewrite inject_Z_mult in H1.
  change (inject_Z 100) with 100%Q in H1. change (inject_Z 0) with 0%Q in H0.
  set (n := inject_Z (rint (x * 100))) in *. clearbody n.
  split.
  - apply Qle_shift_div_l; [reflexivity | Lqa.lra].
  - apply Qle_shift_div_r; [reflexivity | Lqa.lra].
Qed.

Lemma Qmax_at_least (x : Q) : (1 <= Qmax x 1)%Q.
Proof.
  unfold Qmax. destruct (Qle_bool 1 x) eqn:H; [by apply Qle_bool_iff | Lqa.lra].
Qed.

Lemma per_year_bounds count days rate :
  0 <= count ->
  per_year count (Some days) = Some rate ->
  (0 <= rate <= inject_Z count)%Q.
Proof.
  intros Hcount. unfold per_year. simpl. intros [= <-].
  apply round2_bounds.
  pose proof (Qmax_at_least (inject_Z days / 365)) as Hmax.
  set (m := Qmax _ 1) in *. clearbody m.
  rewrite Zle_Qle in Hcount. change (inject_Z 0) with 0%Q in Hcount.
  set (c := inject_Z count) in *. clearbody c.
  split.
  - apply Qle_shift_div_l; [Lqa.lra | Lqa.lra].
  - apply Qle_shift_div_r; [Lqa.lra|]. Lqa.nra.
Qed.

Lemma facility_stats_rates df stats :
  facility_stats df = Ok stats ->
  Forall (fun f => 0 <= violation_count f /\
                   match violations_per_year f with
                   | Some rate => (0 <= rate <= inject_Z (violation_count f))%Q
                   | None => violation_count f = 0
                   end) stats.
Proof.
  unfold facility_stats.
  destruct (getitem df "facility_name" ≫= as_strs) as [names|e]; [|done]. rewrite bind_ok.
  destruct (getitem df "date" ≫= as_times) as [dates|e]; [|done]. rewrite bind_ok.
  destruct (getitem df "violation_type" ≫= as_strs) as [types|e]; [|done]. rewrite bind_ok.
  destruct (getitem df "latitude" ≫= as_nums) as [lats|e]; [|done]. rewrite bind_ok.
  destruct (getitem df "longitude" ≫= as_nums) as [lons|e]; [|done]. rewrite bind_ok.
  intros [= <-]. apply Forall_map, Forall_forall. intros [name rows] _.
  cbn [violation_count violations_per_year].
  set (seen := present (at_rows dates rows)).
  split; [lia|].
  destruct seen as [|d seen'] eqn:Hseen; [done|].
  simpl (minimum _ ≫= _).
  destruct (per_year _ _) as [rate|] eqn:Hrate.
  - eapply per_year_bounds; [|exact Hrate]. lia.
  - done.
Qed.


(** *** The dispatch of the analyses *)

Lemma dict_get_find {V} (d : list (string * V)) k default :
  dict_get d k default = match dict_find d k with Some v => v | None => default end.
Proof.
  induction d as [|[k' v] d IH]; simpl; [done|]. by destruct (String.eqb k' k).
Qed.

Lemma analyze_spill_patterns_empty σ (r : nat) weather df :
  σ !! r = Some df -> empty df = true ->
  (analyze_spill_patterns r weather σ).1 = Ok (error_result "No violation data available").
Proof.
  intros Hr He. unfold analyze_spill_patterns.
  by rewrite run_bind, (run_read _ _ _ Hr), He.
Qed.

Lemma analyze_repeat_violators_empty σ (r : nat) df :
  σ !! r = Some df -> empty df = true ->
  (analyze_repeat_violators r σ).1 = Ok (error_result "No facility data available").
Proof.
  intros Hr He. unfold analyze_repeat_violators.
  by rewrite run_bind, (run_read _ _ _ Hr), He.
Qed.

Lemma analyze_weather_correlation_empty σ (r w : nat) df wf :
  σ !! r = Some df -> σ !! w = Some wf -> empty df = true ->
  (analyze_weather_correlation r w σ).1
  = Ok (error_result "Insufficient data for correlation analysis").
Proof.
  intros Hr Hw He. unfold analyze_weather_correlation.
  by rewrite run_bind, (run_read _ _ _ Hr), run_bind, (run_read _ _ _ Hw), He.
Qed.

(** X18.  Without a violations table, or with an empty one,
    [analyze_data] answers every type of query with an error facet and
    raises nothing. *)
Theorem analyze_data_without_violations σ parsed data :
  fetched σ data ->
  match dict_find data "violations" with
  | Some r => exists df, σ !! r = Some df /\ empty df = true
  | None => True
  end ->
  exists message, (analyze_data parsed data σ).1 = Ok (error_result message).
Proof.
  intros Hfetched Hviolations.
  assert (Hv : forall σ', exists df,
             (σ ++ [no_frame] ++ σ') !! dict_get data "violations" (length σ) = Some df /\
             empty df = true).
  { intros σ'. rewrite dict_get_find.
    destruct (dict_find data "violations") as [r|].
    - destruct Hviolations as (df & Hr & He). exists df. split; [|done].
      by apply lookup_app_l_Some.
    - exists no_frame. split; [|done]. by apply list_lookup_middle. }
  unfold analyze_data. cbv zeta.
  repeat match goal with
         | |- context [if String.eqb ?a ?b then _ else _] => destruct (String.eqb a b)
         end.
  - rewrite run_bind, run_new. destruct (Hv []) as (df & Hr & He).
    eexists. by apply (analyze_spill_patterns_empty _ _ _ df).
  - rewrite run_bind, run_new. destruct (Hv []) as (df & Hr & He).
    eexists. by apply (analyze_repeat_violators_empty _ _ df).
  - rewrite run_bind, run_new, run_bind, run_new.
    destruct (Hv [no_frame]) as (df & Hr & He). rewrite <- app_assoc.
    assert (Hw : exists wf, (σ ++ [no_frame] ++ [no_frame])
                              !! dict_get data "precipitation" (length (σ ++ [no_frame]))
                            = Some wf).
    { rewrite dict_get_find. destruct (dict_find data "precipitation") as [w|] eqn:Hfind.
      - apply dict_find_In, Hfetched in Hfind as [wf Hwf]. exists wf.
        by apply lookup_app_l_Some.
      - exists no_frame. rewrite app_assoc. apply lookup_fresh. }
    destruct Hw as [wf Hw].
    eexists. rewrite length_app in *. simpl length in *.
    by apply (analyze_weather_correlation_empty _ _ _ df wf).
  - rewrite run_bind, run_new. destruct (Hv []) as (df & Hr & He).
    eexists. by apply (analyze_spill_patterns_empty _ _ _ df).
  - rewrite run_bind, run_new. destruct (Hv []) as (df & Hr & He).
    eexists. by apply (analyze_spill_patterns_empty _ _ _ df).
Qed.


(** *** The properties on the example tables *)

Lemma temporal_pattern_counts_witness :
  exists by_month by_year by_quarter peak_month trend,
    (_analyze_temporal_patterns 0 [spring_table]).1
      = Ok (PDict [(KStr "by_month", int_dict by_month);
                   (KStr "by_year", int_dict by_year);
                   (KStr "by_quarter", int_dict by_quarter);
                   (KStr "peak_month", PInt peak_month);
                   (KStr "trend", PStr trend)]) /\
    total (map snd by_month) = Z.of_nat (length (present spring_dates)) /\
    total (map snd by_year) = Z.of_nat (length (present spring_dates)) /\
    total (map snd by_quarter) = Z.of_nat (length (present spring_dates)) /\
    (forall m n, In (m, n) by_month -> 1 <= m <= 12 /\ 1 <= n) /\
    (forall q n, In (q, n) by_quarter -> 1 <= q <= 4 /\ 1 <= n) /\
    exists top,
      In (peak_month, top) by_month /\ forall m n, In (m, n) by_month -> n <= top.
Proof.
  apply (temporal_pattern_counts [spring_table] 0 spring_table spring_dates);
    [reflexivity | reflexivity | discriminate].
Defined.

Lemma _identify_hotspots_top_five_witness :
  exists spots counts,
    (_identify_hotspots 0 [one_facility_table]).1 = Ok (PList spots) /\
    (1 <= length spots <= 5)%nat /\
    Forall2 (fun spot n => get spot "count" = Some (PInt n)) spots counts /\
    descending (fun n => n) counts /\
    Forall (fun n => 1 <= n) counts.
Proof.
  apply (_identify_hotspots_top_five [one_facility_table] 0 one_facility_table
           (replicate 12 (Some (305227 # 10000)%Q))
           (replicate 12 (Some (- 879033 # 10000)%Q))
           (replicate 12 (Some "Fairhope WWTP")));
    [reflexivity | simpl; lia | reflexivity | reflexivity | reflexivity | vm_compute; lia].
Defined.

Lemma _analyze_spatial_patterns_few_points_witness :
  (_analyze_spatial_patterns 0 [lone_point_table]).1
  = Ok (PDict [(KStr "clusters", PList [])]).
Proof.
  apply (_analyze_spatial_patterns_few_points [lone_point_table] 0 lone_point_table
           [Some (304066 # 10000)%Q; None] [Some (- 876836 # 10000)%Q; None]);
    [reflexivity | reflexivity | reflexivity | reflexivity | reflexivity | vm_compute; lia].
Defined.

Lemma threshold_days_witness :
  exists res entry,
    _analyze_precipitation_thresholds wet_and_dry = Ok res /\
    get res "above_1.0_inches" = Some entry /\
    exists threshold name days,
      In (threshold, name) thresholds /\
      "above_1.0_inches" = "above_" +:+ name +:+ "_inches" /\
      get entry "days" = Some (PInt days) /\
      days = Z.of_nat (length (List.filter (fun p => Qle_bool threshold p)
                                           (present wet_days))) /\
      1 <= days < Z.of_nat (length (present wet_days)).
Proof.
  eexists _, _. split; [vm_compute; reflexivity|]. split; [reflexivity|].
  eapply (threshold_days wet_and_dry wet_days wet_counts _ "above_1.0_inches");
    reflexivity.
Defined.

Lemma weather_correlation_data_points_witness :
  exists res,
    (analyze_weather_correlation 0 1 [dated_table; weather_of_days 3]).1 = Ok res /\
    has_key res "error" = false /\
    get res "data_points" = Some (PInt (Z.of_nat (nrows (weather_of_days 3)))).
Proof.
  eexists. split; [vm_compute; reflexivity|]. split; [reflexivity|].
  apply (weather_correlation_data_points [dated_table; weather_of_days 3] 0 1
           (weather_of_days 3)); [reflexivity | vm_compute; reflexivity | reflexivity].
Defined.


Lemma analyze_data_without_violations_witness :
  exists message, (analyze_data overview_query [] []).1 = Ok (error_result message).
Proof.
  apply (analyze_data_without_violations [] overview_query []);
    [by intros name r [] | exact I].
Defined.

End EngineFacts.

(** ** Properties of the path through the language model *)

Module ModelReplyFacts.
Import Text Calendar QueryProcessor Specification Scenarios helpers Properties Outcome ModelReply.
Import CalendarFacts QueryProcessorFacts FallbackParserFacts.

Lemma bind_returns {A B} (m : outcome A) (k : A -> outcome B) b :
  (m ≫= k) = Returns b -> exists a, m = Returns a /\ k a = Returns b.
Proof. destruct m as [a|r]; [|done]. intros H. by exists a. Qed.

Lemma find_store_eq items k x : dict_find (store_item items k x) k = Some x.
Proof.
  induction items as [|[k' x'] items IH]; simpl.
  - by rewrite String.eqb_refl.
  - destruct (String.eqb k' k) eqn:Hk; simpl; by rewrite Hk.
Qed.

Lemma find_store_ne items k k' x :
  k <> k' -> dict_find (store_item items k x) k' = dict_find items k'.
Proof.
  intros Hne. induction items as [|[k0 x0] items IH]; simpl.
  - by apply String.eqb_neq in Hne as ->.
  - destruct (String.eqb k0 k) eqn:Hk; simpl.
    + apply String.eqb_eq in Hk as ->. by apply String.eqb_neq in Hne as ->.
    + by rewrite IH.
Qed.

Lemma setitem_returns v k x v' :
  setitem v k x = Returns v' ->
  item v' k = Some x /\ forall k', k <> k' -> item v' k' = item v k'.
Proof.
  destruct v; try done. simpl. intros [= <-]. simpl. split.
  - apply find_store_eq.
  - intros k' Hne. by apply find_store_ne.
Qed.

Lemma get_method_returns v k default x :
  get_method v k default = Returns x ->
  x = match item v k with Some y => y | None => default end.
Proof.
  destruct v; try done. simpl. by destruct (dict_find items k); intros [= <-].
Qed.

Lemma get_method_truth v k x :
  get_method v k JNull = Returns x -> truth x = true -> item v k = Some x.
Proof.
  intros ->%get_method_returns. by destruct (item v k).
Qed.

Lemma getitem_returns v k x : getitem v k = Returns x -> item v k = Some x.
Proof.
  destruct v; try done. simpl. by destruct (dict_find items k); intros [= <-].
Qed.

Lemma setitem_in_returns v k1 k2 x v' :
  setitem_in v k1 k2 x = Returns v' ->
  exists inner inner',
    item v k1 = Some inner /\
    item v' k1 = Some inner' /\
    item inner' k2 = Some x /\
    (forall k', k2 <> k' -> item inner' k' = item inner k') /\
    (forall k', k1 <> k' -> item v' k' = item v k').
Proof.
  unfold setitem_in.
  intros (inner & Hinner%getitem_returns & (inner' & Hset & Hback)%bind_returns)%bind_returns.
  apply setitem_returns in Hset as [Hx Hrest].
  apply setitem_returns in Hback as [Hinner' Hrest'].
  by exists inner, inner'.
Qed.

Lemma item_falsy v k : truth v = false -> item v k = None.
Proof. destruct v as [| | | | | | |items|items]; try done. by destruct items. Qed.

Lemma _infer_data_sources_nonempty query_type : _infer_data_sources query_type <> [].
Proof.
  unfold _infer_data_sources. cbn [dict_get].
  repeat (destruct (String.eqb _ query_type); [done|]). done.
Qed.

Lemma _infer_visualization_nonempty query_type :
  is_empty (_infer_visualization query_type) = false.
Proof.
  unfold _infer_visualization. cbn [dict_get].
  repeat (destruct (String.eqb _ query_type); [done|]). done.
Qed.

(** One step of [_validate_and_enhance] that fills in a default under
    [parsed[outer][k]]. *)
Lemma fill_default parsed outer k default location given parsed' :
  item parsed outer = Some location ->
  get_method location k JNull = Returns given ->
  truth default = true ->
  (if truth given then mret parsed else setitem_in parsed outer k default)
    = Returns parsed' ->
  exists location',
    item parsed' outer = Some location' /\
    item location' k = Some (filled (item location k) default) /\
    (forall k', k <> k' -> item location' k' = item location k') /\
    (forall k', outer <> k' -> item parsed' k' = item parsed k').
Proof.
  intros Hloc Hgiven Hdefault.
  pose proof (get_method_returns _ _ _ _ Hgiven) as Hvalue.
  destruct (truth given) eqn:Htruth.
  - intros [= <-]. exists location. split; [done|]. split; [|done].
    apply (get_method_truth _ _ _ Hgiven) in Htruth as Hitem.
    rewrite Hitem. unfold filled. by rewrite Htruth.
  - intros (inner & inner' & Hinner & Hinner' & Hk & Hrest & Hrest')%setitem_in_returns.
    rewrite Hloc in Hinner. injection Hinner as <-.
    exists inner'. split; [done|]. split; [|done].
    rewrite Hk. f_equal. unfold filled.
    destruct (item location k) as [y|]; [|done]. subst given. by rewrite Htruth.
Qed.


Lemma table_get_returns {V} (table : string -> V) default v x :
  table_get table default v = Returns x -> x = default \/ exists s, x = table s.
Proof.
  destruct v; simpl; try done; intros [= <-]; [by left.. | right; by eexists | by left].
Qed.

Lemma truth_filled given default : truth default = true -> truth (filled given default) = true.
Proof.
  intros Hd. unfold filled. destruct given as [v|]; [|done].
  by destruct (truth v) eqn:Hv.
Qed.

(** X19.  When [_validate_and_enhance] returns, the result carries the
    original query; its location has a state and a county, each the
    value the reply gave when that value is true and the configured
    default otherwise; its time range has a true [start_date]; its data
    sources and its visualization type are true. *)
Theorem _validate_and_enhance_shape now parsed query res :
  _validate_and_enhance now parsed query = Returns res ->
  exists location time_range start sources visualization,
    item res "original_query" = Some (JStr query) /\
    item res "location" = Some location /\
    item location "state"
      = Some (filled (item parsed "location" ≫= fun l => item l "state")
                     (JStr config.DEFAULT_STATE)) /\
    item location "county"
      = Some (filled (item parsed "location" ≫= fun l => item l "county")
                     (JStr config.DEFAULT_COUNTY)) /\
    item res "time_range" = Some time_range /\
    item time_range "start_date" = Some start /\ truth start = true /\
    item res "data_sources" = Some sources /\ truth sources = true /\
    item res "visualization_type" = Some visualization /\ truth visualization = true.
Proof.
  intros H. unfold _validate_and_enhance in H.
  apply bind_returns in H as (p1 & Hp1 & H). apply setitem_returns in Hp1 as [Hquery Hp1].
  apply bind_returns in H as (loc0 & Hloc0 & H).
  apply bind_returns in H as (p2 & Hp2 & H).
  assert (Hloc2 : exists locA,
             item p2 "location" = Some locA /\
             (forall k, item locA k = item parsed "location" ≫= fun l => item l k) /\
             (forall k, "location" <> k -> item p2 k = item p1 k)).
  { destruct (truth loc0) eqn:Htruth.
    - injection Hp2 as <-. exists loc0.
      pose proof (get_method_truth _ _ _ Hloc0 Htruth) as Hitem.
      split; [done|]. split; [|done]. intros k.
      rewrite <- (Hp1 "location") by done. by rewrite Hitem.
    - apply setitem_returns in Hp2 as [Hitem Hrest]. exists (JDict []).
      split; [done|]. split; [|done]. intros k.
      rewrite <- (Hp1 "location") by done.
      apply get_method_returns in Hloc0. simpl (item (JDict []) k).
      destruct (item p1 "location") as [y|]; [|done]. subst loc0. simpl.
      by rewrite item_falsy. }
  destruct Hloc2 as (locA & HlocA & HlocA_items & Hp2_rest).
  apply bind_returns in H as (locA' & HlocA'%getitem_returns & H).
  rewrite HlocA in HlocA'. injection HlocA' as <-.
  apply bind_returns in H as (state0 & Hstate0 & H).
  apply bind_returns in H as (p3 & Hp3 & H).
  apply (fill_default _ _ _ (JStr config.DEFAULT_STATE) _ _ _ HlocA Hstate0 eq_refl) in Hp3
    as (locB & HlocB & HstateB & HlocB_rest & Hp3_rest).
  apply bind_returns in H as (locB' & HlocB'%getitem_returns & H).
  rewrite HlocB in HlocB'. injection HlocB' as <-.
  apply bind_returns in H as (county0 & Hcounty0 & H).
  apply bind_returns in H as (p4 & Hp4 & H).
  apply (fill_default _ _ _ (JStr config.DEFAULT_COUNTY) _ _ _ HlocB Hcounty0 eq_refl) in Hp4
    as (locC & HlocC & HcountyC & HlocC_rest & Hp4_rest).
  apply bind_returns in H as (range0 & Hrange0 & H).
  apply bind_returns in H as (relative & Hrelative & H).
  apply bind_returns in H as (p5 & Hp5 & H).
  assert (Hp5_rest : forall k, "time_range" <> k -> item p5 k = item p4 k).
  { destruct (truth relative); [|by injection Hp5 as <-].
    apply bind_returns in Hp5 as (start & _ & Hp5).
    destruct (truth start); [by injection Hp5 as <-|].
    apply bind_returns in Hp5 as (relative' & _ & Hp5).
    apply bind_returns in Hp5 as (range & _ & Hp5).
    by apply setitem_returns in Hp5 as [_ Hp5]. }
  apply bind_returns in H as (range1 & Hrange1 & H).
  apply bind_returns in H as (missing & Hmissing & H).
  apply bind_returns in H as (p6 & Hp6 & H).
  assert (Hrange6 : exists time_range start,
             item p6 "time_range" = Some time_range /\
             item time_range "start_date" = Some start /\ truth start = true).
  { destruct missing.
    - apply bind_returns in Hp6 as (start & _ & Hp6).
      apply setitem_returns in Hp6 as [Hp6 _]. by eexists _, _.
    - injection Hp6 as <-. destruct (truth range1); [|done].
      apply bind_returns in Hmissing as (time_range & Hitem%getitem_returns & Hmissing).
      apply bind_returns in Hmissing as (start & Hstart & Hmissing).
      injection Hmissing as Htruth. apply negb_false_iff in Htruth.
      exists time_range, start. split; [done|]. split; [|done].
      by apply get_method_truth. }
  assert (Hp6_rest : forall k, "time_range" <> k -> item p6 k = item p5 k).
  { destruct missing; [|by injection Hp6 as <-].
    apply bind_returns in Hp6 as (start & _ & Hp6).
    by apply setitem_returns in Hp6 as [_ Hp6]. }
  destruct Hrange6 as (time_range & start & Hrange6 & Hstart & Hstart_truth).
  apply bind_returns in H as (sources0 & Hsources0 & H).
  apply bind_returns in H as (p7 & Hp7 & H).
  assert (Hsources7 : (exists sources, item p7 "data_sources" = Some sources /\
                                       truth sources = true) /\
                      forall k, "data_sources" <> k -> item p7 k = item p6 k).
  { destruct (truth sources0) eqn:Htruth.
    - injection Hp7 as <-. split; [|done]. exists sources0. split; [|done].
      by apply get_method_truth.
    - apply bind_returns in Hp7 as (query_type & _ & Hp7).
      apply bind_returns in Hp7 as (inferred & Hinferred & Hp7).
      apply setitem_returns in Hp7 as [Hitem Hrest]. split; [|done].
      eexists. split; [exact Hitem|].
      apply table_get_returns in Hinferred as [-> | [s ->]]; [done|].
      pose proof (_infer_data_sources_nonempty s).
      by destruct (_infer_data_sources s). }
  destruct Hsources7 as [(sources & Hsources & Hsources_truth) Hp7_rest].
  apply bind_returns in H as (visualization0 & Hvisualization0 & H).
  apply bind_returns in H as (p8 & Hp8 & H). injection H as <-.
  assert (Hvisualization8 :
            (exists visualization, item p8 "visualization_type" = Some visualization /\
                                   truth visualization = true) /\
            forall k, "visualization_type" <> k -> item p8 k = item p7 k).
  { destruct (truth visualization0) eqn:Htruth.
    - injection Hp8 as <-. split; [|done]. exists visualization0. split; [|done].
      by apply get_method_truth.
    - apply bind_returns in Hp8 as (query_type & _ & Hp8).
      apply bind_returns in Hp8 as (inferred & Hinferred & Hp8).
      apply setitem_returns in Hp8 as [Hitem Hrest]. split; [|done].
      eexists. split; [exact Hitem|].
      apply table_get_returns in Hinferred as [-> | [s ->]]; [done|].
      simpl. by rewrite _infer_visualization_nonempty. }
  destruct Hvisualization8 as [(visualization & Hvisualization & Hvisualization_truth) Hp8_rest].
  exists locC, time_range, start, sources, visualization.
  split. { by rewrite Hp8_rest, Hp7_rest, Hp6_rest, Hp5_rest, Hp4_rest, Hp3_rest, Hp2_rest. }
  split. { by rewrite Hp8_rest, Hp7_rest, Hp6_rest, Hp5_rest. }
  split. { rewrite HlocC_rest, HstateB by done. by rewrite HlocA_items. }
  split. { rewrite HcountyC, HlocB_rest by done. by rewrite HlocA_items. }
  split. { by rewrite Hp8_rest, Hp7_rest. }
  split; [done|]. split; [done|].
  split. { by rewrite Hp8_rest. }
  done.
Qed.


Lemma _validate_and_enhance_shape_witness :
  exists res,
    _validate_and_enhance today texas_reply "repeat offenders in Texas" = Returns res /\
    exists location time_range start sources visualization,
      item res "original_query" = Some (JStr "repeat offenders in Texas") /\
      item res "location" = Some location /\
      item location "state"
        = Some (filled (item texas_reply "location" ≫= fun l => item l "state")
                       (JStr config.DEFAULT_STATE)) /\
      item location "county"
        = Some (filled (item texas_reply "location" ≫= fun l => item l "county")
                       (JStr config.DEFAULT_COUNTY)) /\
      item res "time_range" = Some time_range /\
      item time_range "start_date" = Some start /\ truth start = true /\
      item res "data_sources" = Some sources /\ truth sources = true /\
      item res "visualization_type" = Some visualization /\ truth visualization = true.
Proof.
  eexists. split; [vm_compute; reflexivity|].
  apply (_validate_and_enhance_shape today texas_reply "repeat offenders in Texas").
  vm_compute. reflexivity.
Defined.

(** X20.  With a client, [process_query] returns either the validated
    reply of the model or the fallback parse of the query; it raises
    only an exception that the fallback parse of the same query raises,
    and on a query without a decimal digit it raises nothing, whatever
    the model replied. *)
Theorem process_query_with_client_cases now reply query :
  (forall res,
     process_query_with_client now reply query = Ok res ->
     (exists parsed,
        reply = Some parsed /\ _validate_and_enhance now parsed query = Returns res) \/
     (exists pq, _fallback_parse now query = Ok pq /\ res = parsed_dict pq)) /\
  (forall e,
     process_query_with_client now reply query = Raise e ->
     _fallback_parse now query = Raise e) /\
  (1096 <= now <= MAXORDINAL ->
   digit_free query = true ->
   exists res, process_query_with_client now reply query = Ok res).
Proof.
  assert (Hfallback :
            forall r : result json,
              (pq ← _fallback_parse now query; mret (parsed_dict pq)) = r ->
              match r with
              | Ok res => exists pq, _fallback_parse now query = Ok pq /\ res = parsed_dict pq
              | Raise e => _fallback_parse now query = Raise e
              end).
  { intros r <-. destruct (_fallback_parse now query) as [pq|e]; [|done].
    rewrite bind_ok_result. by exists pq. }
  unfold process_query_with_client. cbv zeta. split; [|split].
  - intros res Hres. destruct reply as [parsed|].
    + destruct (_validate_and_enhance now parsed query) as [validated|r] eqn:Hvalid.
      * injection Hres as <-. left. by exists parsed.
      * right. apply (Hfallback _ Hres).
    + right. apply (Hfallback _ Hres).
  - intros e Hraise. destruct reply as [parsed|].
    + destruct (_validate_and_enhance now parsed query) as [validated|r]; [done|].
      apply (Hfallback _ Hraise).
    + apply (Hfallback _ Hraise).
  - intros Hnow Hfree.
    assert (Hparse : exists pq, _fallback_parse now query = Ok pq).
    { unfold _fallback_parse.
      rewrite (default_range_without_digits now query Hnow Hfree), bind_ok_result.
      by eexists. }
    destruct Hparse as [pq Hpq]. destruct reply as [parsed|].
    + destruct (_validate_and_enhance now parsed query) as [validated|r];
        [by eexists|]. rewrite Hpq, bind_ok_result. by eexists.
    + rewrite Hpq, bind_ok_result. by eexists.
Qed.

Lemma process_query_with_client_cases_witness :
  (1096 <= today <= MAXORDINAL) /\
  digit_free "Which facilities are chronic violators?" = true /\
  exists res,
    process_query_with_client today (Some (JList [])) "Which facilities are chronic violators?"
    = Ok res.
Proof.
  split; [by vm_compute|]. split; [reflexivity|].
  apply (proj2 (proj2 (process_query_with_client_cases today (Some (JList []))
                         "Which facilities are chronic violators?")));
    [by vm_compute | reflexivity].
Defined.

End ModelReplyFacts.

(** ** Properties of the summary statistics *)

Module SummaryFacts.
Import Text Calendar QueryProcessor Pandas AnalysisEngine Specification Scenarios.
Import helpers Properties Outcome Summary.
Import QueryProcessorFacts AnalysisEngineFacts FallbackParserFacts EngineFacts ModelReplyFacts.

Lemma builtin_returns {A} (r : result A) a : builtin r = Returns a -> r = Ok a.
Proof. destruct r; simpl; congruence. Qed.

Lemma lookup_put results k v k' :
  dict_lookup (put results k v) (KStr k')
  = match dict_lookup results (KStr k') with
    | Some x => Some x
    | None => if String.eqb k k' then Some v else None
    end.
Proof.
  unfold put. induction results as [|[k0 v0] results IH]; simpl; [done|].
  destruct (key_eqb k0 (KStr k')); [done | exact IH].
Qed.

Lemma lookup_put_found results k v k' x :
  dict_lookup results (KStr k') = Some x ->
  dict_lookup (put results k v) (KStr k') = Some x.
Proof. intros H. by rewrite lookup_put, H. Qed.

Lemma days_above_bounds bound rain :
  0 <= days_above bound rain <= Z.of_nat (length (present rain)).
Proof.
  unfold days_above. split; [lia|]. apply inj_le.
  induction (present rain) as [|x xs IH]; simpl; [done|].
  destruct (negb (Qle_bool x bound)); simpl; lia.
Qed.

Lemma days_above_antitone low high rain :
  (low <= high)%Q -> days_above high rain <= days_above low rain.
Proof.
  intros Hle. unfold days_above. apply inj_le.
  induction (present rain) as [|x xs IH]; simpl; [done|].
  destruct (Qle_bool x high) eqn:Hhigh; simpl.
  - destruct (negb (Qle_bool x low)); simpl; lia.
  - assert (Qle_bool x low = false) as ->.
    { destruct (Qle_bool x low) eqn:Hlow; [|done].
      apply Qle_bool_iff in Hlow.
      assert (Qle_bool x high = true) by (apply Qle_bool_iff; Lqa.lra). congruence. }
    simpl. lia.
Qed.

(** What [generate_summary_stats] returns, block by block. *)
Lemma generate_summary_stats_blocks data summary :
  generate_summary_stats data = Returns summary ->
  let violations := frame_of data "violations" in
  let precip := frame_of data "precipitation" in
  let population := frame_of data "population" in
  exists first second third,
    summary = PDict third /\
    (if negb (empty violations)
     then exists facet, violations_facet violations = Ok facet /\
                        first = put [] "violations" facet
     else first = []) /\
    (if negb (empty precip) && has_column precip "precipitation_inches"
     then exists rain, (getitem precip "precipitation_inches" ≫= as_nums) = Ok rain /\
                       second = put first "weather" (weather_facet rain)
     else second = first) /\
    (if negb (empty population) && has_column population "population"
     then exists c people,
            getitem population "population" = Ok c /\
            population_value c = Returns people /\
            let with_people :=
              put second "demographics"
                (PDict [(KStr "population",
                         match people with Some n => PInt n | None => PNone end)]) in
            match people with
            | Some n =>
                if negb (empty violations) && negb (n =? 0)
                then third =
                     put with_people "per_capita"
                       (PDict [(KStr "violations_per_100k",
                                PNum (round2 (inject_Z (Z.of_nat (nrows violations))
                                              / inject_Z n * 100000))%Q)])
                else third = with_people
            | None => third = with_people
            end
     else third = second).
Proof.
  unfold generate_summary_stats. cbv zeta.
  intros (first & Hfirst & H)%bind_returns.
  apply bind_returns in H as (second & Hsecond & H).
  apply bind_returns in H as (third & Hthird & H). injection H as <-.
  exists first, second, third. split; [done|]. split; [|split].
  - destruct (negb (empty (frame_of data "violations"))); [|by injection Hfirst as <-].
    apply bind_returns in Hfirst as (facet & Hfacet & Hfirst). injection Hfirst as <-.
    exists facet. split; [|done].
    by apply builtin_returns.
  - destruct (negb (empty (frame_of data "precipitation")) && _);
      [|by injection Hsecond as <-].
    apply bind_returns in Hsecond as (rain & Hrain & Hsecond). injection Hsecond as <-.
    exists rain. split; [|done].
    by apply builtin_returns.
  - destruct (negb (empty (frame_of data "population")) && _);
      [|by injection Hthird as <-].
    apply bind_returns in Hthird as (people & Hpeople & Hthird).
    apply bind_returns in Hpeople as (c & Hc & Hpeople).
    exists c, people. split.
    { by apply builtin_returns. }
    split; [done|]. cbv zeta in *.
    destruct people as [n|]; [|by injection Hthird as <-].
    destruct (negb (empty (frame_of data "violations")) && negb (n =? 0));
      by injection Hthird as <-.
Qed.



(** X22.  The weather facet of the summary counts the rainy days and
    the heavy-rain days among the days that have a precipitation value:
    there are no more heavy-rain days than rainy days, and no more rainy
    days than days with a value. *)
Theorem weather_summary_days data rain summary :
  empty (frame_of data "precipitation") = false ->
  getitem (frame_of data "precipitation") "precipitation_inches" = Ok (Nums rain) ->
  generate_summary_stats data = Returns summary ->
  exists weather rainy heavy,
    get summary "weather" = Some weather /\
    get weather "rainy_days" = Some (PInt rainy) /\
    get weather "heavy_rain_days" = Some (PInt heavy) /\
    rainy = days_above (1 # 10) rain /\
    heavy = days_above 1 rain /\
    0 <= heavy <= rainy /\ rainy <= Z.of_nat (length (present rain)).
Proof.
  intros Hempty Hrain
    (first & second & third & -> & Hfirst & Hsecond & Hthird)%generate_summary_stats_blocks.
  cbv zeta in *. rewrite Hempty in Hsecond. unfold has_column in Hsecond.
  unfold getitem in Hrain.
  destruct (lookup_column (columns (frame_of data "precipitation")) "precipitation_inches")
    as [c|] eqn:Hc; [|done].
  injection Hrain as ->. cbn [negb andb] in Hsecond.
  destruct Hsecond as (rain' & Hrain' & ->).
  unfold getitem in Hrain'. rewrite Hc in Hrain'. simpl in Hrain'. injection Hrain' as <-.
  exists (weather_facet rain), (days_above (1 # 10) rain), (days_above 1 rain).
  assert (Hsecond : dict_lookup (put first "weather" (weather_facet rain)) (KStr "weather")
                    = Some (weather_facet rain)).
  { rewrite lookup_put.
    destruct (negb (empty (frame_of data "violations")));
      [by destruct Hfirst as (facet & _ & ->) | by subst first]. }
  split.
  { unfold get.
    destruct (negb (empty (frame_of data "population")) && _); [|by subst third].
    destruct Hthird as (c & people & _ & _ & Hthird).
    destruct people as [n|]; [|subst third; by apply lookup_put_found].
    destruct (_ && negb (n =? 0)); subst third;
      repeat (first [exact Hsecond | apply lookup_put_found]). }
  split; [done|]. split; [done|]. split; [done|]. split; [done|].
  pose proof (days_above_bounds 1 rain). pose proof (days_above_bounds (1 # 10) rain).
  pose proof (days_above_antitone (1 # 10) 1 rain ltac:(done)). lia.
Qed.

Lemma weather_summary_days_witness :
  exists summary weather rainy heavy,
    generate_summary_stats summary_data = Returns summary /\
    get summary "weather" = Some weather /\
    get weather "rainy_days" = Some (PInt rainy) /\
    get weather "heavy_rain_days" = Some (PInt heavy) /\
    rainy = days_above (1 # 10) wet_days /\
    heavy = days_above 1 wet_days /\
    0 <= heavy <= rainy /\ rainy <= Z.of_nat (length (present wet_days)).
Proof.
  assert (Hrun : exists summary, generate_summary_stats summary_data = Returns summary)
    by (eexists; vm_compute; reflexivity).
  destruct Hrun as [summary Hrun].
  destruct (weather_summary_days summary_data wet_days summary eq_refl eq_refl Hrun)
    as (weather & rainy & heavy & H).
  by exists summary, weather, rainy, heavy.
Defined.

End SummaryFacts.

(** ** Properties of the data prepared for the correlation chart *)

Module AppFacts.
Import Text Calendar QueryProcessor Pandas AnalysisEngine Specification Scenarios.
Import helpers App Properties.
Import QueryProcessorFacts AnalysisEngineFacts FallbackParserFacts EngineFacts.

Lemma prepare_correlation_data_keeps n violations precipitation :
  keeps n (prepare_correlation_data violations precipitation) (fun r => (n <= r)%nat).
Proof.
  unfold prepare_correlation_data.
  eapply keeps_bind; [apply keeps_read|]. intros vframe _.
  eapply keeps_bind; [apply keeps_read|]. intros pframe _.
  apply keeps_if; [apply keeps_new|].
  eapply keeps_bind; [apply keeps_copy|]. intros v Hv. cbv beta in Hv.
  eapply keeps_bind; [apply keeps_read|]. intros vframe' _.
  eapply keeps_bind; [apply keeps_lift|]. intros date _.
  eapply keeps_bind; [by apply keeps_setcol|]. intros _ _.
  eapply keeps_bind; [apply keeps_read|]. intros vframe'' _.
  eapply keeps_bind; [apply keeps_lift|]. intros daily _.
  eapply keeps_bind; [apply keeps_copy|]. intros p Hp. cbv beta in Hp.
  eapply keeps_bind; [apply keeps_read|]. intros pframe' _.
  eapply keeps_bind; [apply keeps_lift|]. intros pdate _.
  eapply keeps_bind; [by apply keeps_setcol|]. intros _ _.
  eapply keeps_bind; [apply keeps_read|]. intros pframe'' _.
  eapply keeps_bind; [apply keeps_lift|]. intros selected _.
  eapply keeps_bind; [apply keeps_new|]. intros s Hs. cbv beta in Hs.
  eapply keeps_bind; [apply keeps_read|]. intros sframe _.
  eapply keeps_bind; [apply keeps_lift|]. intros joined _.
  eapply keeps_bind; [apply keeps_new|]. intros m Hm. cbv beta in Hm.
  eapply keeps_bind; [apply keeps_read|]. intros mframe _.
  eapply keeps_bind; [apply keeps_lift|]. intros counts _.
  eapply keeps_bind; [by apply keeps_setcol|]. intros _ _.
  by apply keeps_ret.
Qed.

Lemma lookup_day_nonneg daily d n :
  Forall (fun kv : Z * Z => 1 <= snd kv) daily -> lookup_day daily d = Some n -> 1 <= n.
Proof.
  induction 1 as [|[d' n'] daily Hn Hall IH]; simpl; [done|].
  destruct (d' =? d); [by intros [= <-] | exact IH].
Qed.

Lemma fillna0_counts daily (dates : list (option Z)) :
  Forall (fun kv : Z * Z => 1 <= snd kv) daily ->
  Forall (fun c : option Q => exists q, c = Some q /\ (0 <= q)%Q)
    (fillna0 (map (fun d => d' ← d; n ← lookup_day daily d'; Some (inject_Z n)) dates)).
Proof.
  intros Hdaily. unfold fillna0. rewrite map_map. apply Forall_map, Forall_forall.
  intros d _. destruct d as [d|]; simpl; [|by exists 0%Q].
  destruct (lookup_day daily d) as [n|] eqn:Hn; simpl; [|by exists 0%Q].
  exists (inject_Z n). split; [done|].
  apply lookup_day_nonneg in Hn; [|done].
  change 0%Q with (inject_Z 0). rewrite <- Zle_Qle. lia.
Qed.

(** X23.  [prepare_correlation_data] leaves the two tables it is given
    as they were; it returns an empty frame when one of them is empty,
    and otherwise a new frame with one row for every row of the
    precipitation table and exactly the columns [date],
    [precipitation_inches] and [violation_count], in which every day has
    a count that is a number and is not negative. *)
Theorem prepare_correlation_data_merged σ (violations precipitation : nat) vf pf :
  σ !! violations = Some vf ->
  σ !! precipitation = Some pf ->
  take (length σ) (prepare_correlation_data violations precipitation σ).2 = σ /\
  forall merged,
    (prepare_correlation_data violations precipitation σ).1 = Ok merged ->
    exists frame,
      (length σ <= merged)%nat /\
      (prepare_correlation_data violations precipitation σ).2 !! merged = Some frame /\
      if empty vf || empty pf then frame = no_frame
      else
        nrows frame = nrows pf /\
        exists dates rain counts,
          columns frame = [("date", Times dates); ("precipitation_inches", rain);
                           ("violation_count", Nums counts)] /\
          lookup_column (columns pf) "date" = Some (Times dates) /\
          lookup_column (columns pf) "precipitation_inches" = Some rain /\
          length counts = length dates /\
          Forall (fun c => exists q, c = Some q /\ (0 <= q)%Q) counts.
Proof.
  intros Hv Hp. split.
  { eapply keeps_prefix, prepare_correlation_data_keeps. }
  intros merged Hmerged.
  assert (Hfresh : (length σ <= merged)%nat).
  { by apply (prepare_correlation_data_keeps (length σ) violations precipitation σ). }
  revert Hmerged.
  destruct (prepare_correlation_data violations precipitation σ) as [r σ'] eqn:Hrun.
  simpl. intros ->. revert Hrun. unfold prepare_correlation_data.
  rewrite run_bind, (run_read _ _ _ Hv), run_bind, (run_read _ _ _ Hp).
  destruct (empty vf || empty pf).
  { rewrite run_new. intros [= <- <-]. exists no_frame. split; [done|]. split; [|done].
    apply lookup_fresh. }
  rewrite run_bind, (run_copy _ _ _ Hv).
  rewrite run_bind, (run_read _ _ _ (lookup_fresh _ _)).
  rewrite run_bind, run_lift.
  destruct (getitem vf "violation_date" ≫= to_datetime) as [date|e]; [|done].
  rewrite run_bind, (run_setcol _ _ _ _ _ (lookup_fresh _ _)), insert_fresh.
  rewrite run_bind, (run_read _ _ _ (lookup_fresh _ _)).
  rewrite run_bind, run_lift.
  destruct (daily_violations _) as [daily|e] eqn:Hdaily; [|done].
  set (σ1 := σ ++ [setitem vf "date" date]).
  assert (Hp1 : σ1 !! precipitation = Some pf) by (by apply lookup_app_l_Some).
  rewrite run_bind, (run_copy _ _ _ Hp1).
  rewrite run_bind, (run_read _ _ _ (lookup_fresh _ _)).
  rewrite run_bind, run_lift.
  destruct (getitem pf "date" ≫= to_datetime) as [pdate|e] eqn:Hpdate; [|done].
  rewrite run_bind, (run_setcol _ _ _ _ _ (lookup_fresh _ _)), insert_fresh.
  rewrite run_bind, (run_read _ _ _ (lookup_fresh _ _)).
  rewrite run_bind, run_lift.
  cbn [select_columns]. rewrite getitem_setitem_eq, bind_ok.
  rewrite getitem_setitem_ne by done.
  destruct (getitem pf "precipitation_inches") as [rain|e] eqn:Hrain; [|done].
  rewrite !bind_ok, !ret_ok.
  rewrite run_bind, run_new.
  rewrite run_bind, (run_read _ _ _ (lookup_fresh _ _)).
  rewrite run_bind, run_lift.
  unfold merge_left at 1, getitem at 1. cbn [columns lookup_column String.eqb Ascii.eqb
    Bool.eqb]. rewrite bind_ok.
  unfold getitem in Hpdate.
  destruct (lookup_column (columns pf) "date") as [c|] eqn:Hc; [|done].
  rewrite bind_ok in Hpdate. unfold to_datetime in Hpdate.
  destruct c as [| | | |dates]; try done. simpl in Hpdate. injection Hpdate as <-.
  simpl (as_times _). rewrite bind_ok.
  unfold has_column. cbn [columns lookup_column String.eqb Ascii.eqb Bool.eqb].
  rewrite ret_ok.
  rewrite run_bind, run_new.
  rewrite run_bind, (run_read _ _ _ (lookup_fresh _ _)).
  rewrite run_bind, run_lift.
  unfold getitem at 1. cbn [columns lookup_column String.eqb Ascii.eqb Bool.eqb app].
  rewrite bind_ok. simpl (as_nums _). cbv beta iota.
  rewrite run_bind, (run_setcol _ _ _ _ _ (lookup_fresh _ _)), insert_fresh.
  rewrite run_ret. intros [= <- <-].
  eexists. split; [done|]. split; [apply lookup_fresh|].
  split; [reflexivity|].
  eexists dates, rain, _. split; [reflexivity|].
  unfold getitem in Hrain.
  destruct (lookup_column (columns pf) "precipitation_inches"); [|done].
  injection Hrain as ->.
  split; [done|]. split; [done|]. split.
  - unfold fillna0. by rewrite !length_map.
  - apply fillna0_counts. unfold daily_violations in Hdaily.
    destruct (getitem _ "date" ≫= as_times) as [vdates|e]; [|done].
    rewrite bind_ok in Hdaily. injection Hdaily as <-. apply group_sizes_positive.
Qed.

Lemma prepare_correlation_data_merged_witness :
  exists frame,
    (prepare_correlation_data 0 1 [dated_table; weather_of_days 3]).2 !! 5%nat = Some frame /\
    nrows frame = 3%nat /\
    map fst (columns frame) = ["date"; "precipitation_inches"; "violation_count"].
Proof.
  destruct (prepare_correlation_data_merged [dated_table; weather_of_days 3] 0 1
              dated_table (weather_of_days 3) eq_refl eq_refl) as [_ Hmerged].
  destruct (Hmerged 5%nat) as (frame & _ & Hframe & Hshape); [vm_compute; reflexivity|].
  change (empty dated_table || empty (weather_of_days 3)) with false in Hshape.
  destruct Hshape as (Hrows & dates & rain & counts & Hcolumns & _).
  exists frame. split; [exact Hframe|]. split; [exact Hrows|].
  rewrite Hcolumns. reflexivity.
Defined.

End AppFacts.
